(** * Astro-Scribe: the hybrid retrieval and answer-generation core

    A shallow embedding of the question-answering core of the repository
    ([src/rag_system.py], [src/agents.py], [src/document_processor.py] and the
    store managers they call) together with the properties the specification
    states about it.

    The program:
    - [Binary64]: Python [float] (IEEE-754 binary64) on top of the Standard
      Library's [SpecFloat], with comparison by value and [round(x, 2)];
    - [Py]: Python values, exceptions and the builtins the code uses;
    - [Data]: the dicts the code passes around;
    - [Effects]: the external services, the log of the calls made to them,
      and computations that call services and may raise;
    - [DocumentProcessor], [Store], [Agents], [Rag]: the code, function by
      function;
    - [Text], [DocumentText], [Database], [Upload]: more of
      [src/document_processor.py], the chunk insert of [src/database.py] and
      the loops of [pages/upload.py] that store the chunks.

    The properties:
    - [ChunkPositions]: positions of chunks (C9);
    - [Sources]: the source list of an answer (C5);
    - [Threshold]: the similarity cutoff (C3);
    - [Pipeline]: the verify stage (C7);
    - [EmbeddingCalls]: embedding requests per retrieval (C8);
    - [Orchestrator]: [ask_question] never raises (C1);
    - [CompletionFailure]: a completion provider that always raises (C4);
    - [ConfidenceTheorems]: the confidence score and its fallback (C2, C10);
    - [MergeTheorem]: the merged evidence list (C6);
    - [ChunkWindows]: which words each chunk holds;
    - [AgentCalls], [QuestionCalls]: the requests of the agents and of one
      question, the size of an answer, the chat log;
    - [RetrievalFacts]: the graph queries, retrieval without an embedding,
      the rows a vector search returns;
    - [TitleFacts], [EmbeddingFacts]: titles, fallback summaries, embedding
      requests;
    - [DatabaseFacts], [UploadFacts]: the embeddings stored with the chunks;
    - [AnswerConfidence]: the range of the confidence of an answer. *)

From Stdlib Require Import ZArith List String Ascii Bool Lia DecimalString.
From Stdlib Require Import Sorting.Sorted Sorting.Permutation.
From Stdlib Require Import Floats.SpecFloat.
From stdpp Require Import gmap strings list fin_maps.

Set Warnings "-register-all".
Local Open Scope string_scope.
Local Open Scope list_scope.
Local Open Scope Z_scope.

(* ===================================================================== *)
(** * Python floats *)
(* ===================================================================== *)

Module Binary64.

Definition prec : Z := 53.
Definition emax : Z := 1024.

(** A Python [float]. The arithmetic below is the Standard Library's
    executable specification of IEEE-754 (round to nearest, ties to even). *)
Definition float : Type := spec_float.

Definition add : float -> float -> float := SFadd prec emax.
Definition mul : float -> float -> float := SFmul prec emax.
Definition div : float -> float -> float := SFdiv prec emax.

(** [float(n)] for a Python [int]: the nearest binary64 (an infinity when
    [n] is out of range; the callers turn that into [OverflowError]). *)
Definition of_int (n : Z) : float := binary_normalize prec emax n 0 false.

(** The quotient [n / d] of two integers, rounded once.  It is how a
    decimal literal with few digits denotes a float ([0.7] is
    [ratio 7 10]) and how Python divides an [int] by an [int]. *)
Definition ratio (n d : Z) : float :=
  match n, d with
  | Zpos p, Zpos q => SFdiv prec emax (S754_finite false p 0) (S754_finite false q 0)
  | Zneg p, Zpos q => SFdiv prec emax (S754_finite true p 0) (S754_finite false q 0)
  | Zpos p, Zneg q => SFdiv prec emax (S754_finite false p 0) (S754_finite true q 0)
  | Zneg p, Zneg q => SFdiv prec emax (S754_finite true p 0) (S754_finite true q 0)
  | Z0, Zneg _ => S754_zero true
  | Z0, _ => S754_zero false
  | _, Z0 => S754_nan
  end.

Definition zero : float := S754_zero false.
Definition f0_1 : float := Eval vm_compute in ratio 1 10.
Definition f0_3 : float := Eval vm_compute in ratio 3 10.
Definition f0_5 : float := Eval vm_compute in ratio 1 2.
Definition f0_7 : float := Eval vm_compute in ratio 7 10.
Definition f0_8 : float := Eval vm_compute in ratio 8 10.
Definition one : float := Eval vm_compute in of_int 1.

(** ** Exact order

    The value of a float as an extended real: [m * 2^e], an infinity, or
    not a number.  Python compares floats with each other, and floats with
    ints, by value; [ecompare] is that comparison. *)
Inductive ereal :=
| ENaN
| ENegInf
| EFin (m e : Z)
| EPosInf.

Definition to_ereal (x : float) : ereal :=
  match x with
  | S754_zero _ => EFin 0 0
  | S754_infinity s => if s then ENegInf else EPosInf
  | S754_nan => ENaN
  | S754_finite s m e => EFin (cond_Zopp s (Zpos m)) e
  end.

Definition int_ereal (n : Z) : ereal := EFin n 0.

Definition ecompare (x y : ereal) : option comparison :=
  match x, y with
  | ENaN, _ | _, ENaN => None
  | ENegInf, ENegInf => Some Eq
  | ENegInf, _ => Some Lt
  | _, ENegInf => Some Gt
  | EPosInf, EPosInf => Some Eq
  | EPosInf, _ => Some Gt
  | _, EPosInf => Some Lt
  | EFin m1 e1, EFin m2 e2 =>
      let e := Z.min e1 e2 in
      Some (Z.compare (m1 * 2 ^ (e1 - e)) (m2 * 2 ^ (e2 - e)))
  end.

Definition eltb (x y : ereal) : bool :=
  match ecompare x y with Some Lt => true | _ => false end.
Definition eleb (x y : ereal) : bool :=
  match ecompare x y with Some Lt | Some Eq => true | _ => false end.

Definition egtb (x y : ereal) : bool :=
  match ecompare x y with Some Gt => true | _ => false end.

Definition ltb (x y : float) : bool := eltb (to_ereal x) (to_ereal y).
Definition gtb (x y : float) : bool := egtb (to_ereal x) (to_ereal y).
Definition leb (x y : float) : bool := eleb (to_ereal x) (to_ereal y).

(** ** [round(x, 2)]

    CPython prints [x] with two digits after the point, correctly rounded
    (ties to even on the exact binary value), and reads the decimal string
    back as the nearest float; non-finite values and zeros round to
    themselves, and the sign is kept. *)
Definition round_half_even (a b : Z) : Z :=
  let q := a / b in
  match Z.compare (2 * (a mod b)) b with
  | Lt => q
  | Gt => q + 1
  | Eq => if Z.even q then q else q + 1
  end.

(** The integer nearest to [100 * m * 2^e]. *)
Definition hundredths (m : positive) (e : Z) : Z :=
  if 0 <=? e then 100 * Zpos m * 2 ^ e
  else round_half_even (100 * Zpos m) (2 ^ (- e)).

Definition round2 (x : float) : float :=
  match x with
  | S754_finite s m e =>
      match hundredths m e with
      | Zpos p => SFdiv prec emax (S754_finite s p 0) (S754_finite false 100 0)
      | _ => S754_zero s
      end
  | _ => x
  end.

End Binary64.


(* ===================================================================== *)
(** * Python values, exceptions and builtins *)
(* ===================================================================== *)

Module Py.
Import Binary64.

(** A Python [str] is a string over the first 256 code points. *)
Definition str : Type := string.

(** The scalar values that occur as fields of the rows the stores return. *)
Inductive value :=
| VNone
| VInt (n : Z)
| VFloat (x : float)
| VStr (s : str).

(** An instance of a subclass of [Exception]: its class and [str(e)]. *)
Record exn := Exn { exn_class : string; exn_str : string }.

Inductive outcome (A : Type) :=
| Return (a : A)
| Raise (e : exn).
Arguments Return {A} a.
Arguments Raise {A} e.

#[global] Instance outcome_ret : MRet outcome := fun A a => Return a.
#[global] Instance outcome_bind : MBind outcome := fun A B f m =>
  match m with
  | Return a => f a
  | Raise e => Raise e
  end.

Definition dquote : string := String "034"%char EmptyString.

Definition type_name (v : value) : string :=
  match v with
  | VNone => "NoneType"
  | VInt _ => "int"
  | VFloat _ => "float"
  | VStr _ => "str"
  end.

Definition TypeError (msg : string) : exn := Exn "TypeError" msg.
Definition ValueError (msg : string) : exn := Exn "ValueError" msg.
Definition KeyError (msg : string) : exn := Exn "KeyError" msg.
Definition IndexError (msg : string) : exn := Exn "IndexError" msg.
Definition OverflowError (msg : string) : exn := Exn "OverflowError" msg.
Definition ZeroDivisionError (msg : string) : exn := Exn "ZeroDivisionError" msg.

Definition unsupported_operand (op : string) (a b : value) : exn :=
  TypeError ("unsupported operand type(s) for " +:+ op +:+ ": '" +:+ type_name a
             +:+ "' and '" +:+ type_name b +:+ "'").

Definition not_supported_between (op : string) (a b : value) : exn :=
  TypeError ("'" +:+ op +:+ "' not supported between instances of '" +:+ type_name a
             +:+ "' and '" +:+ type_name b +:+ "'").

(** ** Truth values *)
Definition is_zero (x : float) : bool :=
  match x with S754_zero _ => true | _ => false end.

Definition truthy (v : value) : bool :=
  match v with
  | VNone => false
  | VInt n => negb (n =? 0)
  | VFloat x => negb (is_zero x)
  | VStr s => negb (String.eqb s "")
  end.

(** ** Arithmetic *)
Definition float_of_int (n : Z) : outcome float :=
  match of_int n with
  | S754_infinity _ => Raise (OverflowError "int too large to convert to float")
  | x => Return x
  end.

(** [a + b] *)
Definition py_add (a b : value) : outcome value :=
  match a, b with
  | VInt m, VInt n => Return (VInt (m + n))
  | VInt m, VFloat y => x ← float_of_int m; Return (VFloat (add x y))
  | VFloat x, VInt n => y ← float_of_int n; Return (VFloat (add x y))
  | VFloat x, VFloat y => Return (VFloat (add x y))
  | VStr s, VStr t => Return (VStr (s +:+ t))
  | VStr _, _ =>
      Raise (TypeError ("can only concatenate str (not " +:+ dquote +:+ type_name b
                        +:+ dquote +:+ ") to str"))
  | _, _ => Raise (unsupported_operand "+" a b)
  end.

(** [a / b] *)
Definition py_truediv (a b : value) : outcome value :=
  match a, b with
  | VInt m, VInt n =>
      if n =? 0 then Raise (ZeroDivisionError "division by zero")
      else match ratio m n with
           | S754_infinity _ =>
               Raise (OverflowError "integer division result too large for a float")
           | q => Return (VFloat q)
           end
  | VInt m, VFloat y =>
      x ← float_of_int m;
      if is_zero y then Raise (ZeroDivisionError "float division by zero")
      else Return (VFloat (div x y))
  | VFloat x, VInt n =>
      y ← float_of_int n;
      if is_zero y then Raise (ZeroDivisionError "float division by zero")
      else Return (VFloat (div x y))
  | VFloat x, VFloat y =>
      if is_zero y then Raise (ZeroDivisionError "float division by zero")
      else Return (VFloat (div x y))
  | _, _ => Raise (unsupported_operand "/" a b)
  end.

(** [n * x] for an [int] and a [float]. *)
Definition int_mul_float (n : Z) (x : float) : outcome float :=
  y ← float_of_int n; Return (mul y x).

(** ** Comparison: numbers by value, strings by code points; anything else
    raises [TypeError] (the [op] only names the operator in the message). *)
Definition py_compare (op : string) (a b : value) : outcome (option comparison) :=
  match a, b with
  | VInt m, VInt n => Return (Some (Z.compare m n))
  | VInt m, VFloat y => Return (ecompare (int_ereal m) (to_ereal y))
  | VFloat x, VInt n => Return (ecompare (to_ereal x) (int_ereal n))
  | VFloat x, VFloat y => Return (ecompare (to_ereal x) (to_ereal y))
  | VStr s, VStr t => Return (Some (String.compare s t))
  | _, _ => Raise (not_supported_between op a b)
  end.

Definition is_lt (c : option comparison) : bool :=
  match c with Some Lt => true | _ => false end.
Definition is_gt (c : option comparison) : bool :=
  match c with Some Gt => true | _ => false end.
Definition is_ge (c : option comparison) : bool :=
  match c with Some Gt | Some Eq => true | _ => false end.

Definition py_lt (a b : value) : outcome bool := c ← py_compare "<" a b; Return (is_lt c).
Definition py_gt (a b : value) : outcome bool := c ← py_compare ">" a b; Return (is_gt c).
Definition py_ge (a b : value) : outcome bool := c ← py_compare ">=" a b; Return (is_ge c).

(** [min(a, b)]: the first argument unless the second is smaller. *)
Definition py_min (a b : value) : outcome value :=
  c ← py_lt b a; Return (if (c : bool) then b else a).

(** [sum(l)]: one addition per item, from the left, starting at the int [0]
    (the compensated float summation of recent CPython is not modelled). *)
Fixpoint sum_from (acc : value) (l : list value) : outcome value :=
  match l with
  | [] => Return acc
  | v :: l' => acc' ← py_add acc v; sum_from acc' l'
  end.
Definition py_sum (l : list value) : outcome value := sum_from (VInt 0) l.

(** [round(v, 2)] *)
Definition py_round2 (v : value) : outcome value :=
  match v with
  | VFloat x => Return (VFloat (round2 x))
  | VInt n => Return (VInt n)
  | _ => Raise (TypeError ("type " +:+ type_name v +:+ " doesn't define __round__ method"))
  end.

Definition py_len {A} (l : list A) : Z := Z.of_nat (length l).

(** ** Sequences *)

(** [l[start:stop]] with Python's treatment of negative and out-of-range
    bounds. *)
Definition clamp_index (n i : Z) : Z :=
  if i <? 0 then Z.max (i + n) 0 else Z.min i n.

Definition py_slice {A} (l : list A) (start stop : Z) : list A :=
  let n := py_len l in
  let lo := clamp_index n start in
  let hi := clamp_index n stop in
  take (Z.to_nat (hi - lo)) (drop (Z.to_nat lo) l).

(** [range(start, stop, step)]; a zero step raises [ValueError]. *)
Definition range_length (start stop step : Z) : Z :=
  if 0 <? step then
    if start <? stop then (stop - start - 1) / step + 1 else 0
  else
    if stop <? start then (start - stop - 1) / (- step) + 1 else 0.

Definition py_range (start stop step : Z) : outcome (list Z) :=
  if step =? 0 then Raise (ValueError "range() arg 3 must not be zero")
  else Return (map (fun k => start + Z.of_nat k * step)
                   (seq 0 (Z.to_nat (range_length start stop step)))).

(** [sep.join(l)] *)
Definition py_join (sep : str) (l : list str) : str := String.concat sep l.

(** [c.isspace()] for a code point below 256. *)
Definition isspace (c : ascii) : bool :=
  let n := nat_of_ascii c in
  ((9 <=? n) && (n <=? 13) || (28 <=? n) && (n <=? 32) || (n =? 133) || (n =? 160))%nat.

(** [s.split()]: the maximal runs of non-whitespace characters. *)
Fixpoint split_from (word : list ascii) (s : str) : list str :=
  match s with
  | EmptyString =>
      match word with [] => [] | _ => [string_of_list_ascii (rev word)] end
  | String c s' =>
      if isspace c then
        match word with
        | [] => split_from [] s'
        | _ => string_of_list_ascii (rev word) :: split_from [] s'
        end
      else split_from (c :: word) s'
  end.
Definition py_split (s : str) : list str := split_from [] s.

(** [s.strip()] *)
Fixpoint lstrip (s : str) : str :=
  match s with
  | EmptyString => EmptyString
  | String c s' => if isspace c then lstrip s' else s
  end.
Definition string_rev (s : str) : str :=
  string_of_list_ascii (rev (list_ascii_of_string s)).
Definition py_strip (s : str) : str := string_rev (lstrip (string_rev (lstrip s))).

Definition str_truthy (s : str) : bool := negb (String.eqb s "").

(** ** [list.sort(key=..., reverse=True)]

    CPython reverses the list, sorts it stably in ascending order with [<]
    on the keys, and reverses the result.  The stable sort is modelled by
    insertion; on keys that [<] orders totally every stable sort returns
    the same list, and a comparison that raises aborts the sort.  Which two
    keys are compared first is not modelled after CPython: on keys that [<]
    does not order (a NaN, or two values it refuses to compare) the order of
    the result, or the operands named by the [TypeError], can differ from
    CPython's.  The properties below sort keys that [<] orders. *)
Section Sort.
Context {A : Type} (key : A -> value).

(** [x] precedes, in the list being sorted, every element of [l]: it
    goes before the first element that is not smaller than it. *)
Fixpoint insert_sorted (x : A) (l : list A) : outcome (list A) :=
  match l with
  | [] => Return [x]
  | y :: l' =>
      c ← py_lt (key y) (key x);
      if (c : bool) then (r ← insert_sorted x l'; Return (y :: r))
      else Return (x :: y :: l')
  end.

Fixpoint sort_ascending (l : list A) : outcome (list A) :=
  match l with
  | [] => Return []
  | x :: l' => s ← sort_ascending l'; insert_sorted x s
  end.

Definition sort_reverse (l : list A) : outcome (list A) :=
  s ← sort_ascending (rev l); Return (rev s).
End Sort.

(** ** [re.search(pattern, s, re.DOTALL)] for the two patterns the code
    uses, an opening bracket, [.*], and the closing bracket: the match runs
    from the first opening bracket to the last closing bracket after it. *)
Fixpoint from_first (c : ascii) (s : str) : option str :=
  match s with
  | EmptyString => None
  | String a s' => if Ascii.eqb a c then Some s else from_first c s'
  end.

Definition through_last (c : ascii) (s : str) : option str :=
  string_rev <$> from_first c (string_rev s).

Definition re_search_bracketed (opening closing : ascii) (s : str) : option str :=
  match from_first opening s with
  | Some (String _ rest) => String opening <$> through_last closing rest
  | _ => None
  end.

(** ** Parsed JSON *)
Inductive json :=
| JNull
| JBool (b : bool)
| JInt (n : Z)
| JFloat (x : float)
| JStr (s : str)
| JList (l : list json)
| JDict (d : gmap string json).

(** [str(n)] for an int *)
Definition str_of_int (n : Z) : str := NilZero.string_of_int (Z.to_int n).

End Py.


(* ===================================================================== *)
(** * Data model *)
(* ===================================================================== *)

Module Data.
Import Binary64 Py.

(** A row of a store, a Python [dict] with string keys. *)
Abbreviation row := (gmap string value).

(** [d.get(k, dflt)] *)
Definition get (d : row) (k : string) (dflt : value) : value := default dflt (d !! k).

(** What [Neo4jManager.search_graph] returns for one matched node. *)
Record entity := { ent_data : row; ent_type : str }.

(** What [Neo4jManager.get_entity_relationships] returns for one edge. *)
Record kg_item := { kg_source : row; kg_relationship : row; kg_target : row }.

(** An entry of the merged evidence list ([_combine_search_results]). *)
Inductive evidence_data :=
| OfRow (r : row)
| OfGraph (k : kg_item).

Record evidence := {
  ev_type : str;
  ev_source : str;
  ev_data : evidence_data;
  ev_relevance_score : value;
  ev_title : value
}.

(** A source citation ([_extract_sources]); only chunks have the
    [chunk_index] key. *)
Record source := {
  src_type : str;
  src_title : value;
  src_filename : value;
  src_chunk_index : option value;
  src_similarity : value;
  src_id : value
}.

(** The dict [hybrid_search] returns; [ask_question] returns the empty dict
    in its place on failure, so every key is optional. *)
Record search_results := {
  sr_documents : option (list row);
  sr_chunks : option (list row);
  sr_knowledge_graph : option (list kg_item);
  sr_combined_results : option (list evidence);
  sr_query : option str;
  sr_error : option str
}.

Definition empty_search_results : search_results :=
  {| sr_documents := None; sr_chunks := None; sr_knowledge_graph := None;
     sr_combined_results := None; sr_query := None; sr_error := None |}.

(** [agents.SearchQuery] *)
Record SearchQuery := {
  sq_query : str;
  sq_query_type : json;
  sq_context : option (gmap string json);
  sq_constraints : option json
}.

(** A message of the pipeline transcript. *)
Record message := { msg_role : str; msg_content : str }.
Definition HumanMessage (content : str) : message :=
  {| msg_role := "human"; msg_content := content |}.
Definition AIMessage (content : str) : message :=
  {| msg_role := "ai"; msg_content := content |}.

(** The state the four pipeline stages pass along ([AgentState]). *)
Record AgentState := {
  st_messages : list message;
  st_next : str;
  st_documents : list row;
  st_kg_context : list kg_item;
  st_analysis : gmap string str;
  st_response : str
}.

(** The dict [execute_search] returns, by its [status]. *)
Inductive agent_result :=
| AgentSuccess (result : str) (query : str) (num_docs_analyzed kg_entities_considered : Z)
               (conversation_history : list str)
| AgentError (error : str) (query : str).

(** The dict [generate_answer] returns. *)
Record answer_data := {
  ad_answer : str;
  ad_sources : list source;
  ad_follow_up_questions : list json;
  ad_query_type : json;
  ad_confidence : value
}.

(** The dict [ask_question] returns. *)
Record Answer := {
  ans_query : str;
  ans_answer : str;
  ans_sources : list source;
  ans_follow_up_questions : list json;
  ans_confidence : value;
  ans_query_type : json;
  ans_num_sources : Z;
  ans_search_results : search_results
}.

(** A chunk produced by [chunk_document]. *)
Record chunk := {
  chunk_content : str;
  chunk_index : Z;
  chunk_type : str;
  word_count : Z
}.

(** The prompt of one completion request: which of the fixed
    [ChatPromptTemplate]s of [agents.py] it is, with the arguments
    [format_messages] fills in. *)
Inductive prompt :=
| SearchPrompt (query : str) (documents : list row)
| AnalysisPrompt (context : str) (kg_context : list kg_item)
| SynthesisPrompt (analysis : str) (query : str)
| FactCheckPrompt (response : str) (documents : list row)
| ClassifyPrompt (query : str)
| FollowUpPrompt (query : str) (answer : str).

End Data.

(* ===================================================================== *)
(** * External services and effects *)
(* ===================================================================== *)

Module Effects.
Import Binary64 Py Data.

(** One call to an external service. *)
Inductive event :=
| EmbedContent (model : str) (content : str)
| SearchSimilarDocuments (query_embedding : list float) (limit : Z)
| SearchSimilarChunks (query_embedding : list float) (limit : Z)
| AddChatMessage (session_id message_type content : str) (sources : list source)
| GraphSearch (query_text : str) (limit : Z)
| GraphRelationships (entity_id : value)
| LlmInvoke (p : prompt).

(** The calls made so far, oldest first. *)
Definition trace : Type := list event.

(** The world outside the core.  Every service answers a call by returning
    or by raising, and its answer may depend on everything that was called
    before.
    - [genai_embed_content]: the ['embedding'] entry of the result of
      [genai.embed_content] when it is a list, [None] otherwise;
    - [db_*]: the methods of [DatabaseManager] the core calls;
    - [neo4j_driver]: whether [Neo4jManager] holds a connection;
      [neo4j_run_*]: the records of the two Cypher queries;
    - [llm]: [NASAResearchAgents.llm], absent without an API key;
    - [json_loads_*]: [json.loads] on a text that begins with a brace or
      with a bracket;
    - [float_repr]: [str(x)] for a float. *)
Record World := {
  genai_embed_content : trace -> str -> str -> outcome (option (list float));
  db_search_similar_documents : trace -> list float -> Z -> outcome (list row);
  db_search_similar_chunks : trace -> list float -> Z -> outcome (list row);
  db_add_chat_message : trace -> str -> str -> str -> list source -> outcome str;
  neo4j_driver : bool;
  neo4j_run_search : trace -> str -> Z -> outcome (list (row * str));
  neo4j_run_relationships : trace -> value -> outcome (list (row * row * row));
  llm : option (trace -> prompt -> outcome str);
  json_loads_dict : str -> outcome (gmap string json);
  json_loads_list : str -> outcome (list json);
  float_repr : float -> str
}.

(** Computations that call services and may raise. *)
Definition M (A : Type) : Type := trace -> outcome A * trace.

#[global] Instance M_ret : MRet M := fun A a tr => (Return a, tr).
#[global] Instance M_bind : MBind M := fun A B f m tr =>
  match m tr with
  | (Return a, tr') => f a tr'
  | (Raise e, tr') => (Raise e, tr')
  end.

Definition ret {A} (a : A) : M A := mret a.
Definition raise {A} (e : exn) : M A := fun tr => (Raise e, tr).
Definition lift {A} (o : outcome A) : M A := fun tr => (o, tr).

(** A call: the service sees the history, and the call is recorded. *)
Definition call {A} (ev : event) (service : trace -> outcome A) : M A :=
  fun tr => (service tr, tr ++ [ev]).

(** [try: body except Exception as e: handler e] *)
Definition try_except {A} (body : M A) (handler : exn -> M A) : M A :=
  fun tr =>
    match body tr with
    | (Return a, tr') => (Return a, tr')
    | (Raise e, tr') => handler e tr'
    end.

(** [str(v)], as an f-string renders a value. *)
Definition py_str (W : World) (v : value) : str :=
  match v with
  | VNone => "None"
  | VInt n => str_of_int n
  | VFloat x => float_repr W x
  | VStr s => s
  end.

(** A list comprehension with a condition that may raise. *)
Fixpoint filter_raising {A} (p : A -> outcome bool) (l : list A) : outcome (list A) :=
  match l with
  | [] => Return []
  | x :: l' =>
      b ← p x;
      r ← filter_raising p l';
      Return (if (b : bool) then x :: r else r)
  end.

End Effects.

(* ===================================================================== *)
(** * [src/document_processor.py] *)
(* ===================================================================== *)

Module DocumentProcessor.
Import Binary64 Py Data Effects.

(** One iteration of the loop of [chunk_document]. *)
Definition chunk_step (words : list str) (chunk_size : Z) (chunks : list chunk) (i : Z)
  : list chunk :=
  let chunk_words := py_slice words i (i + chunk_size) in
  let chunk_text := py_join " " chunk_words in
  if str_truthy (py_strip chunk_text) then
    chunks ++ [ {| chunk_content := chunk_text;
                   chunk_index := py_len chunks;
                   chunk_type := "text";
                   word_count := py_len chunk_words |} ]
  else chunks.

Definition chunk_document_body (content : str) (chunk_size overlap : Z)
  : outcome (list chunk) :=
  let words := py_split content in
  indices ← py_range 0 (py_len words) (chunk_size - overlap);
  Return (fold_left (chunk_step words chunk_size) indices []).

(** [DocumentProcessor.chunk_document]; the defaults are
    [chunk_size=1000, overlap=200]. *)
Definition chunk_document (content : str) (chunk_size overlap : Z) : list chunk :=
  match chunk_document_body content chunk_size overlap with
  | Return chunks => chunks
  | Raise _ => []
  end.

Definition embedding_model : str := "models/embedding-001".

(** [DocumentProcessor.generate_embeddings] on a single text. *)
Definition generate_embeddings (W : World) (texts : str) : M (option (list float)) :=
  if negb (str_truthy embedding_model) then ret None
  else
    try_except
      (embedding ← call (EmbedContent embedding_model texts)
                        (fun tr => genai_embed_content W tr embedding_model texts);
       match embedding with
       | Some (x :: l) => ret (Some (x :: l))
       | _ => ret None
       end)
      (fun _ => ret None).

End DocumentProcessor.

(* ===================================================================== *)
(** * [src/neo4j_manager.py] and [src/database.py] *)
(* ===================================================================== *)

Module Store.
Import Binary64 Py Data Effects.

Section WithWorld.
Context (W : World).

(** [Neo4jManager.search_graph] *)
Definition search_graph (query_text : str) (limit : Z) : M (list entity) :=
  if negb (neo4j_driver W) then ret []
  else
    try_except
      (records ← call (GraphSearch query_text limit)
                      (fun tr => neo4j_run_search W tr query_text limit);
       ret (map (fun r : row * str => {| ent_data := fst r; ent_type := snd r |}) records))
      (fun _ => ret []).

(** [Neo4jManager.get_entity_relationships] *)
Definition get_entity_relationships (entity_id : value) : M (list kg_item) :=
  if negb (neo4j_driver W) then ret []
  else
    try_except
      (records ← call (GraphRelationships entity_id)
                      (fun tr => neo4j_run_relationships W tr entity_id);
       ret (map (fun r : row * row * row =>
                   {| kg_source := fst (fst r);
                      kg_relationship := snd (fst r);
                      kg_target := snd r |}) records))
      (fun _ => ret []).

(** [DatabaseManager.search_similar_documents] *)
Definition search_similar_documents (query_embedding : list float) (limit : Z)
  : M (list row) :=
  call (SearchSimilarDocuments query_embedding limit)
       (fun tr => db_search_similar_documents W tr query_embedding limit).

(** [DatabaseManager.search_similar_chunks] *)
Definition search_similar_chunks (query_embedding : list float) (limit : Z)
  : M (list row) :=
  call (SearchSimilarChunks query_embedding limit)
       (fun tr => db_search_similar_chunks W tr query_embedding limit).

(** [DatabaseManager.add_chat_message]; [sources] is what is stored,
    the empty list when none are passed. *)
Definition add_chat_message (session_id message_type content : str)
           (sources : list source) : M str :=
  call (AddChatMessage session_id message_type content sources)
       (fun tr => db_add_chat_message W tr session_id message_type content sources).

End WithWorld.
End Store.

(* ===================================================================== *)
(** * [src/agents.py] *)
(* ===================================================================== *)

Module Agents.
Import Binary64 Py Data Effects.

Definition newline : str := String "010"%char EmptyString.

Definition AttributeError (msg : string) : exn := Exn "AttributeError" msg.

Section WithWorld.
Context (W : World).

(** [self.llm.invoke(messages)], returning [response.content]. *)
Definition llm_invoke (p : prompt) : M str :=
  match llm W with
  | Some complete => call (LlmInvoke p) (fun tr => complete tr p)
  | None => raise (AttributeError "'NoneType' object has no attribute 'invoke'")
  end.

(** [state["messages"][-1]] and [state["messages"][0]] *)
Definition last_message (st : AgentState) : M message :=
  match last (st_messages st) with
  | Some m => ret m
  | None => raise (IndexError "list index out of range")
  end.

Definition first_message (st : AgentState) : M message :=
  match st_messages st with
  | m :: _ => ret m
  | [] => raise (IndexError "list index out of range")
  end.

Definition append_message (st : AgentState) (m : message) : AgentState :=
  {| st_messages := st_messages st ++ [m];
     st_next := st_next st;
     st_documents := st_documents st;
     st_kg_context := st_kg_context st;
     st_analysis := st_analysis st;
     st_response := st_response st |}.

Definition search_agent (st : AgentState) : M AgentState :=
  m ← last_message st;
  response ← llm_invoke (SearchPrompt (msg_content m) (st_documents st));
  ret (append_message st (AIMessage response)).

Definition analysis_agent (st : AgentState) : M AgentState :=
  let context := py_join newline (map msg_content (st_messages st)) in
  response ← llm_invoke (AnalysisPrompt context (st_kg_context st));
  let st' := append_message st (AIMessage response) in
  ret {| st_messages := st_messages st';
         st_next := st_next st';
         st_documents := st_documents st';
         st_kg_context := st_kg_context st';
         st_analysis := {[ "findings" := response ]};
         st_response := st_response st' |}.

Definition synthesis_agent (st : AgentState) : M AgentState :=
  match st_analysis st !! "findings" with
  | None => raise (KeyError "'findings'")
  | Some findings =>
      m ← first_message st;
      response ← llm_invoke (SynthesisPrompt findings (msg_content m));
      let st' := append_message st (AIMessage response) in
      ret {| st_messages := st_messages st';
             st_next := st_next st';
             st_documents := st_documents st';
             st_kg_context := st_kg_context st';
             st_analysis := st_analysis st';
             st_response := response |}
  end.

Definition fact_checker (st : AgentState) : M AgentState :=
  response ← llm_invoke (FactCheckPrompt (st_response st) (st_documents st));
  ret (append_message st (AIMessage response)).

(** The compiled graph: START, search, analyze, synthesize, verify, END.
    It exists only when the completion model does. *)
Definition graph_invoke (st : AgentState) : M AgentState :=
  st1 ← search_agent st;
  st2 ← analysis_agent st1;
  st3 ← synthesis_agent st2;
  fact_checker st3.

Definition graph : option (AgentState -> M AgentState) :=
  match llm W with
  | Some _ => Some graph_invoke
  | None => None
  end.

(** [NASAResearchAgents.execute_search] *)
Definition execute_search (query : SearchQuery) (relevant_docs : list row)
           (kg_context : list kg_item) : M agent_result :=
  try_except
    (match graph with
     | None => ret (AgentError "Agent graph not initialized" (sq_query query))
     | Some invoke =>
         let initial_state :=
           {| st_messages := [HumanMessage (sq_query query)];
              st_next := "search";
              st_documents := relevant_docs;
              st_kg_context := kg_context;
              st_analysis := ∅;
              st_response := "" |} in
         final_state ← invoke initial_state;
         ret (AgentSuccess (st_response final_state) (sq_query query)
                           (py_len relevant_docs) (py_len kg_context)
                           (map msg_content (st_messages final_state)))
     end)
    (fun e => ret (AgentError (exn_str e) (sq_query query))).

Definition factual (query_text : str) : SearchQuery :=
  {| sq_query := query_text; sq_query_type := JStr "factual";
     sq_context := None; sq_constraints := None |}.

(** [NASAResearchAgents.classify_query] *)
Definition classify_query (query_text : str) : M SearchQuery :=
  try_except
    (match llm W with
     | None => ret (factual query_text)
     | Some _ =>
         response ← llm_invoke (ClassifyPrompt query_text);
         match re_search_bracketed "{"%char "}"%char response with
         | Some text =>
             classification ← lift (json_loads_dict W text);
             ret {| sq_query := query_text;
                    sq_query_type := default (JStr "factual") (classification !! "query_type");
                    sq_context :=
                      Some {[ "key_concepts" :=
                                default (JList []) (classification !! "key_concepts") ]};
                    sq_constraints :=
                      Some (default (JDict ∅) (classification !! "constraints")) |}
         | None => ret (factual query_text)
         end
     end)
    (fun _ => ret (factual query_text)).

(** [NASAResearchAgents.generate_follow_up_questions] *)
Definition generate_follow_up_questions (query answer : str) : M (list json) :=
  try_except
    (match llm W with
     | None => ret []
     | Some _ =>
         response ← llm_invoke (FollowUpPrompt query (substring 0 1000 answer));
         match re_search_bracketed "["%char "]"%char response with
         | Some text =>
             questions ← lift (json_loads_list W text);
             ret (py_slice questions 0 5)
         | None => ret []
         end
     end)
    (fun _ => ret []).

End WithWorld.
End Agents.

(* ===================================================================== *)
(** * [src/rag_system.py] *)
(* ===================================================================== *)

Module Rag.
Import Binary64 Py Data Effects.

(** The configuration an instance of [RAGSystem] carries; its managers are
    the {!World}. *)
Record RAGSystem := { similarity_threshold : float }.

(** [RAGSystem.__init__] *)
Definition RAGSystem_init : RAGSystem := {| similarity_threshold := f0_7 |}.

(** [doc.get('title', doc.get('filename', 'Unknown'))] *)
Definition title_or_filename (doc : row) : value :=
  get doc "title" (get doc "filename" (VStr "Unknown")).

(** ** [_extract_sources] *)
Definition document_source (doc : row) : source :=
  {| src_type := "document";
     src_title := title_or_filename doc;
     src_filename := get doc "filename" (VStr "Unknown");
     src_chunk_index := None;
     src_similarity := get doc "similarity" (VInt 0);
     src_id := get doc "id" VNone |}.

Definition chunk_source (chunk : row) : source :=
  {| src_type := "chunk";
     src_title := title_or_filename chunk;
     src_filename := get chunk "filename" (VStr "Unknown");
     src_chunk_index := Some (get chunk "chunk_index" (VInt 0));
     src_similarity := get chunk "similarity" (VInt 0);
     src_id := get chunk "id" VNone |}.

Definition _extract_sources (search_results : search_results) : list source :=
  let sources := [] in
  let sources :=
    fold_left (fun sources doc => sources ++ [document_source doc])
              (default [] (sr_documents search_results)) sources in
  let sources :=
    fold_left (fun sources chunk => sources ++ [chunk_source chunk])
              (default [] (sr_chunks search_results)) sources in
  py_slice sources 0 10.

(** ** [_calculate_confidence] *)
Definition similarity_of (r : row) : value := get r "similarity" (VInt 0).

Definition calculate_confidence_body (search_results : search_results) : outcome value :=
  let docs := default [] (sr_documents search_results) in
  let chunks := default [] (sr_chunks search_results) in
  match docs, chunks with
  | [], [] => Return (VFloat zero)
  | _, _ =>
      let doc_similarities := map similarity_of docs in
      let chunk_similarities := map similarity_of chunks in
      let all_similarities := doc_similarities ++ chunk_similarities in
      match all_similarities with
      | [] => Return (VFloat zero)
      | _ =>
          total ← py_sum all_similarities;
          avg_similarity ← py_truediv total (VInt (py_len all_similarities));
          good ← filter_raising (fun s => py_gt s (VFloat f0_8)) all_similarities;
          let num_good_sources := py_len good in
          bonus ← int_mul_float num_good_sources f0_1;
          source_bonus ← py_min (VFloat bonus) (VFloat f0_3);
          raw ← py_add avg_similarity source_bonus;
          confidence ← py_min raw (VFloat one);
          py_round2 confidence
      end
  end.

Definition _calculate_confidence (search_results : search_results) : value :=
  match calculate_confidence_body search_results with
  | Return c => c
  | Raise _ => VFloat f0_5
  end.

Section WithWorld.
Context (W : World) (self : RAGSystem).

(** ** [search_documents] and [search_chunks] *)
Definition above_threshold (r : row) : outcome bool :=
  py_ge (similarity_of r) (VFloat (similarity_threshold self)).

Definition search_documents (query : str) (limit : Z) : M (list row) :=
  try_except
    (query_embedding ← DocumentProcessor.generate_embeddings W query;
     match query_embedding with
     | None | Some [] => ret []
     | Some embedding =>
         similar_docs ← Store.search_similar_documents W embedding limit;
         lift (filter_raising above_threshold similar_docs)
     end)
    (fun _ => ret []).

Definition search_chunks (query : str) (limit : Z) : M (list row) :=
  try_except
    (query_embedding ← DocumentProcessor.generate_embeddings W query;
     match query_embedding with
     | None | Some [] => ret []
     | Some embedding =>
         similar_chunks ← Store.search_similar_chunks W embedding limit;
         lift (filter_raising above_threshold similar_chunks)
     end)
    (fun _ => ret []).

(** ** [search_knowledge_graph] *)
Fixpoint collect_relationships (entities : list entity) (kg_context : list kg_item)
  : M (list kg_item) :=
  match entities with
  | [] => ret kg_context
  | entity :: rest =>
      if String.eqb (ent_type entity) "entity" then
        let entity_id := get (ent_data entity) "id" VNone in
        if truthy entity_id then
          relationships ← Store.get_entity_relationships W entity_id;
          collect_relationships rest (kg_context ++ relationships)
        else collect_relationships rest kg_context
      else collect_relationships rest kg_context
  end.

Definition search_knowledge_graph (query : str) : M (list kg_item) :=
  try_except
    (if negb (neo4j_driver W) then ret []
     else
       entities ← Store.search_graph W query 20;
       collect_relationships entities [])
    (fun _ => ret []).

(** ** [_combine_search_results] *)
Definition document_evidence (doc : row) : evidence :=
  {| ev_type := "document";
     ev_source := "vector_search";
     ev_data := OfRow doc;
     ev_relevance_score := similarity_of doc;
     ev_title := title_or_filename doc |}.

Definition chunk_evidence (chunk : row) : evidence :=
  {| ev_type := "chunk";
     ev_source := "vector_search";
     ev_data := OfRow chunk;
     ev_relevance_score := similarity_of chunk;
     ev_title :=
       VStr (py_str W (get chunk "filename" (VStr "Unknown")) +:+ " (chunk "
             +:+ py_str W (get chunk "chunk_index" (VInt 0)) +:+ ")") |}.

Definition graph_evidence (kg_item : kg_item) : evidence :=
  {| ev_type := "knowledge_graph";
     ev_source := "graph_search";
     ev_data := OfGraph kg_item;
     ev_relevance_score := VFloat f0_5;
     ev_title :=
       VStr ("KG: " +:+ py_str W (get (kg_source kg_item) "name"
                                      (VStr "Unknown relationship"))) |}.

Definition _combine_search_results (docs chunks : list row) (kg_context : list kg_item)
           (query : str) : outcome (list evidence) :=
  let combined := [] in
  let combined := fold_left (fun c doc => c ++ [document_evidence doc]) docs combined in
  let combined := fold_left (fun c chunk => c ++ [chunk_evidence chunk]) chunks combined in
  let combined := fold_left (fun c item => c ++ [graph_evidence item]) kg_context combined in
  sort_reverse ev_relevance_score combined.

(** ** [hybrid_search] *)
Definition hybrid_search (query : str) (include_kg : bool) : M search_results :=
  try_except
    (relevant_docs ← search_documents query 10;
     relevant_chunks ← search_chunks query 20;
     kg_context ← (if include_kg then search_knowledge_graph query else ret []);
     combined_results ← lift (_combine_search_results relevant_docs relevant_chunks
                                                      kg_context query);
     ret {| sr_documents := Some relevant_docs;
            sr_chunks := Some relevant_chunks;
            sr_knowledge_graph := Some kg_context;
            sr_combined_results := Some combined_results;
            sr_query := Some query;
            sr_error := None |})
    (fun e =>
       ret {| sr_documents := Some [];
              sr_chunks := Some [];
              sr_knowledge_graph := Some [];
              sr_combined_results := Some [];
              sr_query := Some query;
              sr_error := Some (exn_str e) |}).

(** ** [generate_answer] *)
Definition generate_answer (query : str) (search_results : search_results)
  : M answer_data :=
  try_except
    (search_query ← Agents.classify_query W query;
     let relevant_docs := default [] (sr_documents search_results) in
     let kg_context := default [] (sr_knowledge_graph search_results) in
     agent_result ← Agents.execute_search W search_query relevant_docs kg_context;
     match agent_result with
     | AgentSuccess answer _ _ _ _ =>
         follow_ups ← Agents.generate_follow_up_questions W query answer;
         ret {| ad_answer := answer;
                ad_sources := _extract_sources search_results;
                ad_follow_up_questions := follow_ups;
                ad_query_type := sq_query_type search_query;
                ad_confidence := _calculate_confidence search_results |}
     | AgentError error _ =>
         ret {| ad_answer :=
                  "I encountered an error while processing your query: " +:+ error;
                ad_sources := [];
                ad_follow_up_questions := [];
                ad_query_type := sq_query_type search_query;
                ad_confidence := VFloat zero |}
     end)
    (fun e =>
       ret {| ad_answer :=
                "I'm sorry, I encountered an error while processing your query: "
                +:+ exn_str e;
              ad_sources := [];
              ad_follow_up_questions := [];
              ad_query_type := JStr "unknown";
              ad_confidence := VFloat zero |}).

(** ** [ask_question] *)

(** The answer of the [except] clause. *)
Definition error_answer (query : str) (e : exn) : Answer :=
  {| ans_query := query;
     ans_answer := "I'm sorry, I encountered an error: " +:+ exn_str e;
     ans_sources := [];
     ans_follow_up_questions := [];
     ans_confidence := VFloat zero;
     ans_query_type := JStr "error";
     ans_num_sources := 0;
     ans_search_results := empty_search_results |}.

Definition ask_question_body (query : str) (session_id : option str) : M Answer :=
  search_results ← hybrid_search query true;
  answer_data ← generate_answer query search_results;
  _ ← (match session_id with
       | Some s =>
           if str_truthy s then
             _ ← Store.add_chat_message W s "user" query [];
             _ ← Store.add_chat_message W s "assistant" (ad_answer answer_data)
                                        (ad_sources answer_data);
             ret tt
           else ret tt
       | None => ret tt
       end);
  ret {| ans_query := query;
         ans_answer := ad_answer answer_data;
         ans_sources := ad_sources answer_data;
         ans_follow_up_questions := ad_follow_up_questions answer_data;
         ans_confidence := ad_confidence answer_data;
         ans_query_type := ad_query_type answer_data;
         ans_num_sources := py_len (ad_sources answer_data);
         ans_search_results := search_results |}.

Definition ask_question (query : str) (session_id : option str) : M Answer :=
  try_except (ask_question_body query session_id) (fun e => ret (error_answer query e)).

End WithWorld.
End Rag.

(* ===================================================================== *)
(** * More string builtins *)
(* ===================================================================== *)

Module Text.
Import Binary64 Py.

(** [len(s)] *)
Definition str_len (s : str) : Z := Z.of_nat (String.length s).

(** [s[:stop]] *)
Definition str_prefix (s : str) (stop : Z) : str :=
  string_of_list_ascii (py_slice (list_ascii_of_string s) 0 stop).

(** [s.split(sep)] for a separator of one character: the pieces between
    the separators, empty ones included; at least one piece. *)
Fixpoint split_on_from (sep : ascii) (piece : list ascii) (s : str) : list str :=
  match s with
  | EmptyString => [string_of_list_ascii (rev piece)]
  | String c s' =>
      if Ascii.eqb c sep then string_of_list_ascii (rev piece) :: split_on_from sep [] s'
      else split_on_from sep (c :: piece) s'
  end.
Definition py_split_on (sep : ascii) (s : str) : list str := split_on_from sep [] s.

(** [s.startswith(c)] and [s.endswith(c)] for a string [c] of one character *)
Definition startswith (c : ascii) (s : str) : bool :=
  match s with
  | String a _ => Ascii.eqb a c
  | EmptyString => false
  end.
Definition endswith (c : ascii) (s : str) : bool := startswith c (string_rev s).

End Text.

(* ===================================================================== *)
(** * [src/document_processor.py]: titles, summaries, batches *)
(* ===================================================================== *)

Module DocumentText.
Import Binary64 Py Data Effects Text.

(** The loop of [_extract_title_from_text]. *)
Fixpoint first_title (lines : list str) : str :=
  match lines with
  | [] => "Untitled Document"
  | line :: rest =>
      let line := py_strip line in
      if (10 <? str_len line) && (str_len line <? 200) then line
      else first_title rest
  end.

(** [DocumentProcessor._extract_title_from_text] *)
Definition _extract_title_from_text (text : str) : str :=
  let lines := py_split_on "010"%char text in
  first_title lines.

(** [DocumentProcessor._fallback_summarize]; the default is
    [max_length=500]. *)
Definition _fallback_summarize (content : str) (max_length : Z) : str :=
  let sentences := py_split_on "."%char content in
  let summary_sentences := py_slice sentences 0 3 in
  let summary := py_join ". " summary_sentences in
  if max_length <? str_len summary then str_prefix summary max_length +:+ "..."
  else summary.

(** [embedding if embedding and isinstance(embedding, list) and
    len(embedding) > 0 else None]: a list that is not empty, or [None]. *)
Definition usable (embedding : option (list float)) : option (list float) :=
  match embedding with
  | Some (x :: l) => Some (x :: l)
  | _ => None
  end.

(** The loop of [generate_embeddings] on a list of texts. *)
Fixpoint embed_each (W : World) (texts : list str) (embeddings : list (option (list float)))
  : M (list (option (list float))) :=
  match texts with
  | [] => ret embeddings
  | text :: rest =>
      embedding ← call (EmbedContent DocumentProcessor.embedding_model text)
                       (fun tr => genai_embed_content W tr DocumentProcessor.embedding_model text);
      embed_each W rest (embeddings ++ [usable embedding])
  end.

(** [DocumentProcessor.generate_embeddings] on a list of texts. *)
Definition generate_embeddings_batch (W : World) (texts : list str)
  : M (option (list (option (list float)))) :=
  if negb (str_truthy DocumentProcessor.embedding_model) then ret None
  else
    try_except
      (embeddings ← embed_each W texts [];
       ret (match embeddings with [] => None | _ => Some embeddings end))
      (fun _ => ret None).

End DocumentText.

(* ===================================================================== *)
(** * [src/database.py]: storing chunks *)
(* ===================================================================== *)

Module Database.
Import Binary64 Py Data Effects Text.

(** The value under ['embedding'] in the dict given to [insert_document] or
    [insert_document_chunk]: [None], a list, a dict, a string, or an object
    of another type. *)
Inductive embedding_field :=
| EmbNone
| EmbList (l : list float)
| EmbDict (d : gmap string value)
| EmbStr (s : str)
| EmbOther.

(** [isinstance(embedding, (list, dict)) and not embedding] *)
Definition empty_list_or_dict (embedding : embedding_field) : bool :=
  match embedding with
  | EmbList l => bool_decide (l = [])
  | EmbDict d => bool_decide (d = ∅)
  | _ => false
  end.

(** The validation with which [insert_document] and [insert_document_chunk]
    begin: the value they leave under ['embedding']. *)
Definition validate_embedding (embedding : embedding_field) : embedding_field :=
  match embedding with
  | EmbNone => EmbNone
  | _ =>
      if empty_list_or_dict embedding then EmbNone
      else
        match embedding with
        | EmbStr s =>
            if negb (startswith "["%char s && endswith "]"%char s) then EmbNone
            else embedding
        | _ => EmbNone
        end
  end.

(** The dict given to [insert_document_chunk]; [cd_metadata] stands for the
    JSON text of the chunk. *)
Record ChunkData := {
  cd_document_id : str;
  cd_chunk_index : Z;
  cd_content : str;
  cd_chunk_type : str;
  cd_page_number : value;
  cd_embedding : embedding_field;
  cd_metadata : chunk
}.

Definition with_embedding (chunk_data : ChunkData) (embedding : embedding_field)
  : ChunkData :=
  {| cd_document_id := cd_document_id chunk_data;
     cd_chunk_index := cd_chunk_index chunk_data;
     cd_content := cd_content chunk_data;
     cd_chunk_type := cd_chunk_type chunk_data;
     cd_page_number := cd_page_number chunk_data;
     cd_embedding := embedding;
     cd_metadata := cd_metadata chunk_data |}.

(** The table [document_chunks], oldest row first. *)
Definition table : Type := list ChunkData.

(** The database server: given the rows stored so far and the row to
    insert, the [INSERT ... RETURNING id] either commits and returns the new
    identifier, or raises and stores nothing. *)
Record Server := { execute_insert_chunk : table -> ChunkData -> outcome str }.

(** [DatabaseManager.insert_document_chunk] *)
Definition insert_document_chunk (db : Server) (chunk_data : ChunkData) (rows : table)
  : outcome str * table :=
  let chunk_data := with_embedding chunk_data (validate_embedding (cd_embedding chunk_data)) in
  match execute_insert_chunk db rows chunk_data with
  | Return chunk_id => (Return chunk_id, rows ++ [chunk_data])
  | Raise e => (Raise e, rows)
  end.

(** The vector literal [f"[{','.join(map(str, embedding))}]"], which
    [search_similar_documents], [search_similar_chunks] and the upload page
    build. *)
Definition vector_literal (W : World) (embedding : list float) : str :=
  "[" +:+ py_join "," (map (float_repr W) embedding) +:+ "]".

End Database.

(* ===================================================================== *)
(** * [pages/upload.py]: the loops that store the chunks *)
(* ===================================================================== *)

Module Upload.
Import Binary64 Py Data Effects Text Database.

(** What the loops change: the calls made to the services, and the table
    of chunks. *)
Record state := { calls : trace; document_chunks : table }.

(** Computations of the upload page. *)
Definition U (A : Type) : Type := state -> outcome A * state.

#[export] Instance U_ret : MRet U := fun A a s => (Return a, s).
#[export] Instance U_bind : MBind U := fun A B f m s =>
  match m s with
  | (Return a, s') => f a s'
  | (Raise e, s') => (Raise e, s')
  end.

(** A computation of the core, run by the upload page. *)
Definition core {A} (m : M A) : U A := fun s =>
  let (r, tr) := m (calls s) in
  (r, {| calls := tr; document_chunks := document_chunks s |}).

(** A call of [db_manager.insert_document_chunk]. *)
Definition insert_chunk (db : Server) (chunk_data : ChunkData) : U str := fun s =>
  let (r, rows) := insert_document_chunk db chunk_data (document_chunks s) in
  (r, {| calls := calls s; document_chunks := rows |}).

Section Loops.
Context (W : World) (db : Server) (document_id : str) (create_embeddings : bool).

(** The embedding [process_single_document] stores with a chunk. *)
Definition single_chunk_embedding (chunk : chunk) : U embedding_field :=
  if create_embeddings then
    embedding_result ← core (DocumentProcessor.generate_embeddings W (chunk_content chunk));
    match embedding_result with
    | Some (x :: l) => mret (EmbStr (vector_literal W (x :: l)))
    | _ => mret EmbNone
    end
  else mret EmbNone.

(** The embedding [process_bulk_documents] and [process_existing_files]
    store with a chunk. *)
Definition bulk_chunk_embedding (chunk : chunk) : U embedding_field :=
  if create_embeddings then
    chunk_embedding ← core (DocumentProcessor.generate_embeddings W (chunk_content chunk));
    match chunk_embedding with
    | Some l => mret (EmbList l)
    | None => mret EmbNone
    end
  else mret (EmbList []).

Definition chunk_row (i : Z) (chunk : chunk) (embedding : embedding_field) : ChunkData :=
  {| cd_document_id := document_id;
     cd_chunk_index := i;
     cd_content := chunk_content chunk;
     cd_chunk_type := chunk_type chunk;
     cd_page_number := VNone;
     cd_embedding := embedding;
     cd_metadata := chunk |}.

(** [for i, chunk in enumerate(chunks): ...], from index [i] on. *)
Fixpoint store_chunks (embed : chunk -> U embedding_field) (i : Z) (chunks : list chunk)
  : U unit :=
  match chunks with
  | [] => mret tt
  | chunk :: rest =>
      chunk_embedding ← embed chunk;
      _ ← insert_chunk db (chunk_row i chunk chunk_embedding);
      store_chunks embed (i + 1) rest
  end.

(** The loop of [process_single_document]. *)
Definition store_chunks_single (chunks : list chunk) : U unit :=
  store_chunks single_chunk_embedding 0 chunks.

(** The loop of [process_bulk_documents] and of [process_existing_files]. *)
Definition store_chunks_bulk (chunks : list chunk) : U unit :=
  store_chunks bulk_chunk_embedding 0 chunks.

End Loops.
End Upload.

(* ===================================================================== *)
(** * Sample worlds *)
(* ===================================================================== *)

Module Samples.
Import Binary64 Py Data Effects Rag.

Definition bone_doc : row :=
  {[ "id" := VInt 1; "title" := VStr "Bone loss in microgravity";
     "filename" := VStr "bone.pdf"; "similarity" := VFloat (ratio 85 100) ]}.

Definition weak_doc : row :=
  {[ "id" := VInt 2; "filename" := VStr "weak.pdf"; "similarity" := VFloat (ratio 5 10) ]}.

Definition untitled_doc : row :=
  {[ "id" := VInt 3; "filename" := VStr "notes.txt"; "similarity" := VFloat (ratio 9 10) ]}.

Definition bone_chunk : row :=
  {[ "id" := VInt 7; "title" := VStr "Bone loss in microgravity";
     "filename" := VStr "bone.pdf"; "chunk_index" := VInt 4;
     "similarity" := VFloat (ratio 85 100) ]}.

(** A row whose similarity is not a number. *)
Definition malformed_doc : row :=
  {[ "id" := VInt 4; "filename" := VStr "odd.pdf"; "similarity" := VNone ]}.

Definition mouse : row := {[ "id" := VStr "e1"; "name" := VStr "Mouse" ]}.
Definition chamber : row := {[ "id" := VStr "e2"; "name" := VStr "Microgravity Chamber" ]}.
Definition studies : row := {[ "type" := VStr "STUDIES" ]}.

Definition unavailable : exn := Exn "ConnectionError" "service unavailable".

(** Every service answers. *)
Definition healthy : World :=
  {| genai_embed_content := fun _ _ _ => Return (Some [f0_1; f0_3]);
     db_search_similar_documents := fun _ _ _ => Return [bone_doc; weak_doc];
     db_search_similar_chunks := fun _ _ _ => Return [bone_chunk];
     db_add_chat_message := fun _ _ _ _ _ => Return "42";
     neo4j_driver := true;
     neo4j_run_search := fun _ _ _ => Return [(mouse, "entity")];
     neo4j_run_relationships := fun _ _ => Return [(mouse, studies, chamber)];
     llm := Some (fun _ p =>
                    match p with
                    | SearchPrompt _ _ => Return "relevant: bone.pdf"
                    | AnalysisPrompt _ _ => Return "bone density decreases"
                    | SynthesisPrompt _ _ => Return "Microgravity reduces bone density."
                    | FactCheckPrompt _ _ => Return "Verified, with one caveat."
                    | ClassifyPrompt _ => Return "no json here"
                    | FollowUpPrompt _ _ => Return "none"
                    end);
     json_loads_dict := fun _ => Raise (ValueError "Expecting value");
     json_loads_list := fun _ => Raise (ValueError "Expecting value");
     float_repr := fun _ => "0.0" |}.

(** The completion provider raises on every call; the rest answers. *)
Definition completion_down : World :=
  {| genai_embed_content := genai_embed_content healthy;
     db_search_similar_documents := db_search_similar_documents healthy;
     db_search_similar_chunks := db_search_similar_chunks healthy;
     db_add_chat_message := db_add_chat_message healthy;
     neo4j_driver := neo4j_driver healthy;
     neo4j_run_search := neo4j_run_search healthy;
     neo4j_run_relationships := neo4j_run_relationships healthy;
     llm := Some (fun _ _ => Raise unavailable);
     json_loads_dict := json_loads_dict healthy;
     json_loads_list := json_loads_list healthy;
     float_repr := float_repr healthy |}.

(** The chat store raises on every call; the rest answers. *)
Definition chat_store_down : World :=
  {| genai_embed_content := genai_embed_content healthy;
     db_search_similar_documents := db_search_similar_documents healthy;
     db_search_similar_chunks := db_search_similar_chunks healthy;
     db_add_chat_message := fun _ _ _ _ _ => Raise unavailable;
     neo4j_driver := neo4j_driver healthy;
     neo4j_run_search := neo4j_run_search healthy;
     neo4j_run_relationships := neo4j_run_relationships healthy;
     llm := llm healthy;
     json_loads_dict := json_loads_dict healthy;
     json_loads_list := json_loads_list healthy;
     float_repr := float_repr healthy |}.

(** Every service raises on every call. *)
Definition all_down : World :=
  {| genai_embed_content := fun _ _ _ => Raise unavailable;
     db_search_similar_documents := fun _ _ _ => Raise unavailable;
     db_search_similar_chunks := fun _ _ _ => Raise unavailable;
     db_add_chat_message := fun _ _ _ _ _ => Raise unavailable;
     neo4j_driver := true;
     neo4j_run_search := fun _ _ _ => Raise unavailable;
     neo4j_run_relationships := fun _ _ => Raise unavailable;
     llm := Some (fun _ _ => Raise unavailable);
     json_loads_dict := fun _ => Raise unavailable;
     json_loads_list := fun _ => Raise unavailable;
     float_repr := fun _ => "" |}.

Definition bone_query : str := "What are the effects of microgravity on bone density?".


(** A retrieval result with a similarity that is not a number. *)
Definition malformed_result : search_results :=
  {| sr_documents := Some [bone_doc; malformed_doc]; sr_chunks := Some [];
     sr_knowledge_graph := Some []; sr_combined_results := Some [];
     sr_query := Some bone_query; sr_error := None |}.

(** One document at [0.85], no chunks, no graph connection. *)
Definition one_document_world : World :=
  {| genai_embed_content := genai_embed_content healthy;
     db_search_similar_documents := fun _ _ _ => Return [bone_doc];
     db_search_similar_chunks := fun _ _ _ => Return [];
     db_add_chat_message := db_add_chat_message healthy;
     neo4j_driver := false;
     neo4j_run_search := neo4j_run_search healthy;
     neo4j_run_relationships := neo4j_run_relationships healthy;
     llm := llm healthy;
     json_loads_dict := json_loads_dict healthy;
     json_loads_list := json_loads_list healthy;
     float_repr := float_repr healthy |}.

(** A store that reports an integer similarity too large for a float. *)
Definition huge_score_world : World :=
  {| genai_embed_content := genai_embed_content healthy;
     db_search_similar_documents :=
       fun _ _ _ => Return [ {[ "filename" := VStr "odd.pdf"; "similarity" := VInt (10 ^ 400) ]} ];
     db_search_similar_chunks := fun _ _ _ => Return [];
     db_add_chat_message := db_add_chat_message healthy;
     neo4j_driver := false;
     neo4j_run_search := neo4j_run_search healthy;
     neo4j_run_relationships := neo4j_run_relationships healthy;
     llm := llm healthy;
     json_loads_dict := json_loads_dict healthy;
     json_loads_list := json_loads_list healthy;
     float_repr := float_repr healthy |}.


End Samples.

(* ===================================================================== *)
(** * Chunk positions *)
(* ===================================================================== *)

Module ChunkPositions.
Import Binary64 Py Data Effects DocumentProcessor.

(** The positions of a chunk list are [0, 1, ..., n-1] in list order. *)
Definition contiguous (chunks : list chunk) : Prop :=
  map chunk_index chunks = map Z.of_nat (seq 0 (length chunks)).

Lemma contiguous_nil : contiguous [].
Proof. reflexivity. Qed.

Lemma contiguous_snoc chunks c :
  contiguous chunks -> chunk_index c = py_len chunks -> contiguous (chunks ++ [c]).
Proof.
  unfold contiguous, py_len. intros IH Hc.
  rewrite map_app, length_app, seq_app, map_app, IH. simpl. now rewrite Hc.
Qed.

Lemma chunk_step_contiguous words chunk_size chunks i :
  contiguous chunks -> contiguous (chunk_step words chunk_size chunks i).
Proof.
  intros IH. unfold chunk_step.
  destruct (str_truthy _); [ | exact IH ].
  apply contiguous_snoc; [ exact IH | reflexivity ].
Qed.

Lemma chunk_loop_contiguous words chunk_size indices :
  forall chunks, contiguous chunks ->
    contiguous (fold_left (chunk_step words chunk_size) indices chunks).
Proof.
  induction indices as [ | i indices IH]; intros chunks Hc; simpl.
  - exact Hc.
  - apply IH, chunk_step_contiguous, Hc.
Qed.

(** C9. For every document content (the empty one included) and every chunk
    size and overlap, the chunks [chunk_document] returns carry the positions
    [0, 1, ..., n-1], in this order, where [n] is the number of chunks. *)
Theorem chunk_positions_contiguous (content : str) (chunk_size overlap : Z) :
  contiguous (chunk_document content chunk_size overlap).
Proof.
  unfold chunk_document, chunk_document_body.
  destruct (py_range 0 (py_len (py_split content)) (chunk_size - overlap)) as [indices | e];
    simpl.
  - apply chunk_loop_contiguous, contiguous_nil.
  - apply contiguous_nil.
Qed.

(** Read by position: the chunk at index [i] of the list has position [i], so
    no position is skipped and none occurs twice. *)
Lemma contiguous_lookup chunks (i : nat) c :
  contiguous chunks -> chunks !! i = Some c -> chunk_index c = Z.of_nat i.
Proof.
  unfold contiguous. intros H Hi.
  assert (Hm : map chunk_index chunks !! i = Some (chunk_index c))
    by (rewrite list_lookup_fmap, Hi; reflexivity).
  rewrite H, list_lookup_fmap in Hm.
  assert (Hlt : (i < length chunks)%nat) by (eapply lookup_lt_Some; eauto).
  rewrite lookup_seq_lt in Hm by exact Hlt. simpl in Hm. congruence.
Qed.

Example chunk_document_three_chunks :
  map (fun c => (chunk_index c, chunk_content c))
      (chunk_document "a b  c d e f g" 3 1)
  = [(0, "a b c"); (1, "c d e"); (2, "e f g"); (3, "g")].
Proof. reflexivity. Qed.

Example chunk_document_zero_step : chunk_document "a b c" 5 5 = [].
Proof. reflexivity. Qed.

End ChunkPositions.

(* ===================================================================== *)
(** * Source citations *)
(* ===================================================================== *)

Module Sources.
Import Binary64 Py Data Effects Rag.

Lemma append_loop {A B} (f : A -> B) (l : list A) :
  forall acc, fold_left (fun acc x => acc ++ [f x]) l acc = acc ++ map f l.
Proof.
  induction l as [ | x l IH]; intros acc; simpl.
  - now rewrite app_nil_r.
  - now rewrite IH, <- app_assoc.
Qed.

Lemma py_slice_prefix {A} (l : list A) (n : nat) :
  py_slice l 0 (Z.of_nat n) = take n l.
Proof.
  unfold py_slice, clamp_index, py_len.
  destruct (0 <? 0) eqn:E0; [ apply Z.ltb_lt in E0; lia | ].
  destruct (Z.of_nat n <? 0) eqn:En; [ apply Z.ltb_lt in En; lia | ].
  rewrite (Z.min_l 0) by lia. simpl drop.
  rewrite Z.sub_0_r.
  destruct (Z.min_spec (Z.of_nat n) (Z.of_nat (length l))) as [[Hlt ->] | [Hle ->]].
  - now rewrite Nat2Z.id.
  - rewrite Nat2Z.id, firstn_all.
    symmetry. apply take_ge. apply Nat2Z.inj_le. exact Hle.
Qed.

(** The sources in the order the code builds them, before truncation. *)
Definition all_sources (documents chunks : list row) : list source :=
  map document_source documents ++ map chunk_source chunks.

Lemma extract_sources_eq sr :
  _extract_sources sr
  = take 10 (all_sources (default [] (sr_documents sr)) (default [] (sr_chunks sr))).
Proof.
  unfold _extract_sources, all_sources.
  rewrite !append_loop. simpl app.
  exact (py_slice_prefix _ 10).
Qed.

(** C5. The source list is one entry per retrieved document followed by one
    entry per retrieved chunk, each group in its incoming order, cut to the
    first ten entries and not reordered.  An entry's title is its filename
    when the row has no title; chunk entries, and only they, carry the
    position index. *)
Theorem sources_documents_then_chunks (sr : search_results) :
  _extract_sources sr
  = take 10 (map document_source (default [] (sr_documents sr))
             ++ map chunk_source (default [] (sr_chunks sr)))
  /\ (length (_extract_sources sr) <= 10)%nat
  /\ (forall r : row, r !! "title" = None ->
        src_title (document_source r) = src_filename (document_source r)
        /\ src_title (chunk_source r) = src_filename (chunk_source r))
  /\ (forall (r : row) (t : value), r !! "title" = Some t ->
        src_title (document_source r) = t /\ src_title (chunk_source r) = t)
  /\ (forall r : row,
        src_chunk_index (chunk_source r) = Some (get r "chunk_index" (VInt 0))
        /\ src_chunk_index (document_source r) = None).
Proof.
  split; [ apply extract_sources_eq | ].
  split; [ rewrite extract_sources_eq, length_take; lia | ].
  split; [ | split ].
  - intros r Hr. simpl. unfold title_or_filename, get. rewrite Hr. simpl. auto.
  - intros r t Hr. simpl. unfold title_or_filename, get. rewrite Hr. simpl. auto.
  - intros r. simpl. auto.
Qed.

Lemma sources_documents_then_chunks_witness :
  src_title (document_source Samples.untitled_doc) = VStr "notes.txt"
  /\ src_title (document_source Samples.bone_doc) = VStr "Bone loss in microgravity".
Proof.
  destruct (sources_documents_then_chunks empty_search_results) as (_ & _ & Hno & Hyes & _).
  split.
  - destruct (Hno Samples.untitled_doc) as [Hd _]; [ reflexivity | ].
    rewrite Hd. reflexivity.
  - destruct (Hyes Samples.bone_doc (VStr "Bone loss in microgravity")) as [Hd _];
      [ reflexivity | exact Hd ].
Defined.

(** Twelve retrieved rows give ten sources, the documents first. *)
Example extract_sources_truncates :
  map src_type
      (_extract_sources
         {| sr_documents := Some [Samples.bone_doc; Samples.untitled_doc];
            sr_chunks := Some (repeat Samples.bone_chunk 10);
            sr_knowledge_graph := None; sr_combined_results := None;
            sr_query := None; sr_error := None |})
  = ["document"; "document"; "chunk"; "chunk"; "chunk"; "chunk"; "chunk"; "chunk";
     "chunk"; "chunk"].
Proof. vm_compute. reflexivity. Qed.

End Sources.

(* ===================================================================== *)
(** * Facts about the effect monad *)
(* ===================================================================== *)

Module MonadFacts.
Import Binary64 Py Data Effects.

Lemma bind_run {A B} (m : M A) (f : A -> M B) tr :
  (m ≫= f) tr = match m tr with
                | (Return a, tr') => f a tr'
                | (Raise e, tr') => (Raise e, tr')
                end.
Proof. reflexivity. Qed.

Lemma bind_returns {A B} (m : M A) (f : A -> M B) tr b tr2 :
  (m ≫= f) tr = (Return b, tr2) ->
  exists a tr1, m tr = (Return a, tr1) /\ f a tr1 = (Return b, tr2).
Proof.
  rewrite bind_run. destruct (m tr) as [[a | e] tr1]; intros H.
  - eauto.
  - discriminate.
Qed.

(** A [try] whose handler returns a value never raises, and its result is the
    body's unless the body raised. *)
Lemma try_except_returns {A} (body : M A) (h : exn -> A) tr :
  exists a tr',
    try_except body (fun e => ret (h e)) tr = (Return a, tr')
    /\ (body tr = (Return a, tr') \/ exists e, body tr = (Raise e, tr') /\ a = h e).
Proof.
  unfold try_except. destruct (body tr) as [[a | e] tr'] eqn:E.
  - exists a, tr'. auto.
  - exists (h e), tr'. split; [ reflexivity | right; eauto ].
Qed.

Lemma filter_raising_Forall {A} (p : A -> outcome bool) (l : list A) :
  forall r, filter_raising p l = Return r -> Forall (fun x => p x = Return true) r.
Proof.
  induction l as [ | x l IH]; simpl; intros r H.
  - injection H as <-. constructor.
  - destruct (p x) as [b | e] eqn:Ep; simpl in H; [ | discriminate ].
    destruct (filter_raising p l) as [r' | e] eqn:El; simpl in H; [ | discriminate ].
    injection H as <-. destruct b.
    + constructor; [ exact Ep | apply IH; reflexivity ].
    + apply IH; reflexivity.
Qed.

Lemma filter_raising_sublist {A} (p : A -> outcome bool) (l : list A) :
  forall r, filter_raising p l = Return r -> sublist r l.
Proof.
  induction l as [ | x l IH]; simpl; intros r H.
  - injection H as <-. constructor.
  - destruct (p x) as [b | e] eqn:Ep; simpl in H; [ | discriminate ].
    destruct (filter_raising p l) as [r' | e] eqn:El; simpl in H; [ | discriminate ].
    injection H as <-. destruct b.
    + apply sublist_skip, IH; reflexivity.
    + apply sublist_cons, IH; reflexivity.
Qed.

Lemma py_compare_operator op op' a b c :
  py_compare op a b = Return c -> py_compare op' a b = Return c.
Proof. destruct a, b; simpl; intros H; (discriminate || exact H). Qed.

Lemma py_ge_not_lt a b : py_ge a b = Return true -> py_lt a b = Return false.
Proof.
  unfold py_ge, py_lt. destruct (py_compare ">=" a b) as [c | e] eqn:E; simpl; [ | discriminate ].
  rewrite (py_compare_operator _ "<" _ _ _ E). simpl.
  destruct c as [[ | | ] | ]; simpl; intros H; (discriminate || reflexivity).
Qed.

End MonadFacts.

(* ===================================================================== *)
(** * The similarity threshold *)
(* ===================================================================== *)

Module Threshold.
Import Binary64 Py Data Effects Rag MonadFacts.

(** Row [r] is at or above the threshold [t], as Python evaluates
    [r.get('similarity', 0) >= t], and is not below it. *)
Definition passes (t : float) (r : row) : Prop :=
  py_ge (similarity_of r) (VFloat t) = Return true
  /\ py_lt (similarity_of r) (VFloat t) = Return false.

Lemma filtered_rows_pass self rows kept :
  filter_raising (above_threshold self) rows = Return kept ->
  Forall (passes (similarity_threshold self)) kept.
Proof.
  intros H. apply filter_raising_Forall in H.
  eapply Forall_impl; [ exact H | ].
  intros r Hr. split; [ exact Hr | apply py_ge_not_lt, Hr ].
Qed.

Lemma search_documents_filtered W self query limit tr :
  exists docs tr',
    search_documents W self query limit tr = (Return docs, tr')
    /\ Forall (passes (similarity_threshold self)) docs.
Proof.
  unfold search_documents.
  destruct (try_except_returns
              (DocumentProcessor.generate_embeddings W query ≫= fun query_embedding =>
                 match query_embedding with
                 | None | Some [] => ret []
                 | Some embedding =>
                     Store.search_similar_documents W embedding limit ≫= fun similar_docs =>
                       lift (filter_raising (above_threshold self) similar_docs)
                 end)
              (fun _ => []) tr) as (docs & tr' & Hrun & Hbody).
  exists docs, tr'. split; [ exact Hrun | ].
  destruct Hbody as [Hbody | (e & _ & ->)]; [ | constructor ].
  apply bind_returns in Hbody as (emb & tr1 & _ & Hrest).
  destruct emb as [[ | x emb] | ].
  - injection Hrest as <- _. constructor.
  - apply bind_returns in Hrest as (rows & tr2 & _ & Hfilter).
    unfold lift in Hfilter. injection Hfilter as Hfilter _.
    eapply filtered_rows_pass, Hfilter.
  - injection Hrest as <- _. constructor.
Qed.

Lemma search_chunks_filtered W self query limit tr :
  exists chunks tr',
    search_chunks W self query limit tr = (Return chunks, tr')
    /\ Forall (passes (similarity_threshold self)) chunks.
Proof.
  unfold search_chunks.
  destruct (try_except_returns
              (DocumentProcessor.generate_embeddings W query ≫= fun query_embedding =>
                 match query_embedding with
                 | None | Some [] => ret []
                 | Some embedding =>
                     Store.search_similar_chunks W embedding limit ≫= fun similar_chunks =>
                       lift (filter_raising (above_threshold self) similar_chunks)
                 end)
              (fun _ => []) tr) as (chunks & tr' & Hrun & Hbody).
  exists chunks, tr'. split; [ exact Hrun | ].
  destruct Hbody as [Hbody | (e & _ & ->)]; [ | constructor ].
  apply bind_returns in Hbody as (emb & tr1 & _ & Hrest).
  destruct emb as [[ | x emb] | ].
  - injection Hrest as <- _. constructor.
  - apply bind_returns in Hrest as (rows & tr2 & _ & Hfilter).
    unfold lift in Hfilter. injection Hfilter as Hfilter _.
    eapply filtered_rows_pass, Hfilter.
  - injection Hrest as <- _. constructor.
Qed.


End Threshold.

(* ===================================================================== *)
(** * The reasoning pipeline *)
(* ===================================================================== *)

Module Pipeline.
Import Binary64 Py Data Effects Agents MonadFacts.

Ltac run_monad :=
  unfold try_except, call, lift, raise, ret, mbind, M_bind, mret, M_ret in *; simpl in *.

(** The verify stage changes nothing but the transcript. *)
Lemma fact_checker_frame W st tr st' tr' :
  fact_checker W st tr = (Return st', tr') ->
  st_response st' = st_response st
  /\ st_analysis st' = st_analysis st
  /\ st_documents st' = st_documents st
  /\ exists v, st_messages st' = st_messages st ++ [AIMessage v].
Proof.
  unfold fact_checker, llm_invoke. destruct (llm W) as [complete | ]; run_monad.
  - destruct (complete tr _) as [v | e]; intros H; [ | discriminate ].
    injection H as <- _. simpl. eauto.
  - discriminate.
Qed.

(** A successful run of [execute_search] made exactly the four completion
    requests, in stage order, and returns the third answer. *)
Lemma execute_search_success W query docs kg tr result q n1 n2 history tr' :
  execute_search W query docs kg tr = (Return (AgentSuccess result q n1 n2 history), tr') ->
  exists complete found findings verdict,
    llm W = Some complete
    /\ let p1 := SearchPrompt (sq_query query) docs in
       let p2 := AnalysisPrompt (py_join newline [sq_query query; found]) kg in
       let p3 := SynthesisPrompt findings (sq_query query) in
       let p4 := FactCheckPrompt result docs in
       complete tr p1 = Return found
       /\ complete (tr ++ [LlmInvoke p1]) p2 = Return findings
       /\ complete ((tr ++ [LlmInvoke p1]) ++ [LlmInvoke p2]) p3 = Return result
       /\ complete (((tr ++ [LlmInvoke p1]) ++ [LlmInvoke p2]) ++ [LlmInvoke p3]) p4
          = Return verdict
       /\ history = [sq_query query; found; findings; result; verdict]
       /\ tr' = (((tr ++ [LlmInvoke p1]) ++ [LlmInvoke p2]) ++ [LlmInvoke p3]) ++ [LlmInvoke p4].
Proof.
  unfold execute_search, graph, graph_invoke, search_agent, analysis_agent,
    synthesis_agent, fact_checker, last_message, first_message, llm_invoke.
  destruct (llm W) as [complete | ]; run_monad; [ | discriminate ].
  destruct (complete tr _) as [found | e] eqn:E1; simpl; [ | discriminate ].
  destruct (complete (tr ++ _) _) as [findings | e] eqn:E2; simpl; [ | discriminate ].
  rewrite lookup_singleton_eq. simpl.
  destruct (complete ((tr ++ _) ++ _) _) as [answer | e] eqn:E3; simpl; [ | discriminate ].
  destruct (complete (((tr ++ _) ++ _) ++ _) _) as [verdict | e] eqn:E4; simpl;
    [ | discriminate ].
  intros H. injection H as <- <- <- <- <- <-.
  exists complete, found, findings, verdict. cbv zeta. auto 10.
Qed.

(** C7. The verify stage appends its message to the transcript and leaves
    the response alone; so when a pipeline run completes, the text it returns
    is the completion the synthesize stage received, whatever the verify
    stage's completion says. *)
Theorem verify_stage_keeps_response (W : World) :
  (forall st tr st' tr',
      fact_checker W st tr = (Return st', tr') ->
      st_response st' = st_response st
      /\ exists verdict, st_messages st' = st_messages st ++ [AIMessage verdict])
  /\ (forall query docs kg tr result q n1 n2 history tr',
      execute_search W query docs kg tr
      = (Return (AgentSuccess result q n1 n2 history), tr') ->
      exists complete at_synthesis findings found verdict,
        llm W = Some complete
        /\ complete at_synthesis (SynthesisPrompt findings (sq_query query)) = Return result
        /\ history = [sq_query query; found; findings; result; verdict]).
Proof.
  split.
  - intros st tr st' tr' H. apply fact_checker_frame in H as (H1 & _ & _ & H4). auto.
  - intros query docs kg tr result q n1 n2 history tr' H.
    apply execute_search_success in H
      as (complete & found & findings & verdict & Hllm & H1 & H2 & H3 & H4 & Hh & _).
    exists complete. eexists. exists findings, found, verdict. eauto.
Qed.

Lemma verify_stage_keeps_response_witness :
  exists complete at_synthesis findings found verdict,
    llm Samples.healthy = Some complete
    /\ complete at_synthesis (SynthesisPrompt findings Samples.bone_query)
       = Return "Microgravity reduces bone density."
    /\ [Samples.bone_query; "relevant: bone.pdf"; "bone density decreases";
        "Microgravity reduces bone density."; "Verified, with one caveat."]
       = [Samples.bone_query; found; findings; "Microgravity reduces bone density."; verdict].
Proof.
  apply (proj2 (verify_stage_keeps_response Samples.healthy)
               (factual Samples.bone_query) [Samples.bone_doc] [] []
               "Microgravity reduces bone density." Samples.bone_query 1 0 _
               [LlmInvoke (SearchPrompt Samples.bone_query [Samples.bone_doc]);
                LlmInvoke (AnalysisPrompt
                             (py_join newline [Samples.bone_query; "relevant: bone.pdf"]) []);
                LlmInvoke (SynthesisPrompt "bone density decreases" Samples.bone_query);
                LlmInvoke (FactCheckPrompt "Microgravity reduces bone density."
                                           [Samples.bone_doc])]).
  reflexivity.
Defined.

End Pipeline.

(* ===================================================================== *)
(** * The calls retrieval makes *)
(* ===================================================================== *)

Module RetrievalCalls.
Import Binary64 Py Data Effects Rag MonadFacts.
Import DocumentProcessor.

Ltac run_monad :=
  unfold try_except, call, lift, raise, ret, mbind, M_bind, mret, M_ret in *; simpl in *.

Definition is_embed (ev : event) : bool :=
  match ev with EmbedContent _ _ => true | _ => false end.

Definition is_llm (ev : event) : bool :=
  match ev with LlmInvoke _ => true | _ => false end.

Definition is_graph (ev : event) : bool :=
  match ev with GraphSearch _ _ | GraphRelationships _ => true | _ => false end.

Ltac one_call := do 2 eexists; split; [ reflexivity | left; reflexivity ].
Ltac two_calls := do 2 eexists; split; [ reflexivity | right; eexists; reflexivity ].

(** The calls to the embedding provider recorded in a trace. *)
Definition embed_calls (tr : trace) : list event := List.filter is_embed tr.

(** The completion requests recorded in a trace. *)
Definition llm_calls (tr : trace) : list event := List.filter is_llm tr.

Lemma embedding_model_set : negb (str_truthy embedding_model) = false.
Proof. reflexivity. Qed.

(** [generate_embeddings] calls the provider once and never raises. *)
Lemma generate_embeddings_run W text tr :
  exists r, generate_embeddings W text tr = (Return r, tr ++ [EmbedContent embedding_model text]).
Proof.
  unfold generate_embeddings. rewrite embedding_model_set. run_monad.
  destruct (genai_embed_content W tr embedding_model text) as [[[ | x l] | ] | e]; simpl; eauto.
Qed.

(** The calls of one vector search: the embedding request, then at most one
    request to the store. *)
Definition vector_search_calls (store_call : list float -> Z -> event) (query : str)
           (limit : Z) (delta : trace) : Prop :=
  delta = [EmbedContent embedding_model query]
  \/ exists embedding, delta = [EmbedContent embedding_model query; store_call embedding limit].

Lemma search_documents_run W self query limit tr :
  exists docs delta,
    search_documents W self query limit tr = (Return docs, tr ++ delta)
    /\ vector_search_calls SearchSimilarDocuments query limit delta.
Proof.
  unfold search_documents, Store.search_similar_documents.
  destruct (generate_embeddings_run W query tr) as (r & Hr).
  run_monad. rewrite Hr. unfold vector_search_calls.
  destruct r as [[ | x l] | ]; simpl; [ one_call | | one_call ].
  destruct (db_search_similar_documents W _ _ _) as [rows | e]; simpl.
  - destruct (filter_raising _ rows) as [kept | e]; simpl;
      rewrite <- app_assoc; simpl; two_calls.
  - rewrite <- app_assoc; simpl; two_calls.
Qed.

Lemma search_chunks_run W self query limit tr :
  exists chunks delta,
    search_chunks W self query limit tr = (Return chunks, tr ++ delta)
    /\ vector_search_calls SearchSimilarChunks query limit delta.
Proof.
  unfold search_chunks, Store.search_similar_chunks.
  destruct (generate_embeddings_run W query tr) as (r & Hr).
  run_monad. rewrite Hr. unfold vector_search_calls.
  destruct r as [[ | x l] | ]; simpl; [ one_call | | one_call ].
  destruct (db_search_similar_chunks W _ _ _) as [rows | e]; simpl.
  - destruct (filter_raising _ rows) as [kept | e]; simpl;
      rewrite <- app_assoc; simpl; two_calls.
  - rewrite <- app_assoc; simpl; two_calls.
Qed.

Lemma search_graph_run W query limit tr :
  exists entities delta,
    Store.search_graph W query limit tr = (Return entities, tr ++ delta)
    /\ Forall (fun ev => is_graph ev = true) delta.
Proof.
  unfold Store.search_graph. destruct (neo4j_driver W); run_monad.
  - destruct (neo4j_run_search W tr query limit) as [records | e]; simpl;
      eexists; exists [GraphSearch query limit]; (split; [ reflexivity | ]);
      repeat constructor.
  - exists [], []. rewrite app_nil_r. split; [ reflexivity | constructor ].
Qed.

Lemma get_entity_relationships_run W entity_id tr :
  exists items delta,
    Store.get_entity_relationships W entity_id tr = (Return items, tr ++ delta)
    /\ Forall (fun ev => is_graph ev = true) delta.
Proof.
  unfold Store.get_entity_relationships. destruct (neo4j_driver W); run_monad.
  - destruct (neo4j_run_relationships W tr entity_id) as [records | e]; simpl;
      eexists; exists [GraphRelationships entity_id]; (split; [ reflexivity | ]);
      repeat constructor.
  - exists [], []. rewrite app_nil_r. split; [ reflexivity | constructor ].
Qed.

Lemma collect_relationships_run W entities :
  forall kg_context tr,
  exists items delta,
    collect_relationships W entities kg_context tr = (Return items, tr ++ delta)
    /\ Forall (fun ev => is_graph ev = true) delta.
Proof.
  induction entities as [ | entity rest IH]; intros kg_context tr; simpl.
  - exists kg_context, []. rewrite app_nil_r. split; [ reflexivity | constructor ].
  - destruct (String.eqb (ent_type entity) "entity"); [ | apply IH ].
    destruct (truthy _); [ | apply IH ].
    destruct (get_entity_relationships_run W (get (ent_data entity) "id" VNone) tr)
      as (items & d1 & H1 & G1).
    rewrite bind_run, H1.
    destruct (IH (kg_context ++ items) (tr ++ d1)) as (items' & d2 & H2 & G2).
    exists items', (d1 ++ d2). rewrite app_assoc. split; [ exact H2 | ].
    apply Forall_app. auto.
Qed.

Lemma search_knowledge_graph_run W query tr :
  exists items delta,
    search_knowledge_graph W query tr = (Return items, tr ++ delta)
    /\ Forall (fun ev => is_graph ev = true) delta.
Proof.
  unfold search_knowledge_graph, try_except.
  destruct (neo4j_driver W); simpl.
  - destruct (search_graph_run W query 20 tr) as (entities & d1 & H1 & G1).
    rewrite bind_run, H1.
    destruct (collect_relationships_run W entities [] (tr ++ d1)) as (items & d2 & H2 & G2).
    rewrite H2. exists items, (d1 ++ d2). rewrite app_assoc.
    split; [ reflexivity | apply Forall_app; auto ].
  - exists [], []. rewrite app_nil_r. split; [ reflexivity | constructor ].
Qed.

(** [hybrid_search] never raises, and its calls are those of the document
    search, of the chunk search and of the graph search, in this order. *)
Lemma hybrid_search_run W self query include_kg tr :
  exists sr d1 d2 d3,
    hybrid_search W self query include_kg tr = (Return sr, tr ++ d1 ++ d2 ++ d3)
    /\ vector_search_calls SearchSimilarDocuments query 10 d1
    /\ vector_search_calls SearchSimilarChunks query 20 d2
    /\ Forall (fun ev => is_graph ev = true) d3.
Proof.
  unfold hybrid_search, try_except.
  destruct (search_documents_run W self query 10 tr) as (docs & d1 & H1 & S1).
  rewrite bind_run, H1.
  destruct (search_chunks_run W self query 20 (tr ++ d1)) as (chunks & d2 & H2 & S2).
  rewrite bind_run, H2.
  assert (Hkg : exists items d3,
             (if include_kg then search_knowledge_graph W query else ret [])
               ((tr ++ d1) ++ d2) = (Return items, ((tr ++ d1) ++ d2) ++ d3)
             /\ Forall (fun ev => is_graph ev = true) d3).
  { destruct include_kg.
    - apply search_knowledge_graph_run.
    - exists [], []. rewrite app_nil_r. split; [ reflexivity | constructor ]. }
  destruct Hkg as (items & d3 & H3 & G3).
  rewrite bind_run, H3, bind_run. unfold lift.
  replace (((tr ++ d1) ++ d2) ++ d3) with (tr ++ d1 ++ d2 ++ d3)
    by (rewrite !app_assoc; reflexivity).
  destruct (_combine_search_results W docs chunks items query) as [combined | e];
    eexists; exists d1, d2, d3; (split; [ reflexivity | auto ]).
Qed.

End RetrievalCalls.

(* ===================================================================== *)
(** * Embedding requests of one retrieval *)
(* ===================================================================== *)

Module EmbeddingCalls.
Import Binary64 Py Data Effects Rag MonadFacts RetrievalCalls.
Import DocumentProcessor.

Lemma filter_app_events (p : event -> bool) (l1 l2 : list event) :
  List.filter p (l1 ++ l2) = List.filter p l1 ++ List.filter p l2.
Proof. apply List.filter_app. Qed.

Lemma embed_calls_vector_search store_call query limit delta :
  (forall e l, is_embed (store_call e l) = false) ->
  vector_search_calls store_call query limit delta ->
  embed_calls delta = [EmbedContent embedding_model query].
Proof.
  intros Hs [-> | [embedding ->]]; unfold embed_calls; simpl.
  - reflexivity.
  - now rewrite Hs.
Qed.

Lemma graph_calls_no_embed delta :
  Forall (fun ev => is_graph ev = true) delta -> embed_calls delta = [].
Proof.
  induction 1 as [ | ev delta Hev _ IH]; [ reflexivity | ].
  unfold embed_calls in *. simpl. destruct ev; simpl in *; try discriminate; exact IH.
Qed.

(** C8, as the code has it.  One call of [hybrid_search] sends the query text
    to the embedding provider twice, once from the document search and once
    from the chunk search; each search computes its own embedding. *)
Theorem hybrid_search_embeds_query_twice
        (W : World) (self : RAGSystem) (query : str) (include_kg : bool) (tr : trace) :
  exists sr tr',
    hybrid_search W self query include_kg tr = (Return sr, tr')
    /\ embed_calls tr'
       = embed_calls tr ++ [EmbedContent embedding_model query;
                            EmbedContent embedding_model query].
Proof.
  destruct (hybrid_search_run W self query include_kg tr)
    as (sr & d1 & d2 & d3 & Hrun & S1 & S2 & G3).
  exists sr, (tr ++ d1 ++ d2 ++ d3). split; [ exact Hrun | ].
  unfold embed_calls. rewrite !filter_app_events.
  fold (embed_calls d1) (embed_calls d2) (embed_calls d3).
  rewrite (embed_calls_vector_search SearchSimilarDocuments _ _ _ (fun _ _ => eq_refl) S1).
  rewrite (embed_calls_vector_search SearchSimilarChunks _ _ _ (fun _ _ => eq_refl) S2).
  rewrite (graph_calls_no_embed _ G3). reflexivity.
Qed.

(** Each of the two searches asks for the embedding itself. *)
Lemma each_search_embeds_once W self query limit tr :
  (exists docs tr', search_documents W self query limit tr = (Return docs, tr')
                    /\ embed_calls tr' = embed_calls tr ++ [EmbedContent embedding_model query])
  /\ (exists chunks tr', search_chunks W self query limit tr = (Return chunks, tr')
                    /\ embed_calls tr' = embed_calls tr ++ [EmbedContent embedding_model query]).
Proof.
  split.
  - destruct (search_documents_run W self query limit tr) as (docs & d & H & S).
    exists docs, (tr ++ d). split; [ exact H | ].
    unfold embed_calls. rewrite filter_app_events. fold (embed_calls d).
    now rewrite (embed_calls_vector_search SearchSimilarDocuments _ _ _ (fun _ _ => eq_refl) S).
  - destruct (search_chunks_run W self query limit tr) as (chunks & d & H & S).
    exists chunks, (tr ++ d). split; [ exact H | ].
    unfold embed_calls. rewrite filter_app_events. fold (embed_calls d).
    now rewrite (embed_calls_vector_search SearchSimilarChunks _ _ _ (fun _ _ => eq_refl) S).
Qed.

(** With every service answering, one retrieval of the sample query makes two
    embedding requests, not one. *)
Lemma hybrid_search_does_not_embed_once :
  length (embed_calls (snd (hybrid_search Samples.healthy RAGSystem_init
                                          Samples.bone_query true [])))
  <> 1%nat.
Proof. vm_compute. discriminate. Qed.

End EmbeddingCalls.

(* ===================================================================== *)
(** * The orchestrator *)
(* ===================================================================== *)

Module Orchestrator.
Import Binary64 Py Data Effects Agents Rag MonadFacts RetrievalCalls.

(** C1. For every query, every session identifier, every world (each service
    free to raise on any call) and every history, [ask_question] returns an
    [Answer], one that echoes the query and counts its own sources; and when
    an exception reaches its [except] clause, the answer is the error answer:
    a message that quotes the exception, confidence [0.0], query type
    ["error"], no sources. *)
Theorem ask_question_never_raises
        (W : World) (self : RAGSystem) (query : str) (session_id : option str) (tr : trace) :
  exists answer tr',
    ask_question W self query session_id tr = (Return answer, tr')
    /\ ans_query answer = query
    /\ ans_num_sources answer = py_len (ans_sources answer)
    /\ forall e,
        fst (ask_question_body W self query session_id tr) = Raise e ->
        ans_answer answer = "I'm sorry, I encountered an error: " +:+ exn_str e
        /\ ans_confidence answer = VFloat zero
        /\ ans_query_type answer = JStr "error"
        /\ ans_sources answer = []
        /\ ans_num_sources answer = 0.
Proof.
  unfold ask_question.
  destruct (try_except_returns (ask_question_body W self query session_id)
                               (error_answer query) tr)
    as (answer & tr' & Hrun & Hbody).
  exists answer, tr'. split; [ exact Hrun | ].
  destruct Hbody as [Hbody | (e' & Hbody & ->)].
  - split; [ | split ].
    + unfold ask_question_body in Hbody.
      apply bind_returns in Hbody as (sr & tr1 & _ & H1).
      apply bind_returns in H1 as (ad & tr2 & _ & H2).
      apply bind_returns in H2 as (u & tr3 & _ & H3).
      injection H3 as <- _. reflexivity.
    + unfold ask_question_body in Hbody.
      apply bind_returns in Hbody as (sr & tr1 & _ & H1).
      apply bind_returns in H1 as (ad & tr2 & _ & H2).
      apply bind_returns in H2 as (u & tr3 & _ & H3).
      injection H3 as <- _. reflexivity.
    + intros e He. rewrite Hbody in He. discriminate.
  - split; [ reflexivity | split; [ reflexivity | ] ].
    intros e He. rewrite Hbody in He. simpl in He. injection He as ->. simpl. auto.
Qed.

Lemma ask_question_never_raises_witness :
  exists answer tr',
    ask_question Samples.chat_store_down RAGSystem_init Samples.bone_query (Some "s-1") []
    = (Return answer, tr')
    /\ ans_query_type answer = JStr "error"
    /\ ans_confidence answer = VFloat zero.
Proof.
  destruct (ask_question_never_raises Samples.chat_store_down RAGSystem_init
                                      Samples.bone_query (Some "s-1") [])
    as (answer & tr' & Hrun & _ & _ & Herr).
  exists answer, tr'. split; [ exact Hrun | ].
  destruct (Herr Samples.unavailable) as (_ & Hc & Ht & _).
  - vm_compute. reflexivity.
  - split; assumption.
Defined.

(** Even with every service raising on every call an answer comes back. *)
Example ask_question_all_down :
  fst (ask_question Samples.all_down RAGSystem_init "" None [])
  = Return {| ans_query := "";
              ans_answer := "I encountered an error while processing your query: "
                            +:+ "service unavailable";
              ans_sources := [];
              ans_follow_up_questions := [];
              ans_confidence := VFloat zero;
              ans_query_type := JStr "factual";
              ans_num_sources := 0;
              ans_search_results :=
                {| sr_documents := Some []; sr_chunks := Some [];
                   sr_knowledge_graph := Some []; sr_combined_results := Some [];
                   sr_query := Some ""; sr_error := None |} |}.
Proof. vm_compute. reflexivity. Qed.

End Orchestrator.

(* ===================================================================== *)
(** * When the completion provider fails *)
(* ===================================================================== *)

Module CompletionFailure.
Import Binary64 Py Data Effects Agents Rag MonadFacts RetrievalCalls.

(** The completion model is configured and raises on every request. *)
Definition completion_always_raises (W : World) : Prop :=
  exists complete, llm W = Some complete /\ forall tr p, exists e, complete tr p = Raise e.

Lemma llm_calls_app tr1 tr2 : llm_calls (tr1 ++ tr2) = llm_calls tr1 ++ llm_calls tr2.
Proof. apply List.filter_app. Qed.

Lemma vector_search_no_llm store_call query limit delta :
  (forall e l, is_llm (store_call e l) = false) ->
  vector_search_calls store_call query limit delta -> llm_calls delta = [].
Proof.
  intros Hs [-> | [embedding ->]]; unfold llm_calls; simpl.
  - reflexivity.
  - now rewrite Hs.
Qed.

Lemma graph_calls_no_llm delta :
  Forall (fun ev => is_graph ev = true) delta -> llm_calls delta = [].
Proof.
  induction 1 as [ | ev delta Hev _ IH]; [ reflexivity | ].
  unfold llm_calls in *. simpl. destruct ev; simpl in *; try discriminate; exact IH.
Qed.

(** Classification falls back to ["factual"], the first stage raises, and
    [generate_answer] reports the failure with the classified type. *)
Lemma generate_answer_completion_down W query sr tr :
  completion_always_raises W ->
  exists e,
    generate_answer W query sr tr
    = (Return {| ad_answer := "I encountered an error while processing your query: "
                              +:+ exn_str e;
                 ad_sources := [];
                 ad_follow_up_questions := [];
                 ad_query_type := JStr "factual";
                 ad_confidence := VFloat zero |},
       tr ++ [LlmInvoke (ClassifyPrompt query);
              LlmInvoke (SearchPrompt query (default [] (sr_documents sr)))]).
Proof.
  intros (complete & Hllm & Hdown).
  unfold generate_answer, classify_query, execute_search, graph, graph_invoke,
    search_agent, last_message, llm_invoke.
  rewrite Hllm. run_monad.
  destruct (Hdown tr (ClassifyPrompt query)) as (e1 & ->). simpl.
  destruct (Hdown (tr ++ [LlmInvoke (ClassifyPrompt query)])
                  (SearchPrompt query (default [] (sr_documents sr)))) as (e2 & ->).
  simpl. exists e2. rewrite <- app_assoc. reflexivity.
Qed.

(** C4, as the code has it.  When the completion provider raises on every
    call, the only completion requests are the classification and the first
    stage of the pipeline, and [ask_question] returns an answer with
    confidence [0.0] and no sources whose query type is the classifier's
    fallback ["factual"]; the query type is ["error"] only if an exception
    reached the [except] clause of [ask_question]. *)
Theorem completion_failure_answer
        (W : World) (self : RAGSystem) (query : str) (session_id : option str) (tr : trace) :
  completion_always_raises W ->
  exists answer tr' docs,
    ask_question W self query session_id tr = (Return answer, tr')
    /\ ans_confidence answer = VFloat zero
    /\ ans_sources answer = []
    /\ llm_calls tr' = llm_calls tr ++ [LlmInvoke (ClassifyPrompt query);
                                        LlmInvoke (SearchPrompt query docs)]
    /\ ((ans_query_type answer = JStr "factual"
         /\ ask_question_body W self query session_id tr = (Return answer, tr'))
        \/ (ans_query_type answer = JStr "error"
            /\ exists e, ask_question_body W self query session_id tr = (Raise e, tr'))).
Proof.
  intros Hdown.
  destruct (hybrid_search_run W self query true tr) as (sr & d1 & d2 & d3 & Hs & S1 & S2 & G3).
  destruct (generate_answer_completion_down W query sr (tr ++ d1 ++ d2 ++ d3) Hdown)
    as (e & Hg).
  assert (Hquiet : llm_calls (tr ++ d1 ++ d2 ++ d3) = llm_calls tr).
  { rewrite !llm_calls_app.
    rewrite (vector_search_no_llm SearchSimilarDocuments _ _ _ (fun _ _ => eq_refl) S1).
    rewrite (vector_search_no_llm SearchSimilarChunks _ _ _ (fun _ _ => eq_refl) S2).
    rewrite (graph_calls_no_llm _ G3). now rewrite !app_nil_r. }
  unfold ask_question, try_except, ask_question_body.
  rewrite bind_run, Hs, bind_run, Hg. cbv beta iota.
  set (tr2 := (tr ++ d1 ++ d2 ++ d3) ++ _) in *.
  assert (Hllm2 : llm_calls tr2
                  = llm_calls tr ++ [LlmInvoke (ClassifyPrompt query);
                                     LlmInvoke (SearchPrompt query
                                                  (default [] (sr_documents sr)))]).
  { unfold tr2. rewrite llm_calls_app, Hquiet. reflexivity. }
  destruct session_id as [s | ]; [ destruct (str_truthy s) | ].
  - unfold Store.add_chat_message. run_monad.
    destruct (db_add_chat_message W tr2 s "user" query []) as [id1 | e1]; simpl.
    + destruct (db_add_chat_message W (tr2 ++ _) s "assistant" _ []) as [id2 | e2]; simpl.
      * do 2 eexists. exists (default [] (sr_documents sr)).
        split; [ reflexivity | ]. simpl.
        repeat split; auto.
        rewrite !llm_calls_app, Hllm2. simpl. now rewrite !app_nil_r.
      * do 2 eexists. exists (default [] (sr_documents sr)).
        split; [ reflexivity | ]. simpl.
        repeat split; eauto.
        rewrite !llm_calls_app, Hllm2. simpl. now rewrite !app_nil_r.
    + do 2 eexists. exists (default [] (sr_documents sr)).
      split; [ reflexivity | ]. simpl.
      repeat split; eauto.
      rewrite !llm_calls_app, Hllm2. simpl. now rewrite !app_nil_r.
  - run_monad. do 2 eexists. exists (default [] (sr_documents sr)).
    split; [ reflexivity | ]. simpl. repeat split; auto.
  - run_monad. do 2 eexists. exists (default [] (sr_documents sr)).
    split; [ reflexivity | ]. simpl. repeat split; auto.
Qed.

Lemma completion_down_always_raises : completion_always_raises Samples.completion_down.
Proof. eexists. split; [ reflexivity | ]. intros tr p. eexists. reflexivity. Qed.

Lemma completion_failure_answer_witness :
  exists answer tr' docs,
    ask_question Samples.completion_down RAGSystem_init Samples.bone_query None []
    = (Return answer, tr')
    /\ ans_confidence answer = VFloat zero
    /\ ans_sources answer = []
    /\ llm_calls tr' = llm_calls [] ++ [LlmInvoke (ClassifyPrompt Samples.bone_query);
                                        LlmInvoke (SearchPrompt Samples.bone_query docs)]
    /\ ((ans_query_type answer = JStr "factual"
         /\ ask_question_body Samples.completion_down RAGSystem_init Samples.bone_query None []
            = (Return answer, tr'))
        \/ (ans_query_type answer = JStr "error"
            /\ exists e, ask_question_body Samples.completion_down RAGSystem_init
                                           Samples.bone_query None []
                         = (Raise e, tr'))).
Proof.
  apply (completion_failure_answer Samples.completion_down RAGSystem_init
                                   Samples.bone_query None []).
  exists (fun _ _ => Raise Samples.unavailable). split; [ reflexivity | ].
  intros tr p. exists Samples.unavailable. reflexivity.
Defined.

(** As the specification words it, the property fails: with the completion
    provider raising on every call and every other service answering, the
    answer's query type is ["factual"], not ["error"]. *)
Lemma completion_failure_is_not_an_error_type :
  completion_always_raises Samples.completion_down
  /\ exists answer tr',
      ask_question Samples.completion_down RAGSystem_init Samples.bone_query None []
      = (Return answer, tr')
      /\ ans_query_type answer = JStr "factual"
      /\ ans_query_type answer <> JStr "error".
Proof.
  split; [ apply completion_down_always_raises | ].
  do 2 eexists. split; [ vm_compute; reflexivity | ].
  split; [ reflexivity | discriminate ].
Qed.

End CompletionFailure.

(* ===================================================================== *)
(** * Facts about binary64 arithmetic *)
(* ===================================================================== *)

Module Binary64Facts.
Import Binary64.

(** The sign bit is clear and the value is a number: [+0.0], a positive
    finite float, or [+inf]. *)
Definition signpos (x : float) : bool :=
  match x with
  | S754_zero false | S754_infinity false | S754_finite false _ _ => true
  | _ => false
  end.

(** [0.0 <= x] as Python evaluates it (true also of [-0.0]). *)
Definition ge0 (x : float) : bool := leb zero x.

Lemma pow2_pos k : 0 <= k -> 0 < 2 ^ k.
Proof. intros H. apply Z.pow_pos_nonneg; lia. Qed.

Lemma compare_zero_finite s m e :
  ecompare (EFin 0 0) (EFin (cond_Zopp s (Z.pos m)) e) = Some (if s then Gt else Lt).
Proof.
  unfold ecompare. rewrite Z.mul_0_l. f_equal.
  assert (Hp : 0 < 2 ^ (e - Z.min 0 e)) by (apply pow2_pos; lia).
  destruct s; unfold cond_Zopp.
  - apply Z.compare_gt_iff. apply Z.mul_neg_pos; [ reflexivity | exact Hp ].
  - apply Z.compare_lt_iff. apply Z.mul_pos_pos; [ reflexivity | exact Hp ].
Qed.

Lemma ge0_finite s m e : ge0 (S754_finite s m e) = negb s.
Proof.
  unfold ge0, leb, eleb, zero, to_ereal. rewrite compare_zero_finite. now destruct s.
Qed.

Lemma ge0_cases x :
  ge0 x = true ->
  (exists s, x = S754_zero s) \/ x = S754_infinity false \/ exists m e, x = S754_finite false m e.
Proof.
  destruct x as [s | [ | ] | | s m e]; intros H; try discriminate; eauto.
  rewrite ge0_finite in H. destruct s; [ discriminate | eauto ].
Qed.

Lemma signpos_ge0 x : signpos x = true -> ge0 x = true.
Proof.
  destruct x as [[ | ] | [ | ] | | [ | ] m e]; simpl; intros H; try discriminate;
    try reflexivity.
  now rewrite ge0_finite.
Qed.

(** ** Rounding keeps the sign *)

Lemma shr_1_nonneg mrs : 0 <= shr_m mrs -> 0 <= shr_m (shr_1 mrs).
Proof.
  destruct mrs as [m r s]. simpl. destruct m as [ | [p | p | ] | p]; simpl; lia.
Qed.

Lemma iter_shr_1_nonneg (p : positive) :
  forall mrs, 0 <= shr_m mrs -> 0 <= shr_m (SpecFloat.iter_pos shr_1 p mrs).
Proof.
  induction p as [p IH | p IH | ]; intros mrs H; simpl.
  - apply IH, IH, shr_1_nonneg, H.
  - apply IH, IH, H.
  - apply shr_1_nonneg, H.
Qed.

Lemma shr_fexp_nonneg m e l : 0 <= m -> 0 <= shr_m (fst (shr_fexp prec emax m e l)).
Proof.
  intros H. unfold shr_fexp, shr.
  assert (H0 : 0 <= shr_m (shr_record_of_loc m l)) by (destruct l as [ | [ | | ]]; exact H).
  destruct (_ - e) as [ | p | p]; simpl; auto using iter_shr_1_nonneg.
Qed.

Lemma round_nearest_even_nonneg m l : 0 <= m -> 0 <= round_nearest_even m l.
Proof.
  intros H. destruct l as [ | [ | | ]]; simpl; try lia. destruct (Z.even m); lia.
Qed.

Lemma binary_round_aux_signpos mx ex lx :
  0 <= mx -> signpos (binary_round_aux prec emax false mx ex lx) = true.
Proof.
  intros H. unfold binary_round_aux.
  pose proof (shr_fexp_nonneg mx ex lx H) as H1.
  destruct (shr_fexp prec emax mx ex lx) as [mrs' e']. simpl in H1.
  pose proof (shr_fexp_nonneg _ e' loc_Exact
                (round_nearest_even_nonneg _ (loc_of_shr_record mrs') H1)) as H2.
  destruct (shr_fexp prec emax _ e' loc_Exact) as [mrs'' e'']. simpl in H2.
  destruct (shr_m mrs'') as [ | p | p].
  - reflexivity.
  - destruct (e'' <=? emax - prec); reflexivity.
  - lia.
Qed.

Lemma binary_round_signpos m e : signpos (binary_round prec emax false m e) = true.
Proof.
  unfold binary_round. destruct (shl_align m e _) as [mz ez].
  apply binary_round_aux_signpos. lia.
Qed.

Lemma of_int_signpos n : 0 <= n -> signpos (of_int n) = true.
Proof.
  intros H. unfold of_int, binary_normalize. destruct n as [ | p | p].
  - reflexivity.
  - apply binary_round_signpos.
  - lia.
Qed.

Lemma add_signpos x y : signpos x = true -> ge0 y = true -> signpos (add x y) = true.
Proof.
  intros Hx Hy. apply ge0_cases in Hy as [[s ->] | [-> | (m & e & ->)]];
    destruct x as [[ | ] | [ | ] | | [ | ] mx ex]; try discriminate; try reflexivity.
  - destruct s; reflexivity.
  - unfold add, SFadd. simpl cond_Zopp. unfold binary_normalize.
    match goal with |- context [Z.pos ?a + Z.pos ?b] => change (Z.pos a + Z.pos b) with (Z.pos (a + b)) end.
    apply binary_round_signpos.
Qed.

Lemma div_signpos x m e :
  signpos x = true -> signpos (div x (S754_finite false m e)) = true.
Proof.
  destruct x as [[ | ] | [ | ] | | [ | ] mx ex]; intros H; try discriminate; try reflexivity.
  unfold div, SFdiv. simpl xorb.
  destruct (SFdiv_core_binary prec emax (Z.pos mx) ex (Z.pos m) e) as [[mz ez] lz] eqn:E.
  apply binary_round_aux_signpos.
  unfold SFdiv_core_binary in E.
  set (m' := match _ - _ - _ with Z0 => _ | Zpos _ => _ | Zneg _ => _ end) in E.
  assert (Hm' : 0 <= m').
  { unfold m'. destruct (_ - _ - _) as [ | p | p]; try lia.
    rewrite Z.shiftl_mul_pow2 by lia. apply Z.mul_nonneg_nonneg; [ lia | ].
    apply Z.pow_nonneg. lia. }
  pose proof (Z.div_pos m' (Z.pos m) Hm' eq_refl) as Hq.
  unfold Z.div in Hq. destruct (Z.div_eucl m' (Z.pos m)) as [q r].
  injection E as <- _ _. exact Hq.
Qed.

Lemma mul_signpos x m e :
  signpos x = true -> (forall s, x <> S754_infinity s) ->
  signpos (mul x (S754_finite false m e)) = true.
Proof.
  destruct x as [[ | ] | [ | ] | | [ | ] mx ex]; intros H Hfin; try discriminate;
    try reflexivity.
  unfold mul, SFmul. simpl xorb. apply binary_round_aux_signpos. lia.
Qed.

End Binary64Facts.

Module Binary64Round.
Import Binary64 Binary64Facts.

(** ** Small integers convert to finite floats *)

Lemma digits2_pos_size p : digits2_pos p = Pos.size p.
Proof. induction p; simpl; congruence. Qed.

Lemma digits2_pos_bound p k : 0 <= k -> Z.pos p < 2 ^ k -> Z.pos (digits2_pos p) <= k.
Proof.
  intros Hk Hp. rewrite digits2_pos_size.
  pose proof (Pos.size_le p) as Hs.
  apply Pos2Z.pos_le_pos in Hs. rewrite Pos2Z.inj_pow in Hs.
  change (Z.pos p~0) with (2 * Z.pos p) in Hs.
  assert (H2 : 2 ^ Z.pos (Pos.size p) < 2 ^ (k + 1)).
  { rewrite Z.pow_add_r by lia. lia. }
  apply Z.pow_lt_mono_r_iff in H2; lia.
Qed.

Lemma digits2_pos_shift p d :
  Z.pos (digits2_pos (Pos.iter xO p d)) = Z.pos (digits2_pos p) + Z.pos d.
Proof.
  induction d as [ | d IH] using Pos.peano_ind.
  - simpl. lia.
  - rewrite Pos.iter_succ. simpl digits2_pos. rewrite Pos2Z.inj_succ, IH. lia.
Qed.

(** A mantissa of 53 bits with an exponent in range is not rounded. *)
Lemma binary_round_aux_canonical m e :
  Z.pos (digits2_pos m) = 53 -> -1074 <= e <= 971 ->
  binary_round_aux prec emax false (Z.pos m) e loc_Exact = S754_finite false m e.
Proof.
  intros Hd He.
  assert (Hshr : shr_fexp prec emax (Z.pos m) e loc_Exact
                 = ({| shr_m := Z.pos m; shr_r := false; shr_s := false |}, e)).
  { unfold shr_fexp, fexp, SpecFloat.emin, Zdigits2, prec, emax. rewrite Hd.
    replace (Z.max (53 + e - 53) (3 - 1024 - 53) - e) with 0 by lia. reflexivity. }
  unfold binary_round_aux. rewrite Hshr. cbn [shr_m loc_of_shr_record round_nearest_even].
  rewrite Hshr. cbn [shr_m].
  unfold prec, emax. destruct (Z.leb_spec e (1024 - 53)); [ reflexivity | lia ].
Qed.

Lemma of_int_small n :
  0 < n < 2 ^ 53 -> exists m e, of_int n = S754_finite false m e.
Proof.
  intros [Hpos Hlt]. destruct n as [ | p | p]; try lia.
  pose proof (digits2_pos_bound p 53 ltac:(lia) Hlt) as Hd.
  unfold of_int, binary_normalize, binary_round.
  unfold fexp, SpecFloat.emin, prec, emax.
  replace (Z.max (Z.pos (digits2_pos p) + 0 - 53) (3 - 1024 - 53))
    with (Z.pos (digits2_pos p) - 53) by lia.
  unfold shl_align.
  destruct (Z.pos (digits2_pos p) - 53 - 0) as [ | d | d] eqn:Ed; try lia.
  - do 2 eexists. apply binary_round_aux_canonical; lia.
  - do 2 eexists. apply binary_round_aux_canonical; [ | lia ].
    rewrite digits2_pos_shift. lia.
Qed.

(** ** [round(x, 2)] on the unit interval *)

Lemma round_half_even_bounds a b n :
  0 < b -> 0 <= a <= n * b -> 0 <= n -> 0 <= round_half_even a b <= n.
Proof.
  intros Hb [Ha Han] Hn. unfold round_half_even.
  pose proof (Z.div_mod a b ltac:(lia)) as Hdm.
  pose proof (Z.mod_pos_bound a b Hb) as Hr.
  assert (Hq : 0 <= a / b) by (apply Z.div_pos; lia).
  assert (Hqn : a / b <= n).
  { apply Z.div_le_upper_bound; lia. }
  destruct (Z.eq_dec (a / b) n) as [Heq | Hne].
  - assert (Hr0 : a mod b = 0) by nia.
    rewrite Hr0, Heq. replace (2 * 0) with 0 by reflexivity.
    assert (Hc : (0 ?= b) = Lt) by (apply Z.compare_lt_iff; exact Hb).
    rewrite Hc. lia.
  - destruct (2 * (a mod b) ?= b); [ destruct (Z.even (a / b)) | | ]; lia.
Qed.

(** [x <= 1.0] in the exact order bounds the hundredths of [x]. *)
Lemma hundredths_unit m e :
  ltb one (S754_finite false m e) = false -> 0 <= hundredths m e <= 100.
Proof.
  unfold ltb, eltb, one, to_ereal, ecompare, cond_Zopp. intros H.
  set (lo := Z.min (-52) e) in H.
  assert (Hle : Z.pos m * 2 ^ (e - lo) <= 4503599627370496 * 2 ^ (-52 - lo)).
  { destruct (4503599627370496 * 2 ^ (-52 - lo) ?= Z.pos m * 2 ^ (e - lo)) eqn:Ec;
      try discriminate.
    - apply Z.compare_eq_iff in Ec. lia.
    - apply Z.compare_gt_iff in Ec. lia. }
  clear H. change 4503599627370496 with (2 ^ 52) in Hle.
  unfold hundredths. destruct (Z.leb_spec 0 e) as [He | He].
  - (* an integer: it is at most one *)
    unfold lo in Hle. rewrite Z.min_l in Hle by lia.
    replace (e - -52) with (e + 52) in Hle by lia.
    replace (-52 - -52) with 0 in Hle by lia.
    rewrite Z.pow_add_r in Hle by lia. rewrite Z.pow_0_r in Hle.
    assert (Hp : 0 < 2 ^ e) by (apply pow2_pos; lia).
    assert (Hp52 : 0 < 2 ^ 52) by reflexivity.
    assert (Z.pos m * 2 ^ e <= 1) by nia.
    nia.
  - assert (Hb : 0 < 2 ^ (- e)) by (apply pow2_pos; lia).
    assert (Hm : Z.pos m <= 2 ^ (- e)).
    { unfold lo in Hle. destruct (Z.le_ge_cases (-52) e) as [Hc | Hc].
      - rewrite Z.min_l in Hle by lia.
        replace (-52 - -52) with 0 in Hle by lia. rewrite Z.pow_0_r in Hle.
        replace 52 with ((e - -52) + (- e)) in Hle at 1 by lia.
        rewrite Z.pow_add_r in Hle by lia.
        assert (Hp : 0 < 2 ^ (e - -52)) by (apply pow2_pos; lia).
        nia.
      - rewrite Z.min_r in Hle by lia.
        replace (e - e) with 0 in Hle by lia. rewrite Z.pow_0_r in Hle.
        rewrite <- Z.pow_add_r in Hle by lia.
        replace (52 + (-52 - e)) with (- e) in Hle by lia. lia. }
    apply round_half_even_bounds; lia.
Qed.

Lemma round2_finite_ratio m e :
  0 <= hundredths m e -> round2 (S754_finite false m e) = ratio (hundredths m e) 100.
Proof.
  intros H. unfold round2, ratio. destruct (hundredths m e); [ reflexivity | reflexivity | lia ].
Qed.

(** A float between [+0.0] and [1.0] rounds to the float nearest to some
    [n / 100] with [0 <= n <= 100]. *)
Lemma round2_unit x :
  signpos x = true -> ltb one x = false ->
  exists n, 0 <= n <= 100 /\ round2 x = ratio n 100.
Proof.
  intros Hs Hx. destruct x as [[ | ] | [ | ] | | [ | ] m e]; try discriminate.
  - exists 0. split; [ lia | reflexivity ].
  - pose proof (hundredths_unit m e Hx) as Hh.
    exists (hundredths m e). split; [ exact Hh | apply round2_finite_ratio; lia ].
Qed.

Definition in_unit_interval (x : float) : bool := leb zero x && leb x one.

Lemma hundredth_table :
  forallb (fun k => in_unit_interval (ratio (Z.of_nat k) 100)) (seq 0 101) = true.
Proof. vm_compute. reflexivity. Qed.

Lemma ratio_hundredth_in_unit n : 0 <= n <= 100 -> in_unit_interval (ratio n 100) = true.
Proof.
  intros Hn. pose proof hundredth_table as H.
  rewrite forallb_forall in H.
  specialize (H (Z.to_nat n)). rewrite Z2Nat.id in H by lia.
  apply H. apply in_seq. lia.
Qed.

End Binary64Round.

(* ===================================================================== *)
(** * The confidence score *)
(* ===================================================================== *)

Module Confidence.
Import Binary64 Py Data Effects Rag Binary64Facts Binary64Round.

(** ** The formula of the specification *)

(** [min(a, b)] on floats. *)
Definition fmin (a b : float) : float := if ltb b a then b else a.

(** The mean of the scores: their sum, from the left, over their number. *)
Definition mean (xs : list float) : float :=
  div (fold_left add xs zero) (of_int (py_len xs)).

(** The number of scores over [0.8]. *)
Definition strong_count (xs : list float) : Z :=
  py_len (List.filter (fun x => gtb x f0_8) xs).

(** [round(min(avg + min(0.1 * k, 0.3), 1.0), 2)] *)
Definition confidence_formula (xs : list float) : float :=
  let avg := mean xs in
  let k := strong_count xs in
  round2 (fmin (add avg (fmin (mul (of_int k) f0_1) f0_3)) one).

(** ** The code computes the formula *)

(** The part of [_calculate_confidence] that works on the list of scores. *)
Definition scoring (all_similarities : list value) : outcome value :=
  match all_similarities with
  | [] => Return (VFloat zero)
  | _ =>
      total ← py_sum all_similarities;
      avg_similarity ← py_truediv total (VInt (py_len all_similarities));
      good ← filter_raising (fun s => py_gt s (VFloat f0_8)) all_similarities;
      bonus ← int_mul_float (py_len good) f0_1;
      source_bonus ← py_min (VFloat bonus) (VFloat f0_3);
      raw ← py_add avg_similarity source_bonus;
      confidence ← py_min raw (VFloat one);
      py_round2 confidence
  end.

Lemma calculate_confidence_body_scoring sr :
  calculate_confidence_body sr
  = scoring (map similarity_of (default [] (sr_documents sr) ++ default [] (sr_chunks sr))).
Proof.
  unfold calculate_confidence_body.
  destruct (default [] (sr_documents sr)) as [ | d docs];
    destruct (default [] (sr_chunks sr)) as [ | c chunks];
    try reflexivity; rewrite map_app; reflexivity.
Qed.

Lemma sum_from_floats xs :
  forall acc, sum_from (VFloat acc) (map VFloat xs) = Return (VFloat (fold_left add xs acc)).
Proof.
  induction xs as [ | x xs IH]; intros acc; simpl; [ reflexivity | apply IH ].
Qed.

Lemma py_sum_floats xs :
  xs <> [] -> py_sum (map VFloat xs) = Return (VFloat (fold_left add xs zero)).
Proof.
  destruct xs as [ | x xs]; [ congruence | intros _ ].
  unfold py_sum. simpl. apply sum_from_floats.
Qed.

Lemma filter_over_floats xs :
  filter_raising (fun s => py_gt s (VFloat f0_8)) (map VFloat xs)
  = Return (map VFloat (List.filter (fun x => gtb x f0_8) xs)).
Proof.
  induction xs as [ | x xs IH]; [ reflexivity | ].
  cbn [map filter_raising List.filter]. rewrite IH.
  unfold py_gt, py_compare, gtb, egtb, is_gt. cbn [mbind outcome_bind].
  destruct (ecompare (to_ereal x) (to_ereal f0_8)) as [[ | | ] | ]; reflexivity.
Qed.

Lemma float_of_int_zero : float_of_int 0 = Return zero.
Proof. reflexivity. Qed.

Lemma float_of_int_small n :
  0 < n < 2 ^ 53 ->
  exists m e, of_int n = S754_finite false m e /\ float_of_int n = Return (S754_finite false m e).
Proof.
  intros Hn. destruct (of_int_small n Hn) as (m & e & H).
  exists m, e. split; [ exact H | ]. unfold float_of_int. now rewrite H.
Qed.

Lemma float_of_int_count k :
  0 <= k < 2 ^ 53 ->
  float_of_int k = Return (of_int k) /\ signpos (of_int k) = true
  /\ forall s, of_int k <> S754_infinity s.
Proof.
  intros Hk. destruct (Z.eq_dec k 0) as [-> | Hne].
  - split; [ reflexivity | split; [ reflexivity | intros s; discriminate ] ].
  - destruct (float_of_int_small k ltac:(lia)) as (m & e & H1 & H2).
    rewrite H1. split; [ exact H2 | split; [ reflexivity | intros s; discriminate ] ].
Qed.

Lemma py_min_floats a b : py_min (VFloat a) (VFloat b) = Return (VFloat (fmin a b)).
Proof.
  unfold py_min, py_lt, py_compare, fmin, ltb, eltb, is_lt. cbn [mbind outcome_bind].
  destruct (ecompare (to_ereal b) (to_ereal a)) as [[ | | ] | ]; reflexivity.
Qed.

Lemma filter_length_le {A} (p : A -> bool) (l : list A) :
  (length (List.filter p l) <= length l)%nat.
Proof.
  induction l as [ | x l IH]; simpl; [ lia | ]. destruct (p x); simpl; lia.
Qed.

Lemma strong_count_bounds xs : 0 <= strong_count xs <= py_len xs.
Proof.
  unfold strong_count, py_len. pose proof (filter_length_le (fun x => gtb x f0_8) xs). lia.
Qed.

Lemma scoring_floats xs :
  xs <> [] -> py_len xs < 2 ^ 53 ->
  scoring (map VFloat xs) = Return (VFloat (confidence_formula xs)).
Proof.
  intros Hne Hlen.
  unfold scoring. destruct (map VFloat xs) as [ | v vs] eqn:Ev.
  { destruct xs; [ congruence | discriminate ]. }
  rewrite <- Ev. clear v vs Ev.
  assert (Hpos : 0 < py_len xs).
  { destruct xs; [ congruence | unfold py_len; simpl length; lia ]. }
  assert (Hl : py_len (map VFloat xs) = py_len xs) by (unfold py_len; now rewrite length_map).
  assert (Hk : py_len (map VFloat (List.filter (fun x => gtb x f0_8) xs)) = strong_count xs)
    by (unfold strong_count, py_len; now rewrite length_map).
  destruct (float_of_int_small (py_len xs) ltac:(lia)) as (m & e & Hof & Hfl).
  pose proof (strong_count_bounds xs) as Hkb.
  destruct (float_of_int_count (strong_count xs) ltac:(lia)) as (Hfk & _ & _).
  rewrite (py_sum_floats xs Hne). cbn [mbind outcome_bind].
  rewrite Hl. unfold py_truediv. rewrite Hfl. cbn [mbind outcome_bind is_zero].
  rewrite filter_over_floats. cbn [mbind outcome_bind].
  rewrite Hk. unfold int_mul_float. rewrite Hfk. cbn [mbind outcome_bind].
  rewrite py_min_floats. cbn [mbind outcome_bind py_add].
  rewrite py_min_floats. cbn [mbind outcome_bind py_round2].
  unfold confidence_formula, mean. now rewrite Hof.
Qed.

(** ** The range of the formula *)

Lemma fold_add_signpos xs :
  forall acc, signpos acc = true -> Forall (fun x => ge0 x = true) xs ->
              signpos (fold_left add xs acc) = true.
Proof.
  induction xs as [ | x xs IH]; intros acc Hacc Hxs; simpl; [ exact Hacc | ].
  inversion Hxs as [ | ? ? Hx Hxs']; subst.
  apply IH; [ apply add_signpos; assumption | exact Hxs' ].
Qed.

Lemma fmin_signpos a b : signpos a = true -> signpos b = true -> signpos (fmin a b) = true.
Proof. intros Ha Hb. unfold fmin. destruct (ltb b a); assumption. Qed.

Lemma fmin_one_le x : ltb one (fmin x one) = false.
Proof. unfold fmin. destruct (ltb one x) eqn:E; [ reflexivity | exact E ]. Qed.

Lemma confidence_formula_two_decimals xs :
  xs <> [] -> py_len xs < 2 ^ 53 -> Forall (fun x => ge0 x = true) xs ->
  exists n, 0 <= n <= 100 /\ confidence_formula xs = ratio n 100.
Proof.
  intros Hne Hlen Hxs.
  assert (Hpos : 0 < py_len xs).
  { destruct xs; [ congruence | unfold py_len; simpl length; lia ]. }
  destruct (of_int_small (py_len xs) ltac:(lia)) as (m & e & Hof).
  pose proof (strong_count_bounds xs) as Hkb.
  destruct (float_of_int_count (strong_count xs) ltac:(lia)) as (_ & Hks & Hkfin).
  unfold confidence_formula, mean. rewrite Hof.
  apply round2_unit; [ | apply fmin_one_le ].
  apply fmin_signpos; [ | reflexivity ].
  apply add_signpos.
  - apply div_signpos, fold_add_signpos; [ reflexivity | exact Hxs ].
  - apply signpos_ge0, fmin_signpos; [ | reflexivity ].
    apply mul_signpos; assumption.
Qed.

End Confidence.

Module ConfidenceTheorems.
Import Binary64 Py Data Effects Agents Rag MonadFacts Binary64Facts Binary64Round Confidence.



(** Rows that passed a threshold with a clear sign bit have, where the
    similarity is a float, a similarity that is not below zero. *)
Lemma ecompare_negative_signpos m e t :
  signpos t = true ->
  ecompare (EFin (cond_Zopp true (Z.pos m)) e) (to_ereal t) = Some Lt.
Proof.
  intros Ht. destruct t as [[ | ] | [ | ] | | [ | ] mt et]; try discriminate; try reflexivity.
  - unfold to_ereal, ecompare, cond_Zopp. f_equal. apply Z.compare_lt_iff.
    rewrite Z.mul_0_l. apply Z.mul_neg_pos; [ reflexivity | apply pow2_pos; lia ].
  - unfold to_ereal, ecompare, cond_Zopp. f_equal. apply Z.compare_lt_iff.
    assert (- Z.pos m * 2 ^ (e - Z.min e et) < 0)
      by (apply Z.mul_neg_pos; [ reflexivity | apply pow2_pos; lia ]).
    assert (0 < Z.pos mt * 2 ^ (et - Z.min e et))
      by (apply Z.mul_pos_pos; [ reflexivity | apply pow2_pos; lia ]).
    lia.
Qed.

Lemma passed_scores_nonnegative t r x :
  signpos t = true -> Threshold.passes t r -> similarity_of r = VFloat x -> ge0 x = true.
Proof.
  intros Ht [Hge _] Hx. rewrite Hx in Hge.
  unfold py_ge, py_compare in Hge. cbn [mbind outcome_bind] in Hge.
  injection Hge as Hge.
  destruct x as [s | [ | ] | | [ | ] m e]; try reflexivity.
  - exfalso. destruct t as [[ | ] | [ | ] | | [ | ] mt et]; discriminate.
  - discriminate.
  - exfalso. change (to_ereal (S754_finite true m e))
      with (EFin (cond_Zopp true (Z.pos m)) e) in Hge.
    rewrite (ecompare_negative_signpos m e t Ht) in Hge. discriminate.
  - now rewrite ge0_finite.
Qed.

(** ** The fallback of [_calculate_confidence] *)

(** The completion model is configured and answers every request. *)
Definition completion_always_answers (W : World) : Prop :=
  exists complete, llm W = Some complete /\ forall tr p, exists s, complete tr p = Return s.

Lemma execute_search_answers W query docs kg tr :
  completion_always_answers W ->
  exists result q n1 n2 history tr',
    execute_search W query docs kg tr = (Return (AgentSuccess result q n1 n2 history), tr').
Proof.
  intros (complete & Hllm & Hans).
  unfold execute_search, graph, graph_invoke, search_agent, analysis_agent,
    synthesis_agent, fact_checker, last_message, first_message, llm_invoke.
  rewrite Hllm. Pipeline.run_monad.
  destruct (Hans tr (SearchPrompt (sq_query query) docs)) as (s1 & ->). simpl.
  match goal with |- context [complete ?t ?p] => destruct (Hans t p) as (s2 & ->) end. simpl.
  rewrite lookup_singleton_eq. simpl.
  match goal with |- context [complete ?t ?p] => destruct (Hans t p) as (s3 & ->) end. simpl.
  match goal with |- context [complete ?t ?p] => destruct (Hans t p) as (s4 & ->) end. simpl.
  do 6 eexists. reflexivity.
Qed.

(** With a pipeline that succeeds, the answer carries the value of
    [_calculate_confidence]. *)
Lemma generate_answer_confidence W query sr tr :
  completion_always_answers W ->
  exists answer_data tr',
    generate_answer W query sr tr = (Return answer_data, tr')
    /\ ad_confidence answer_data = _calculate_confidence sr
    /\ ad_sources answer_data = _extract_sources sr.
Proof.
  intros Hans. unfold generate_answer, try_except.
  unfold classify_query at 1.
  destruct (try_except_returns
              (match llm W with
               | None => ret (factual query)
               | Some _ =>
                   llm_invoke W (ClassifyPrompt query) ≫= fun response =>
                   match re_search_bracketed "{"%char "}"%char response with
                   | Some text =>
                       lift (json_loads_dict W text) ≫= fun classification =>
                       ret {| sq_query := query;
                              sq_query_type :=
                                default (JStr "factual") (classification !! "query_type");
                              sq_context :=
                                Some {[ "key_concepts" :=
                                          default (JList [])
                                                  (classification !! "key_concepts") ]};
                              sq_constraints :=
                                Some (default (JDict ∅) (classification !! "constraints")) |}
                   | None => ret (factual query)
                   end
               end)
              (fun _ => factual query) tr) as (sq & tr1 & Hsq & _).
  rewrite bind_run, Hsq.
  destruct (execute_search_answers W sq (default [] (sr_documents sr))
                                   (default [] (sr_knowledge_graph sr)) tr1 Hans)
    as (result & q & n1 & n2 & history & tr2 & Hex).
  rewrite bind_run, Hex.
  unfold generate_follow_up_questions at 1.
  destruct (try_except_returns
              (match llm W with
               | None => ret []
               | Some _ =>
                   llm_invoke W (FollowUpPrompt query (substring 0 1000 result))
                   ≫= fun response =>
                   match re_search_bracketed "["%char "]"%char response with
                   | Some text =>
                       lift (json_loads_list W text) ≫= fun questions =>
                       ret (py_slice questions 0 5)
                   | None => ret []
                   end
               end)
              (fun _ => []) tr2) as (follow_ups & tr3 & Hfu & _).
  rewrite bind_run, Hfu.
  do 2 eexists. split; [ reflexivity | ]. simpl. auto.
Qed.

(** C10. When the computation inside [_calculate_confidence] raises, the
    function returns [0.5], which is not the [0.0] of the other failure
    paths; and an answer composed from such a retrieval result after a
    successful pipeline run carries that [0.5]. *)
Theorem confidence_fallback_is_one_half (sr : search_results) (e : exn) :
  calculate_confidence_body sr = Raise e ->
  _calculate_confidence sr = VFloat f0_5
  /\ _calculate_confidence sr <> VFloat zero
  /\ forall W query tr,
      completion_always_answers W ->
      exists answer_data tr',
        generate_answer W query sr tr = (Return answer_data, tr')
        /\ ad_confidence answer_data = VFloat f0_5.
Proof.
  intros Hraise.
  assert (H : _calculate_confidence sr = VFloat f0_5)
    by (unfold _calculate_confidence; now rewrite Hraise).
  split; [ exact H | ]. split; [ rewrite H; discriminate | ].
  intros W query tr Hans.
  destruct (generate_answer_confidence W query sr tr Hans) as (ad & tr' & Hrun & Hc & _).
  exists ad, tr'. split; [ exact Hrun | congruence ].
Qed.

Lemma healthy_always_answers : completion_always_answers Samples.healthy.
Proof.
  eexists. split; [ reflexivity | ]. intros tr p. destruct p; eexists; reflexivity.
Qed.

Lemma confidence_fallback_is_one_half_witness :
  _calculate_confidence Samples.malformed_result = VFloat f0_5
  /\ exists answer_data tr',
      generate_answer Samples.healthy Samples.bone_query Samples.malformed_result []
      = (Return answer_data, tr')
      /\ ad_confidence answer_data = VFloat f0_5.
Proof.
  destruct (confidence_fallback_is_one_half
              Samples.malformed_result
              (TypeError "unsupported operand type(s) for +: 'float' and 'NoneType'"))
    as (H1 & _ & H3).
  - reflexivity.
  - split; [ exact H1 | ].
    apply H3, healthy_always_answers.
Defined.

End ConfidenceTheorems.

(* ===================================================================== *)
(** * Stable sorting by a key *)
(* ===================================================================== *)

Module StableSort.

Section ByKey.
Context {A K : Type} (key : A -> K) (cmp : K -> K -> comparison).
Hypothesis cmp_antisym : forall a b, cmp b a = CompOpp (cmp a b).
Hypothesis cmp_le_trans : forall a b c, cmp a b <> Gt -> cmp b c <> Gt -> cmp a c <> Gt.

(** [a]'s key is not above [b]'s. *)
Definition key_le (a b : A) : Prop := cmp (key a) (key b) <> Gt.

(** [a]'s key is below [b]'s. *)
Definition key_ltb (a b : A) : bool :=
  match cmp (key a) (key b) with Lt => true | _ => false end.

(** [a]'s key equals the key [z]. *)
Definition has_key (z : K) (a : A) : bool :=
  match cmp z (key a) with Eq => true | _ => false end.

Fixpoint insert (x : A) (l : list A) : list A :=
  match l with
  | [] => [x]
  | y :: l' => if key_ltb y x then y :: insert x l' else x :: y :: l'
  end.

Fixpoint ascending (l : list A) : list A :=
  match l with
  | [] => []
  | x :: l' => insert x (ascending l')
  end.

(** Reverse, sort ascending, reverse: a stable descending sort. *)
Definition descending (l : list A) : list A := rev (ascending (rev l)).

Lemma key_ltb_le a b : key_ltb a b = true -> key_le a b.
Proof. unfold key_ltb, key_le. destruct (cmp (key a) (key b)); congruence. Qed.

Lemma not_key_ltb_le a b : key_ltb a b = false -> key_le b a.
Proof.
  unfold key_ltb, key_le. rewrite (cmp_antisym (key a) (key b)).
  destruct (cmp (key a) (key b)); simpl; congruence.
Qed.

Lemma key_le_trans a b c : key_le a b -> key_le b c -> key_le a c.
Proof. unfold key_le. apply cmp_le_trans. Qed.

Lemma insert_permutation x l : Permutation (insert x l) (x :: l).
Proof.
  induction l as [ | y l IH]; simpl; [ reflexivity | ].
  destruct (key_ltb y x); [ | reflexivity ].
  rewrite IH. apply perm_swap.
Qed.

Lemma ascending_permutation l : Permutation (ascending l) l.
Proof.
  induction l as [ | x l IH]; simpl; [ reflexivity | ].
  rewrite insert_permutation. now rewrite IH.
Qed.

Lemma descending_permutation l : Permutation (descending l) l.
Proof.
  unfold descending. rewrite <- Permutation_rev, ascending_permutation.
  symmetry. apply Permutation_rev.
Qed.

Lemma insert_sorted x l :
  StronglySorted key_le l -> StronglySorted key_le (insert x l).
Proof.
  induction 1 as [ | y l Hs IH Hy]; simpl.
  - repeat constructor.
  - destruct (key_ltb y x) eqn:E.
    + constructor; [ exact IH | ].
      pose proof (insert_permutation x l) as Hp.
      apply (Permutation_Forall (Permutation_sym Hp)).
      constructor; [ apply key_ltb_le, E | exact Hy ].
    + apply not_key_ltb_le in E.
      constructor; [ constructor; assumption | ].
      constructor; [ exact E | ].
      eapply Forall_impl; [ exact Hy | ].
      intros z Hz. eapply key_le_trans; eassumption.
Qed.

Lemma ascending_sorted l : StronglySorted key_le (ascending l).
Proof.
  induction l as [ | x l IH]; simpl; [ constructor | apply insert_sorted, IH ].
Qed.

Lemma StronglySorted_app_rev (R : A -> A -> Prop) l :
  StronglySorted R l -> StronglySorted (fun a b => R b a) (rev l).
Proof.
  induction 1 as [ | x l Hs IH Hx]; simpl; [ constructor | ].
  assert (Hgen : forall l1, StronglySorted (fun a b => R b a) l1 ->
                            Forall (fun y => R x y) l1 ->
                            StronglySorted (fun a b => R b a) (l1 ++ [x])).
  { induction l1 as [ | y l1 IH1]; intros Hs1 Hx1; simpl.
    - repeat constructor.
    - inversion Hs1 as [ | ? ? Hs1' Hy]; subst.
      inversion Hx1 as [ | ? ? Hxy Hx1']; subst.
      constructor; [ apply IH1; assumption | ].
      apply Forall_app. split; [ exact Hy | repeat constructor; exact Hxy ]. }
  apply Hgen; [ exact IH | ].
  apply Forall_rev. exact Hx.
Qed.

(** Later items never have a larger key than earlier ones. *)
Lemma descending_sorted l : StronglySorted (fun a b => key_le b a) (descending l).
Proof. unfold descending. apply StronglySorted_app_rev, ascending_sorted. Qed.

(** Two items with the key [z] are never put in order by [key_ltb]. *)
Lemma same_key_not_below z x y :
  has_key z x = true -> has_key z y = true -> key_ltb y x = false.
Proof.
  unfold has_key, key_ltb. intros Hx Hy.
  destruct (cmp z (key x)) eqn:Ex; try discriminate.
  destruct (cmp z (key y)) eqn:Ey; try discriminate.
  assert (Hxz : cmp (key x) z <> Gt) by (rewrite (cmp_antisym z (key x)), Ex; discriminate).
  assert (Hzy : cmp z (key y) <> Gt) by (rewrite Ey; discriminate).
  pose proof (cmp_le_trans _ _ _ Hxz Hzy) as Hxy.
  rewrite (cmp_antisym (key x) (key y)).
  destruct (cmp (key x) (key y)); simpl; congruence.
Qed.

Lemma insert_keeps_class z x l :
  List.filter (has_key z) (insert x l) = List.filter (has_key z) (x :: l).
Proof.
  induction l as [ | y l IH]; [ reflexivity | ].
  cbn [insert]. destruct (key_ltb y x) eqn:E; [ | reflexivity ].
  cbn [List.filter] in *. rewrite IH.
  destruct (has_key z x) eqn:Hx; destruct (has_key z y) eqn:Hy; try reflexivity.
  rewrite (same_key_not_below z x y Hx Hy) in E. discriminate.
Qed.

Lemma ascending_keeps_class z l :
  List.filter (has_key z) (ascending l) = List.filter (has_key z) l.
Proof.
  induction l as [ | x l IH]; [ reflexivity | ].
  cbn [ascending]. rewrite insert_keeps_class. cbn [List.filter]. now rewrite IH.
Qed.

Lemma filter_rev_list (p : A -> bool) l : List.filter p (rev l) = rev (List.filter p l).
Proof.
  induction l as [ | x l IH]; [ reflexivity | ].
  simpl. rewrite List.filter_app, IH. simpl. destruct (p x); simpl; [ reflexivity | ].
  now rewrite app_nil_r.
Qed.

(** Stability: the items that share a key come out in the order they came
    in. *)
Lemma descending_keeps_class z l :
  List.filter (has_key z) (descending l) = List.filter (has_key z) l.
Proof.
  unfold descending.
  rewrite filter_rev_list, ascending_keeps_class, filter_rev_list. apply rev_involutive.
Qed.

End ByKey.

End StableSort.

(* ===================================================================== *)
(** * The merged evidence list *)
(* ===================================================================== *)

Module Merge.
Import Binary64 Py Data Effects Rag MonadFacts Binary64Facts.

(** ** Scores: the values Python can order *)

(** The value of an int or of a float that is a number. *)
Inductive score :=
| SNegInf
| SFin (m e : Z)
| SPosInf.

Definition score_of_ereal (x : ereal) : option score :=
  match x with
  | ENaN => None
  | ENegInf => Some SNegInf
  | EFin m e => Some (SFin m e)
  | EPosInf => Some SPosInf
  end.

Definition score_of (v : value) : option score :=
  match v with
  | VInt n => Some (SFin n 0)
  | VFloat x => score_of_ereal (to_ereal x)
  | _ => None
  end.

Definition score_compare (s t : score) : comparison :=
  match s, t with
  | SNegInf, SNegInf => Eq
  | SNegInf, _ => Lt
  | _, SNegInf => Gt
  | SPosInf, SPosInf => Eq
  | SPosInf, _ => Gt
  | _, SPosInf => Lt
  | SFin m1 e1, SFin m2 e2 =>
      let e := Z.min e1 e2 in Z.compare (m1 * 2 ^ (e1 - e)) (m2 * 2 ^ (e2 - e))
  end.

Lemma ecompare_scores x y s t :
  score_of_ereal x = Some s -> score_of_ereal y = Some t ->
  ecompare x y = Some (score_compare s t).
Proof.
  destruct x, y; simpl; intros Hs Ht; try discriminate;
    injection Hs as <-; injection Ht as <-; reflexivity.
Qed.

Lemma py_compare_scores op a b s t :
  score_of a = Some s -> score_of b = Some t ->
  py_compare op a b = Return (Some (score_compare s t)).
Proof.
  destruct a as [ | m | x | ?], b as [ | n | y | ?]; cbn [score_of py_compare];
    intros Hs Ht; try discriminate.
  - injection Hs as <-. injection Ht as <-. simpl.
    now rewrite !Z.mul_1_r.
  - injection Hs as <-. f_equal.
    apply (ecompare_scores (int_ereal m) (to_ereal y)); [ reflexivity | exact Ht ].
  - injection Ht as <-. f_equal.
    apply (ecompare_scores (to_ereal x) (int_ereal n)); [ exact Hs | reflexivity ].
  - f_equal. now apply ecompare_scores.
Qed.

Lemma compare_scale a b p : 0 < p -> (a * p ?= b * p) = (a ?= b).
Proof.
  intros Hp. destruct (Z.compare_spec a b) as [-> | Hlt | Hgt].
  - apply Z.compare_refl.
  - apply Z.compare_lt_iff. nia.
  - apply Z.compare_gt_iff. nia.
Qed.

(** Comparing at any common exponent below both gives the same answer. *)
Lemma score_compare_scaled m1 e1 m2 e2 E :
  E <= e1 -> E <= e2 ->
  score_compare (SFin m1 e1) (SFin m2 e2) = Z.compare (m1 * 2 ^ (e1 - E)) (m2 * 2 ^ (e2 - E)).
Proof.
  intros H1 H2. simpl. set (e := Z.min e1 e2).
  assert (He : E <= e) by (unfold e; lia).
  assert (He1 : e <= e1) by (unfold e; lia).
  assert (He2 : e <= e2) by (unfold e; lia).
  replace (e1 - E) with ((e1 - e) + (e - E)) by lia.
  replace (e2 - E) with ((e2 - e) + (e - E)) by lia.
  rewrite !Z.pow_add_r by lia. rewrite !Z.mul_assoc.
  symmetry. apply compare_scale. apply pow2_pos. lia.
Qed.

Lemma score_compare_antisym s t : score_compare t s = CompOpp (score_compare s t).
Proof.
  destruct s as [ | m1 e1 | ], t as [ | m2 e2 | ]; try reflexivity.
  simpl. rewrite (Z.min_comm e2 e1). apply Z.compare_antisym.
Qed.

Lemma score_compare_le_trans s t u :
  score_compare s t <> Gt -> score_compare t u <> Gt -> score_compare s u <> Gt.
Proof.
  destruct s as [ | m1 e1 | ], t as [ | m2 e2 | ], u as [ | m3 e3 | ];
    try (simpl; congruence).
  set (E := Z.min e1 (Z.min e2 e3)).
  rewrite (score_compare_scaled m1 e1 m2 e2 E) by (unfold E; lia).
  rewrite (score_compare_scaled m2 e2 m3 e3 E) by (unfold E; lia).
  rewrite (score_compare_scaled m1 e1 m3 e3 E) by (unfold E; lia).
  rewrite !Z.compare_gt_iff. lia.
Qed.

(** ** The code's sort is the stable sort by score *)

Definition score_key (ev : evidence) : score :=
  default (SFin 0 0) (score_of (ev_relevance_score ev)).

(** The relevance of [ev] is an int or a float that is a number. *)
Definition scored (ev : evidence) : Prop := is_Some (score_of (ev_relevance_score ev)).

Lemma scored_key ev : scored ev -> score_of (ev_relevance_score ev) = Some (score_key ev).
Proof. intros [s Hs]. unfold score_key. now rewrite Hs. Qed.

Lemma py_lt_scored a b :
  scored a -> scored b ->
  py_lt (ev_relevance_score a) (ev_relevance_score b)
  = Return (StableSort.key_ltb score_key score_compare a b).
Proof.
  intros Ha Hb. unfold py_lt, StableSort.key_ltb.
  rewrite (py_compare_scores "<" _ _ _ _ (scored_key a Ha) (scored_key b Hb)).
  reflexivity.
Qed.

Lemma insert_sorted_scored x l :
  scored x -> Forall scored l ->
  insert_sorted ev_relevance_score x l
  = Return (StableSort.insert score_key score_compare x l).
Proof.
  intros Hx. induction 1 as [ | y l Hy Hl IH]; [ reflexivity | ].
  cbn [insert_sorted StableSort.insert].
  rewrite (py_lt_scored y x Hy Hx). cbn [mbind outcome_bind].
  destruct (StableSort.key_ltb score_key score_compare y x); [ | reflexivity ].
  now rewrite IH.
Qed.

Lemma sort_ascending_scored l :
  Forall scored l ->
  sort_ascending ev_relevance_score l
  = Return (StableSort.ascending score_key score_compare l).
Proof.
  induction 1 as [ | x l Hx Hl IH]; [ reflexivity | ].
  cbn [sort_ascending StableSort.ascending]. rewrite IH. cbn [mbind outcome_bind].
  apply insert_sorted_scored; [ exact Hx | ].
  apply (Permutation_Forall
           (Permutation_sym (StableSort.ascending_permutation score_key score_compare l))).
  exact Hl.
Qed.

Lemma sort_reverse_scored l :
  Forall scored l ->
  sort_reverse ev_relevance_score l
  = Return (StableSort.descending score_key score_compare l).
Proof.
  intros Hl. unfold sort_reverse, StableSort.descending.
  rewrite sort_ascending_scored; [ reflexivity | ].
  apply Forall_rev. exact Hl.
Qed.

End Merge.

Module MergeTheorem.
Import Binary64 Py Data Effects Rag MonadFacts Binary64Facts Merge.

(** The evidence in the order the code appends it, before the sort. *)
Definition unsorted_evidence (W : World) (docs chunks : list row) (kg : list kg_item)
  : list evidence :=
  map document_evidence docs ++ map (chunk_evidence W) chunks ++ map (graph_evidence W) kg.

(** [a] is not ranked below [b]: Python does not find [a]'s score smaller. *)
Definition not_below (a b : evidence) : Prop :=
  py_lt (ev_relevance_score a) (ev_relevance_score b) = Return false.

(** [ev]'s score equals [v], as Python compares them. *)
Definition same_score (v : value) (ev : evidence) : bool :=
  match py_compare "==" v (ev_relevance_score ev) with
  | Return (Some Eq) => true
  | _ => false
  end.

Lemma combine_unsorted W docs chunks kg query :
  _combine_search_results W docs chunks kg query
  = sort_reverse ev_relevance_score (unsorted_evidence W docs chunks kg).
Proof.
  unfold _combine_search_results, unsorted_evidence.
  rewrite !Sources.append_loop. simpl app. now rewrite app_assoc.
Qed.

Lemma passed_row_scored t r : Threshold.passes t r -> is_Some (score_of (similarity_of r)).
Proof.
  intros [Hge _]. unfold py_ge, py_compare in Hge.
  destruct (similarity_of r) as [ | n | x | s]; try discriminate.
  - eexists. reflexivity.
  - cbn [mbind outcome_bind] in Hge. cbn [score_of].
    destruct (to_ereal x); try (eexists; reflexivity).
    discriminate.
Qed.

Lemma unsorted_scored W t docs chunks kg :
  Forall (Threshold.passes t) docs -> Forall (Threshold.passes t) chunks ->
  Forall scored (unsorted_evidence W docs chunks kg).
Proof.
  intros Hd Hc. unfold unsorted_evidence. rewrite !Forall_app. repeat split.
  - apply Forall_map. eapply Forall_impl; [ exact Hd | ].
    intros r Hr. apply (passed_row_scored t r Hr).
  - apply Forall_map. eapply Forall_impl; [ exact Hc | ].
    intros r Hr. apply (passed_row_scored t r Hr).
  - apply Forall_map. apply Forall_forall. intros k _. eexists. reflexivity.
Qed.

Lemma same_score_unscored v ev : score_of v = None -> scored ev -> same_score v ev = false.
Proof.
  intros Hv [s Hs]. unfold same_score.
  destruct v as [ | m | x | ?], (ev_relevance_score ev) as [ | n | y | ?];
    cbn [score_of py_compare] in *; try discriminate; try reflexivity;
    destruct (to_ereal x); try discriminate; reflexivity.
Qed.

(** What the sort guarantees on a list of scored evidence. *)
Lemma sorted_view l :
  Forall scored l ->
  exists combined,
    sort_reverse ev_relevance_score l = Return combined
    /\ Permutation combined l
    /\ StronglySorted not_below combined
    /\ forall v, List.filter (same_score v) combined = List.filter (same_score v) l.
Proof.
  intros Hl. exists (StableSort.descending score_key score_compare l).
  split; [ apply sort_reverse_scored, Hl | ].
  pose proof (StableSort.descending_permutation score_key score_compare l) as Hperm.
  assert (Hsc : Forall scored (StableSort.descending score_key score_compare l))
    by (apply (Permutation_Forall (Permutation_sym Hperm)); exact Hl).
  split; [ exact Hperm | ]. split.
  - pose proof (StableSort.descending_sorted score_key score_compare
                  score_compare_antisym score_compare_le_trans l) as Hs.
    revert Hsc Hs. generalize (StableSort.descending score_key score_compare l).
    intros c Hsc Hs. induction Hs as [ | a c Hs IH Ha]; [ constructor | ].
    inversion Hsc as [ | ? ? Hsa Hsc']; subst.
    constructor; [ apply IH, Hsc' | ].
    rewrite Forall_forall in Ha, Hsc' |- *. intros b Hb.
    unfold not_below. rewrite (py_lt_scored a b Hsa (Hsc' b Hb)). f_equal.
    specialize (Ha b Hb). unfold StableSort.key_le in Ha. unfold StableSort.key_ltb.
    rewrite (score_compare_antisym (score_key b) (score_key a)).
    destruct (score_compare (score_key b) (score_key a)); simpl; congruence.
  - intros v.
    assert (Hclass : forall l', Forall scored l' ->
               List.filter (same_score v) l'
               = match score_of v with
                 | Some z => List.filter (StableSort.has_key score_key score_compare z) l'
                 | None => []
                 end).
    { induction 1 as [ | ev l' Hev Hl' IH]; [ now destruct (score_of v) | ].
      cbn [List.filter]. rewrite IH.
      destruct (score_of v) as [z | ] eqn:Ez.
      - unfold same_score at 1.
        rewrite (py_compare_scores "==" v _ z _ Ez (scored_key ev Hev)).
        unfold StableSort.has_key.
        destruct (score_compare z (score_key ev)); reflexivity.
      - now rewrite (same_score_unscored v ev Ez Hev). }
    rewrite (Hclass _ Hsc), (Hclass _ Hl).
    destruct (score_of v) as [z | ]; [ | reflexivity ].
    apply (StableSort.descending_keeps_class score_key score_compare
             score_compare_antisym score_compare_le_trans).
Qed.

Lemma graph_items_fixed_score W docs chunks kg :
  Forall (fun ev => ev_type ev = "knowledge_graph" -> ev_relevance_score ev = VFloat f0_5)
         (unsorted_evidence W docs chunks kg).
Proof.
  unfold unsorted_evidence. rewrite !Forall_app. repeat split;
    apply Forall_map, Forall_forall; intros x _; simpl; (discriminate || reflexivity).
Qed.

(** ** The merged list as the specification describes it *)

(** What the specification says of an entry: the kind of item, the item,
    and its relevance score. *)
Record ranked := { rk_type : str; rk_data : evidence_data; rk_score : value }.

Definition ranked_of (ev : evidence) : ranked :=
  {| rk_type := ev_type ev; rk_data := ev_data ev; rk_score := ev_relevance_score ev |}.

(** The entries before the sort, in the specification's words: one per
    document and one per chunk, scored by the row's similarity ([0] when the
    row has none), then one per knowledge-graph item, scored [0.5]. *)
Definition specified_entries (docs chunks : list row) (kg : list kg_item) : list ranked :=
  map (fun doc => {| rk_type := "document"; rk_data := OfRow doc;
                     rk_score := default (VInt 0) (doc !! "similarity") |}) docs
  ++ map (fun chunk => {| rk_type := "chunk"; rk_data := OfRow chunk;
                          rk_score := default (VInt 0) (chunk !! "similarity") |}) chunks
  ++ map (fun kg_item => {| rk_type := "knowledge_graph"; rk_data := OfGraph kg_item;
                            rk_score := VFloat f0_5 |}) kg.

(** The score of the entry equals [v], as Python compares them. *)
Definition same_rank (v : value) (r : ranked) : bool :=
  match py_compare "==" v (rk_score r) with
  | Return (Some Eq) => true
  | _ => false
  end.

(** The code appends the entries the specification describes. *)
Lemma unsorted_as_specified W docs chunks kg :
  map ranked_of (unsorted_evidence W docs chunks kg) = specified_entries docs chunks kg.
Proof.
  unfold unsorted_evidence, specified_entries. rewrite !map_app, !map_map. reflexivity.
Qed.

Lemma filter_ranked v l :
  List.filter (same_rank v) (map ranked_of l) = map ranked_of (List.filter (same_score v) l).
Proof.
  induction l as [ | ev l IH]; [ reflexivity | ].
  simpl. change (same_rank v (ranked_of ev)) with (same_score v ev).
  destruct (same_score v ev); simpl; now rewrite IH.
Qed.

(** Every entry carries the score of its item: a row's similarity, or
    [0.5] for a knowledge-graph item. *)
Definition scored_by_item (ev : evidence) : Prop :=
  match ev_data ev with
  | OfGraph _ => ev_type ev = "knowledge_graph" /\ ev_relevance_score ev = VFloat f0_5
  | OfRow r =>
      (ev_type ev = "document" \/ ev_type ev = "chunk")
      /\ ev_relevance_score ev = default (VInt 0) (r !! "similarity")
  end.

Lemma unsorted_scored_by_item W docs chunks kg :
  Forall scored_by_item (unsorted_evidence W docs chunks kg).
Proof.
  unfold unsorted_evidence. rewrite !Forall_app. repeat split;
    apply Forall_map, Forall_forall; intros x _; unfold scored_by_item; simpl; auto.
Qed.

(** C6. Whatever the world answers, the evidence list that [hybrid_search]
    returns holds one entry per document, chunk and knowledge-graph item it
    retrieved: a document or chunk entry carries the similarity of its row
    ([0] when the row has none), a knowledge-graph entry carries the score
    [0.5] whatever the item is, and every retrieved graph item has such an
    entry.  The list is these entries reordered so that no entry is ranked
    below a later one; entries with equal scores keep the order in which
    they were appended (documents, then chunks, then graph items, each in
    incoming order); and merging the same three lists again gives the same
    list. *)
Theorem merged_evidence_sorted_and_stable
        (W : World) (self : RAGSystem) (query : str) (include_kg : bool) (tr : trace) :
  exists docs chunks kg combined tr',
    hybrid_search W self query include_kg tr
    = (Return {| sr_documents := Some docs;
                 sr_chunks := Some chunks;
                 sr_knowledge_graph := Some kg;
                 sr_combined_results := Some combined;
                 sr_query := Some query;
                 sr_error := None |}, tr')
    /\ Permutation combined (unsorted_evidence W docs chunks kg)
    /\ StronglySorted not_below combined
    /\ (forall v, List.filter (same_score v) combined
                  = List.filter (same_score v) (unsorted_evidence W docs chunks kg))
    /\ Forall (fun ev => ev_type ev = "knowledge_graph" -> ev_relevance_score ev = VFloat f0_5)
              combined
    /\ (forall query', _combine_search_results W docs chunks kg query' = Return combined)
    /\ Permutation (map ranked_of combined) (specified_entries docs chunks kg)
    /\ (forall v, List.filter (same_rank v) (map ranked_of combined)
                  = List.filter (same_rank v) (specified_entries docs chunks kg))
    /\ Forall scored_by_item combined
    /\ (forall kg_item, kg_item ∈ kg ->
          exists ev, ev ∈ combined
                     /\ ev_data ev = OfGraph kg_item
                     /\ ev_type ev = "knowledge_graph"
                     /\ ev_relevance_score ev = VFloat f0_5).
Proof.
  destruct (Threshold.search_documents_filtered W self query 10 tr)
    as (docs & tr1 & Hdocs & Pdocs).
  destruct (Threshold.search_chunks_filtered W self query 20 tr1)
    as (chunks & tr2 & Hchunks & Pchunks).
  assert (Hkg : exists kg tr3,
             (if include_kg then search_knowledge_graph W query else ret []) tr2
             = (Return kg, tr3)).
  { destruct include_kg.
    - destruct (RetrievalCalls.search_knowledge_graph_run W query tr2) as (kg & d & H & _).
      eauto.
    - do 2 eexists. reflexivity. }
  destruct Hkg as (kg & tr3 & Hkg).
  destruct (sorted_view (unsorted_evidence W docs chunks kg)
                        (unsorted_scored W _ docs chunks kg Pdocs Pchunks))
    as (combined & Hsort & Hperm & Hsorted & Hstable).
  exists docs, chunks, kg, combined, tr3.
  split; [ | split; [ exact Hperm | split; [ exact Hsorted | split; [ exact Hstable | ] ] ] ].
  - unfold hybrid_search, try_except.
    rewrite bind_run, Hdocs, bind_run, Hchunks, bind_run, Hkg, bind_run.
    unfold lift. rewrite combine_unsorted, Hsort. reflexivity.
  - split; [ | split; [ | split; [ | split; [ | split ] ] ] ].
    + apply (Permutation_Forall (Permutation_sym Hperm)). apply graph_items_fixed_score.
    + intros query'. now rewrite combine_unsorted.
    + rewrite <- (unsorted_as_specified W). apply Permutation_map, Hperm.
    + intros v. rewrite <- (unsorted_as_specified W), !filter_ranked. now rewrite Hstable.
    + apply (Permutation_Forall (Permutation_sym Hperm)). apply unsorted_scored_by_item.
    + intros kg_item Hk. exists (graph_evidence W kg_item).
      split; [ | simpl; auto ].
      rewrite Hperm. unfold unsorted_evidence. rewrite !elem_of_app. right. right.
      apply (list_elem_of_fmap_2 (graph_evidence W)), Hk.
Qed.

(** A document whose similarity is exactly [0.5] stays ahead of the graph
    item it ties with, and both follow the higher-scored chunk. *)
Example merge_keeps_ties_in_order :
  let half_doc : row := {[ "filename" := VStr "half.pdf"; "similarity" := VFloat f0_5 ]} in
  let relation := {| kg_source := Samples.mouse; kg_relationship := Samples.studies;
                     kg_target := Samples.chamber |} in
  match _combine_search_results Samples.healthy [half_doc] [Samples.bone_chunk]
                                [relation] Samples.bone_query with
  | Return combined => map (fun ev => (ev_type ev, ev_title ev)) combined
  | Raise _ => []
  end
  = [("chunk", VStr "bone.pdf (chunk 4)");
     ("document", VStr "half.pdf");
     ("knowledge_graph", VStr "KG: Mouse")].
Proof. vm_compute. reflexivity. Qed.

End MergeTheorem.

(* ===================================================================== *)
(** * Worked examples *)
(* ===================================================================== *)

Module Binary64Examples.
Import Binary64.

(** [0.85 + 0.1] is the float [0.95]; [3 * 0.1] exceeds [0.3]. *)
Example add_085_01 : add (ratio 85 100) f0_1 = ratio 95 100.
Proof. vm_compute. reflexivity. Qed.

Example three_tenths : ltb f0_3 (mul (of_int 3) f0_1) = true.
Proof. vm_compute. reflexivity. Qed.

(** [round(0.125, 2) = 0.12] and [round(0.375, 2) = 0.38] (ties to even);
    [round(2.675, 2) = 2.67] because the float [2.675] lies below the tie. *)
Example round2_tie_down : round2 (ratio 125 1000) = ratio 12 100.
Proof. vm_compute. reflexivity. Qed.

Example round2_tie_up : round2 (ratio 375 1000) = ratio 38 100.
Proof. vm_compute. reflexivity. Qed.

Example round2_2675 : round2 (ratio 2675 1000) = ratio 267 100.
Proof. vm_compute. reflexivity. Qed.

Example round2_small_negative : round2 (ratio (-1) 1000) = S754_zero true.
Proof. vm_compute. reflexivity. Qed.
End Binary64Examples.

Module PyExamples.
Import Py.

Example split_example : py_split "  effects of   microgravity " = ["effects"; "of"; "microgravity"].
Proof. reflexivity. Qed.

Example strip_example : py_strip "  bone density  " = "bone density".
Proof. reflexivity. Qed.

Example slice_negative_stop : py_slice [1; 2; 3; 4; 5] 1 (-1) = [2; 3; 4].
Proof. reflexivity. Qed.

Example range_example : py_range 0 10 4 = Return [0; 4; 8].
Proof. reflexivity. Qed.

Example range_negative_step : py_range 0 10 (-4) = Return [].
Proof. reflexivity. Qed.

Example re_search_example :
  re_search_bracketed "["%char "]"%char "Sure: [1, [2]] and ] more" = Some "[1, [2]] and ]".
Proof. reflexivity. Qed.

Example re_search_no_close : re_search_bracketed "{"%char "}"%char "} {" = None.
Proof. reflexivity. Qed.

Example none_plus_int :
  py_add (VInt 0) VNone
  = Raise (TypeError "unsupported operand type(s) for +: 'int' and 'NoneType'").
Proof. reflexivity. Qed.

Example sort_reverse_stable :
  sort_reverse (fun p : Z * string => VInt (fst p)) [(1, "a"); (2, "b"); (1, "c"); (2, "d")]
  = Return [(2, "b"); (2, "d"); (1, "a"); (1, "c")].
Proof. reflexivity. Qed.
End PyExamples.

Module RetrievalExamples.
Import Binary64 Py Data Effects Rag.

(** The document at [0.5] is dropped by the default threshold [0.7]. *)
Example search_documents_drops_weak_document :
  fst (search_documents Samples.healthy RAGSystem_init Samples.bone_query 10 [])
  = Return [Samples.bone_doc].
Proof. vm_compute. reflexivity. Qed.

(** The first scenario of the specification: one document at [0.85], no
    chunks, no graph matches; one source, confidence [0.95]. *)
Example ask_question_one_document :
  match fst (ask_question Samples.one_document_world RAGSystem_init Samples.bone_query None []) with
  | Return answer =>
      (map src_type (ans_sources answer), ans_confidence answer, ans_query_type answer,
       ans_answer answer)
  | Raise _ => ([], VNone, JNull, "")
  end
  = (["document"], VFloat (ratio 95 100), JStr "factual",
     "Microgravity reduces bone density.").
Proof. vm_compute. reflexivity. Qed.

(** With a store that reports an integer similarity too large for a float,
    the row passes the threshold, the mean overflows inside
    [_calculate_confidence], and the answer carries [0.5]. *)
Example ask_question_confidence_one_half :
  match fst (ask_question Samples.huge_score_world RAGSystem_init Samples.bone_query None []) with
  | Return answer => (ans_confidence answer, ans_num_sources answer)
  | Raise _ => (VNone, 0)
  end
  = (VFloat f0_5, 1).
Proof. vm_compute. reflexivity. Qed.

End RetrievalExamples.

(* ===================================================================== *)
(** * The confidence of what the retriever returns *)
(* ===================================================================== *)

Module RetrievedConfidence.
Import Binary64 Py Data Effects Rag MonadFacts Binary64Facts Confidence.

(** The similarity of the row is a float, as the document store computes
    it. *)
Definition float_similarity (r : row) : Prop := exists x, similarity_of r = VFloat x.

(** Both vector searches of the store return rows with a float similarity,
    and no more rows than the limit asks for. *)
Definition document_store_well_formed (W : World) : Prop :=
  (forall tr emb limit rows,
      db_search_similar_documents W tr emb limit = Return rows ->
      Forall float_similarity rows /\ py_len rows <= limit)
  /\ (forall tr emb limit rows,
      db_search_similar_chunks W tr emb limit = Return rows ->
      Forall float_similarity rows /\ py_len rows <= limit).

(** The rows a vector search returns passed the threshold and were among
    the rows of one answer of the store. *)
Definition retrieved (store : trace -> list float -> Z -> outcome (list row))
           (t : float) (limit : Z) (rows : list row) : Prop :=
  Forall (Threshold.passes t) rows
  /\ (rows = [] \/ exists tr emb candidates,
                     store tr emb limit = Return candidates /\ sublist rows candidates).

Lemma search_documents_retrieved W self query limit tr :
  exists docs tr',
    search_documents W self query limit tr = (Return docs, tr')
    /\ retrieved (db_search_similar_documents W) (similarity_threshold self) limit docs.
Proof.
  destruct (Threshold.search_documents_filtered W self query limit tr)
    as (docs & tr' & Hrun & Hpass).
  exists docs, tr'. split; [ exact Hrun | ]. split; [ exact Hpass | ].
  revert Hrun. unfold search_documents, Store.search_similar_documents.
  destruct (RetrievalCalls.generate_embeddings_run W query tr) as (r & Hr).
  RetrievalCalls.run_monad. rewrite Hr.
  destruct r as [[ | x l] | ]; simpl.
  - intros H. injection H as <- _. now left.
  - destruct (db_search_similar_documents W _ (x :: l) limit) as [rows | e] eqn:Es; simpl.
    + destruct (filter_raising _ rows) as [kept | e] eqn:Ef; simpl;
        intros H; injection H as <- _; [ | now left ].
      right. do 3 eexists. split; [ exact Es | ].
      eapply filter_raising_sublist, Ef.
    + intros H. injection H as <- _. now left.
  - intros H. injection H as <- _. now left.
Qed.

Lemma search_chunks_retrieved W self query limit tr :
  exists chunks tr',
    search_chunks W self query limit tr = (Return chunks, tr')
    /\ retrieved (db_search_similar_chunks W) (similarity_threshold self) limit chunks.
Proof.
  destruct (Threshold.search_chunks_filtered W self query limit tr)
    as (chunks & tr' & Hrun & Hpass).
  exists chunks, tr'. split; [ exact Hrun | ]. split; [ exact Hpass | ].
  revert Hrun. unfold search_chunks, Store.search_similar_chunks.
  destruct (RetrievalCalls.generate_embeddings_run W query tr) as (r & Hr).
  RetrievalCalls.run_monad. rewrite Hr.
  destruct r as [[ | x l] | ]; simpl.
  - intros H. injection H as <- _. now left.
  - destruct (db_search_similar_chunks W _ (x :: l) limit) as [rows | e] eqn:Es; simpl.
    + destruct (filter_raising _ rows) as [kept | e] eqn:Ef; simpl;
        intros H; injection H as <- _; [ | now left ].
      right. do 3 eexists. split; [ exact Es | ].
      eapply filter_raising_sublist, Ef.
    + intros H. injection H as <- _. now left.
  - intros H. injection H as <- _. now left.
Qed.

(** Retrieved rows of a well-formed store: float scores, none below zero
    when the threshold has a clear sign bit, and at most [limit] of them. *)
Lemma retrieved_scores store t limit rows :
  (forall tr emb candidates,
      store tr emb limit = Return candidates ->
      Forall float_similarity candidates /\ py_len candidates <= limit) ->
  signpos t = true -> 0 <= limit ->
  retrieved store t limit rows ->
  exists xs, map similarity_of rows = map VFloat xs
             /\ Forall (fun x => ge0 x = true) xs
             /\ py_len xs <= limit.
Proof.
  intros Hstore Ht Hlimit [Hpass Horigin].
  assert (Hfloat : Forall float_similarity rows /\ py_len rows <= limit).
  { destruct Horigin as [-> | (tr & emb & candidates & Hs & Hsub)].
    - split; [ constructor | unfold py_len; simpl; lia ].
    - destruct (Hstore tr emb candidates Hs) as [Hf Hl]. split.
      + rewrite Forall_forall in Hf |- *. intros r Hr. apply Hf.
        eapply elem_of_sublist; eassumption.
      + apply sublist_length in Hsub. unfold py_len in *. lia. }
  destruct Hfloat as [Hfloat Hlen].
  clear Horigin. revert Hlen. unfold py_len.
  assert (Hxs : exists xs, map similarity_of rows = map VFloat xs
                           /\ Forall (fun x => ge0 x = true) xs).
  { clear Hstore Hlimit. induction rows as [ | r rows IH].
    - exists []. split; [ reflexivity | constructor ].
    - inversion Hpass as [ | ? ? Hr Hpass']; subst.
      inversion Hfloat as [ | ? ? [x Hx] Hfloat']; subst.
      destruct (IH Hpass' Hfloat') as (xs & Hmap & Hge).
      exists (x :: xs). split; [ simpl; now rewrite Hx, Hmap | ].
      constructor; [ | exact Hge ].
      eapply ConfidenceTheorems.passed_scores_nonnegative; eassumption. }
  destruct Hxs as (xs & Hmap & Hge). intros Hlen.
  exists xs. split; [ exact Hmap | ]. split; [ exact Hge | ].
  assert (Hl : length xs = length rows).
  { rewrite <- (length_map VFloat xs), <- Hmap. apply length_map. }
  unfold py_len. lia.
Qed.

(** For a well-formed store and a threshold with a clear sign bit, as the
    default [0.7] is, every retrieval result of [hybrid_search] meets the
    conditions under which the confidence follows the formula. *)
Lemma hybrid_search_scores W self query include_kg tr :
  document_store_well_formed W -> signpos (similarity_threshold self) = true ->
  exists sr tr' xs,
    hybrid_search W self query include_kg tr = (Return sr, tr')
    /\ map similarity_of (default [] (sr_documents sr) ++ default [] (sr_chunks sr))
       = map VFloat xs
    /\ Forall (fun x => ge0 x = true) xs
    /\ py_len xs <= 30.
Proof.
  intros [Hdocs_store Hchunks_store] Ht.
  destruct (search_documents_retrieved W self query 10 tr) as (docs & tr1 & Hd & Rd).
  destruct (search_chunks_retrieved W self query 20 tr1) as (chunks & tr2 & Hc & Rc).
  destruct (retrieved_scores _ _ 10 docs (fun tr emb => Hdocs_store tr emb 10) Ht
                             ltac:(lia) Rd) as (xd & Hxd & Gd & Ld).
  destruct (retrieved_scores _ _ 20 chunks (fun tr emb => Hchunks_store tr emb 20) Ht
                             ltac:(lia) Rc) as (xc & Hxc & Gc & Lc).
  assert (Hscores : map similarity_of (docs ++ chunks) = map VFloat (xd ++ xc))
    by (rewrite !map_app, Hxd, Hxc; reflexivity).
  assert (Hge : Forall (fun x => ge0 x = true) (xd ++ xc)) by (apply Forall_app; auto).
  assert (Hlen : py_len (xd ++ xc) <= 30)
    by (unfold py_len in *; rewrite length_app; lia).
  unfold hybrid_search, try_except.
  rewrite bind_run, Hd, bind_run, Hc.
  assert (Hkg : exists kg tr3,
             (if include_kg then search_knowledge_graph W query else ret []) tr2
             = (Return kg, tr3)).
  { destruct include_kg.
    - destruct (RetrievalCalls.search_knowledge_graph_run W query tr2) as (kg & d & H & _).
      eauto.
    - do 2 eexists. reflexivity. }
  destruct Hkg as (kg & tr3 & Hkg). rewrite bind_run, Hkg, bind_run. unfold lift.
  destruct (_combine_search_results W docs chunks kg query) as [combined | e].
  - do 2 eexists. exists (xd ++ xc). split; [ reflexivity | ]. simpl. auto.
  - do 2 eexists. exists []. split; [ reflexivity | ]. simpl.
    split; [ reflexivity | ]. split; [ constructor | unfold py_len; simpl; lia ].
Qed.

End RetrievedConfidence.

(* ===================================================================== *)
(** * Words and whitespace *)
(* ===================================================================== *)

Module Words.
Import Binary64 Py Data Effects Text.

(** The characters of a string. *)
Definition chars (s : str) : list ascii := list_ascii_of_string s.

(** No character of [s] is whitespace. *)
Definition no_space (s : str) : Prop := Forall (fun c => isspace c = false) (chars s).

(** What [str.split()] calls a word. *)
Definition is_word (s : str) : Prop := s <> "" /\ no_space s.

Lemma chars_of_list l : chars (string_of_list_ascii l) = l.
Proof. apply list_ascii_of_string_of_list_ascii. Qed.

Lemma of_list_chars s : string_of_list_ascii (chars s) = s.
Proof. apply string_of_list_ascii_of_string. Qed.

Lemma append_cons c s t : String c s +:+ t = String c (s +:+ t).
Proof. reflexivity. Qed.

Lemma chars_app s t : chars (s +:+ t) = chars s ++ chars t.
Proof.
  induction s as [ | c s IH]; [ reflexivity | ].
  rewrite append_cons. simpl. now rewrite IH.
Qed.

Lemma append_empty s : s +:+ "" = s.
Proof.
  induction s as [ | c s IH]; [ reflexivity | ].
  now rewrite append_cons, IH.
Qed.

Lemma of_list_nonempty c l : string_of_list_ascii (l ++ [c]) <> "".
Proof. destruct l; simpl; discriminate. Qed.

Lemma pending_word (word : list ascii) :
  word <> [] -> Forall (fun c => isspace c = false) word ->
  is_word (string_of_list_ascii (rev word)).
Proof.
  intros Hne Hw. split.
  - destruct word as [ | c word]; [ congruence | ]. simpl. apply of_list_nonempty.
  - unfold no_space. rewrite chars_of_list. apply Forall_rev, Hw.
Qed.

(** [split] returns words. *)
Lemma split_from_words s :
  forall word, Forall (fun c => isspace c = false) word -> Forall is_word (split_from word s).
Proof.
  induction s as [ | c s IH]; intros word Hw; simpl.
  - destruct word as [ | a word]; [ constructor | ].
    constructor; [ | constructor ]. apply (pending_word (a :: word)); [ discriminate | exact Hw ].
  - destruct (isspace c) eqn:Ec.
    + destruct word as [ | a word]; [ apply IH; constructor | ].
      constructor; [ | apply IH; constructor ].
      apply (pending_word (a :: word)); [ discriminate | exact Hw ].
    + apply IH. constructor; assumption.
Qed.

Lemma py_split_words s : Forall is_word (py_split s).
Proof. apply split_from_words. constructor. Qed.

(** Reading a word moves it to the pending characters. *)
Lemma split_from_word w :
  no_space w ->
  forall word rest,
    split_from word (w +:+ rest) = split_from (rev (chars w) ++ word) rest.
Proof.
  unfold no_space.
  induction w as [ | c w IH]; intros Hw word rest; [ reflexivity | ].
  simpl in Hw. apply Forall_cons in Hw as [Hc Hw].
  rewrite append_cons. simpl. rewrite Hc, IH by exact Hw.
  now rewrite <- app_assoc.
Qed.

Lemma split_from_end w :
  is_word w -> split_from [] w = [w].
Proof.
  intros [Hne Hw].
  replace w with (w +:+ "") at 1 by apply append_empty.
  rewrite split_from_word by exact Hw. rewrite app_nil_r. simpl.
  destruct (rev (chars w)) as [ | a l] eqn:E.
  - apply (f_equal (@rev ascii)) in E. rewrite rev_involutive in E. simpl in E.
    apply (f_equal string_of_list_ascii) in E. rewrite of_list_chars in E. contradiction.
  - rewrite <- E, rev_involutive, of_list_chars. reflexivity.
Qed.

(** Joining words with single spaces and splitting again gives the words
    back. *)
Lemma split_join ws : Forall is_word ws -> py_split (py_join " " ws) = ws.
Proof.
  unfold py_split, py_join.
  induction ws as [ | w ws IH]; intros Hws; [ reflexivity | ].
  apply Forall_cons in Hws as [Hw Hws].
  destruct ws as [ | w' ws]; [ apply split_from_end, Hw | ].
  change (String.concat " " (w :: w' :: ws))
    with (w +:+ (" " +:+ String.concat " " (w' :: ws))).
  rewrite split_from_word by apply Hw. rewrite app_nil_r.
  destruct Hw as [Hne Hw].
  destruct (rev (chars w)) as [ | a l] eqn:E.
  - apply (f_equal (@rev ascii)) in E. rewrite rev_involutive in E. simpl in E.
    apply (f_equal string_of_list_ascii) in E. rewrite of_list_chars in E. contradiction.
  - change (split_from (a :: l) (" " +:+ String.concat " " (w' :: ws)))
      with (string_of_list_ascii (rev (a :: l)) :: split_from [] (String.concat " " (w' :: ws))).
    rewrite <- E, rev_involutive, of_list_chars. f_equal. apply IH, Hws.
Qed.

(** ** Stripping *)

Definition has_nonspace (l : list ascii) : bool := existsb (fun c => negb (isspace c)) l.

Lemma lstrip_nonspace s :
  has_nonspace (chars s) = true -> has_nonspace (chars (lstrip s)) = true.
Proof.
  induction s as [ | c s IH]; simpl; [ discriminate | ].
  destruct (isspace c) eqn:Ec; simpl.
  - exact IH.
  - rewrite Ec. reflexivity.
Qed.

Lemma has_nonspace_rev l : has_nonspace (rev l) = has_nonspace l.
Proof.
  unfold has_nonspace. induction l as [ | c l IH]; [ reflexivity | ].
  simpl. rewrite existsb_app, IH. simpl. rewrite orb_false_r. apply orb_comm.
Qed.

Lemma string_rev_nonspace s : has_nonspace (chars (string_rev s)) = has_nonspace (chars s).
Proof. unfold string_rev. rewrite chars_of_list. apply has_nonspace_rev. Qed.

Lemma strip_nonspace s : has_nonspace (chars s) = true -> str_truthy (py_strip s) = true.
Proof.
  intros H. unfold py_strip.
  assert (H' : has_nonspace (chars (string_rev (lstrip (string_rev (lstrip s))))) = true).
  { rewrite string_rev_nonspace. apply lstrip_nonspace.
    rewrite string_rev_nonspace. apply lstrip_nonspace, H. }
  destruct (string_rev _); [ discriminate | reflexivity ].
Qed.

Lemma word_nonspace w : is_word w -> has_nonspace (chars w) = true.
Proof.
  intros [Hne Hw]. destruct w as [ | c w]; [ congruence | ].
  apply Forall_cons in Hw as [Hc _]. simpl. now rewrite Hc.
Qed.

(** A text made of at least one word is not blank. *)
Lemma join_not_blank ws :
  ws <> [] -> Forall is_word ws -> str_truthy (py_strip (py_join " " ws)) = true.
Proof.
  intros Hne Hws. apply strip_nonspace.
  destruct ws as [ | w ws]; [ congruence | ].
  apply Forall_cons in Hws as [Hw _]. apply word_nonspace in Hw.
  unfold py_join. destruct ws as [ | w' ws].
  - exact Hw.
  - change (String.concat " " (w :: w' :: ws))
      with (w +:+ (" " +:+ String.concat " " (w' :: ws))).
    rewrite chars_app. unfold has_nonspace in *. rewrite existsb_app, Hw. reflexivity.
Qed.

(** ** Stripping at both ends, and splitting on a separator *)

(** [lstrip] on the list of characters. *)
Fixpoint lstrip_chars (l : list ascii) : list ascii :=
  match l with
  | [] => []
  | c :: l' => if isspace c then lstrip_chars l' else l
  end.

Definition strip_chars (l : list ascii) : list ascii :=
  rev (lstrip_chars (rev (lstrip_chars l))).

(** The list is empty or begins with a character that is not whitespace. *)
Definition clean_head (l : list ascii) : Prop :=
  match l with
  | [] => True
  | c :: _ => isspace c = false
  end.

Lemma chars_lstrip s : chars (lstrip s) = lstrip_chars (chars s).
Proof.
  induction s as [ | c s IH]; [ reflexivity | ].
  simpl. destruct (isspace c); [ exact IH | reflexivity ].
Qed.

Lemma chars_string_rev s : chars (string_rev s) = rev (chars s).
Proof. unfold string_rev. apply chars_of_list. Qed.

Lemma chars_strip s : chars (py_strip s) = strip_chars (chars s).
Proof.
  unfold py_strip, strip_chars.
  now rewrite chars_string_rev, chars_lstrip, chars_string_rev, chars_lstrip.
Qed.

Lemma lstrip_clean l : clean_head (lstrip_chars l).
Proof.
  induction l as [ | c l IH]; simpl; [ exact I | ].
  destruct (isspace c) eqn:Ec; [ exact IH | exact Ec ].
Qed.

Lemma lstrip_fixed l : clean_head l -> lstrip_chars l = l.
Proof. destruct l as [ | c l]; simpl; [ reflexivity | intros ->; reflexivity ]. Qed.

Lemma lstrip_suffix l : exists skipped, l = skipped ++ lstrip_chars l.
Proof.
  induction l as [ | c l [skipped IH]]; simpl; [ exists []; reflexivity | ].
  destruct (isspace c).
  - exists (c :: skipped). simpl. now rewrite <- IH.
  - exists []. reflexivity.
Qed.

(** Dropping a prefix of a list does not change where it ends. *)
Lemma clean_head_rev_suffix (skipped l : list ascii) :
  clean_head (rev (skipped ++ l)) -> clean_head (rev l).
Proof.
  rewrite rev_app_distr. destruct (rev l) as [ | c r]; simpl; [ intros _; exact I | ].
  intros H. exact H.
Qed.

Lemma strip_chars_clean l :
  clean_head (strip_chars l) /\ clean_head (rev (strip_chars l)).
Proof.
  unfold strip_chars. rewrite rev_involutive. split; [ | apply lstrip_clean ].
  destruct (lstrip_suffix (rev (lstrip_chars l))) as [skipped E].
  apply (clean_head_rev_suffix skipped). rewrite <- E, rev_involutive.
  apply lstrip_clean.
Qed.

Lemma strip_chars_fixed l :
  clean_head l -> clean_head (rev l) -> strip_chars l = l.
Proof.
  intros H1 H2. unfold strip_chars.
  rewrite (lstrip_fixed l H1), (lstrip_fixed (rev l) H2). apply rev_involutive.
Qed.

Lemma strip_chars_idempotent l : strip_chars (strip_chars l) = strip_chars l.
Proof. destruct (strip_chars_clean l) as [H1 H2]. now apply strip_chars_fixed. Qed.

(** Stripping twice is stripping once. *)
Lemma py_strip_idempotent s : py_strip (py_strip s) = py_strip s.
Proof.
  assert (H : chars (py_strip (py_strip s)) = chars (py_strip s))
    by (rewrite !chars_strip; apply strip_chars_idempotent).
  apply (f_equal string_of_list_ascii) in H. now rewrite !of_list_chars in H.
Qed.

Lemma lstrip_chars_in c l : In c (lstrip_chars l) -> In c l.
Proof.
  destruct (lstrip_suffix l) as [skipped E]. intros H. rewrite E.
  apply in_or_app. now right.
Qed.

(** Stripping adds no character. *)
Lemma py_strip_in c s : In c (chars (py_strip s)) -> In c (chars s).
Proof.
  rewrite chars_strip. unfold strip_chars. intros H.
  apply (proj2 (in_rev _ c)) in H. apply lstrip_chars_in in H.
  apply (proj2 (in_rev _ c)) in H. apply lstrip_chars_in, H.
Qed.

(** No piece of a split contains the separator. *)
Lemma split_on_from_pieces sep s :
  forall piece, ~ In sep piece ->
    Forall (fun p => ~ In sep (chars p)) (split_on_from sep piece s).
Proof.
  induction s as [ | c s IH]; intros piece Hp; simpl.
  - constructor; [ | constructor ]. rewrite chars_of_list. intros H.
    apply (proj2 (in_rev _ sep)) in H. contradiction.
  - destruct (Ascii.eqb c sep) eqn:Ec.
    + constructor; [ | apply IH; intros [] ].
      rewrite chars_of_list. intros H. apply (proj2 (in_rev _ sep)) in H. contradiction.
    + apply IH. intros [-> | H]; [ | contradiction ].
      rewrite Ascii.eqb_refl in Ec. discriminate.
Qed.

Lemma py_split_on_pieces sep s : Forall (fun p => ~ In sep (chars p)) (py_split_on sep s).
Proof. apply split_on_from_pieces. intros []. Qed.

End Words.

(* ===================================================================== *)
(** * The windows of [chunk_document] *)
(* ===================================================================== *)

Module ChunkWindows.
Import Binary64 Py Data Effects DocumentProcessor Words.

(** The [k]-th window: [chunk_size] words starting [k * step] words into the
    text (fewer at the end of the text). *)
Definition window (words : list str) (chunk_size step : Z) (k : nat) : list str :=
  take (Z.to_nat chunk_size) (drop (k * Z.to_nat step)%nat words).

Definition window_chunk (words : list str) (chunk_size step : Z) (k : nat) : chunk :=
  {| chunk_content := py_join " " (window words chunk_size step k);
     chunk_index := Z.of_nat k;
     chunk_type := "text";
     word_count := py_len (window words chunk_size step k) |}.

(** The number of windows that start inside a text of [n] words: [n / step],
    rounded up. *)
Definition window_count (n step : Z) : nat := Z.to_nat ((n + step - 1) / step).

Lemma window_count_spec n step (k : nat) :
  0 < step -> 0 <= n -> (k < window_count n step)%nat <-> Z.of_nat k * step < n.
Proof.
  intros Hs Hn. unfold window_count.
  assert (Hq : 0 <= (n + step - 1) / step) by (apply Z.div_pos; lia).
  pose proof (Z.mul_div_le (n + step - 1) step Hs) as Hle.
  pose proof (Z.mul_succ_div_gt (n + step - 1) step Hs) as Hgt.
  split; intros H.
  - assert (Z.of_nat k + 1 <= (n + step - 1) / step) by lia. nia.
  - assert (Z.of_nat k < (n + step - 1) / step) by nia. lia.
Qed.

Lemma range_windows n step :
  0 < step -> 0 <= n ->
  py_range 0 n step
  = Return (map (fun k : nat => 0 + Z.of_nat k * step) (seq 0 (window_count n step))).
Proof.
  intros Hs Hn. unfold py_range, range_length, window_count.
  destruct (step =? 0) eqn:E0; [ apply Z.eqb_eq in E0; lia | ].
  destruct (0 <? step) eqn:E1; [ | apply Z.ltb_ge in E1; lia ].
  destruct (0 <? n) eqn:E2.
  - apply Z.ltb_lt in E2. do 3 f_equal.
    replace (n + step - 1) with (n - 0 - 1 + 1 * step) by lia.
    rewrite Z.div_add by lia. reflexivity.
  - apply Z.ltb_ge in E2. replace n with 0 by lia.
    rewrite Z.div_small by lia. reflexivity.
Qed.

Lemma slice_window (words : list str) chunk_size step (k : nat) :
  0 < chunk_size -> 0 < step -> Z.of_nat k * step < py_len words ->
  py_slice words (0 + Z.of_nat k * step) (0 + Z.of_nat k * step + chunk_size)
  = window words chunk_size step k.
Proof.
  unfold py_slice, clamp_index, window, py_len. intros Hc Hs Hk.
  set (i := 0 + Z.of_nat k * step). set (n := Z.of_nat (length words)).
  assert (Hi : 0 <= i < n) by (unfold i, n; nia).
  destruct (i <? 0) eqn:E1; [ apply Z.ltb_lt in E1; lia | ].
  destruct (i + chunk_size <? 0) eqn:E2; [ apply Z.ltb_lt in E2; lia | ].
  rewrite (Z.min_l i n) by lia.
  replace (Z.to_nat i) with (k * Z.to_nat step)%nat by (unfold i; nia).
  destruct (Z.min_spec (i + chunk_size) n) as [[Hlt ->] | [Hle ->]].
  - f_equal. lia.
  - rewrite !take_ge; [ reflexivity | | ]; rewrite length_drop; unfold n, i in *; nia.
Qed.

Lemma window_words words chunk_size step k :
  Forall is_word words -> Forall is_word (window words chunk_size step k).
Proof. intros H. unfold window. apply Forall_take, Forall_drop, H. Qed.

Lemma window_length words chunk_size step (k : nat) :
  0 < chunk_size -> 0 < step ->
  py_len (window words chunk_size step k)
  = Z.max 0 (Z.min chunk_size (py_len words - Z.of_nat k * step)).
Proof.
  intros Hc Hs. unfold window, py_len. rewrite length_take, length_drop. nia.
Qed.

(** The loop of [chunk_document] appends one chunk per window. *)
Lemma chunk_loop_windows words chunk_size step :
  0 < chunk_size -> 0 < step -> Forall is_word words ->
  forall (len a : nat) chunks,
    (a + len <= window_count (py_len words) step)%nat ->
    chunks = map (window_chunk words chunk_size step) (seq 0 a) ->
    fold_left (chunk_step words chunk_size)
              (map (fun k : nat => 0 + Z.of_nat k * step) (seq a len)) chunks
    = map (window_chunk words chunk_size step) (seq 0 (a + len)).
Proof.
  intros Hc Hs Hw. induction len as [ | len IH]; intros a chunks Hle ->.
  - rewrite Nat.add_0_r. reflexivity.
  - simpl seq. simpl map at 1. simpl fold_left.
    assert (Ha : Z.of_nat a * step < py_len words).
    { apply window_count_spec; [ lia | unfold py_len; lia | lia ]. }
    assert (Hstep : chunk_step words chunk_size
                      (map (window_chunk words chunk_size step) (seq 0 a))
                      (0 + Z.of_nat a * step)
                    = map (window_chunk words chunk_size step) (seq 0 (S a))).
    { unfold chunk_step. rewrite slice_window by assumption.
      rewrite join_not_blank.
      - rewrite seq_S, map_app. simpl. unfold window_chunk at 3.
        unfold py_len at 1. rewrite length_map, length_seq. reflexivity.
      - intros E. pose proof (window_length words chunk_size step a Hc Hs) as Hl.
        rewrite E in Hl. unfold py_len in Hl at 1. simpl in Hl. lia.
      - apply window_words, Hw. }
    rewrite Hstep, (IH (S a)); [ f_equal; f_equal; lia | lia | reflexivity ].
Qed.

(** With a positive chunk size and a smaller overlap the chunks are the
    windows, in order. *)
Lemma chunk_document_eq content chunk_size overlap :
  0 < chunk_size -> overlap < chunk_size ->
  chunk_document content chunk_size overlap
  = map (window_chunk (py_split content) chunk_size (chunk_size - overlap))
        (seq 0 (window_count (py_len (py_split content)) (chunk_size - overlap))).
Proof.
  intros Hc Ho. unfold chunk_document, chunk_document_body.
  rewrite range_windows by (unfold py_len; lia). simpl.
  apply (chunk_loop_windows _ _ _ Hc); [ lia | apply py_split_words | lia | reflexivity ].
Qed.

(** ** Chunks of any chunk size and overlap *)

(** The content of [c] is its own words joined by single spaces, and
    [word_count] counts them. *)
Definition normalised (c : chunk) : Prop :=
  py_join " " (py_split (chunk_content c)) = chunk_content c
  /\ py_len (py_split (chunk_content c)) = word_count c.

Lemma slice_words (words : list str) start stop :
  Forall is_word words -> Forall is_word (py_slice words start stop).
Proof. intros H. unfold py_slice. apply Forall_take, Forall_drop, H. Qed.

Lemma chunk_step_normalised words chunk_size chunks i :
  Forall is_word words -> Forall normalised chunks ->
  Forall normalised (chunk_step words chunk_size chunks i).
Proof.
  intros Hw Hc. unfold chunk_step. destruct (str_truthy _); [ | exact Hc ].
  apply Forall_app. split; [ exact Hc | ].
  constructor; [ | constructor ].
  unfold normalised. simpl. rewrite split_join by apply slice_words, Hw. auto.
Qed.

Lemma chunk_loop_normalised words chunk_size indices :
  Forall is_word words ->
  forall chunks, Forall normalised chunks ->
    Forall normalised (fold_left (chunk_step words chunk_size) indices chunks).
Proof.
  intros Hw. induction indices as [ | i indices IH]; intros chunks Hc; simpl.
  - exact Hc.
  - apply IH, chunk_step_normalised; assumption.
Qed.

Lemma range_not_forward n step : 0 <= n -> step <= 0 ->
  py_range 0 n step = Return [] \/ exists e, py_range 0 n step = Raise e.
Proof.
  intros Hn Hs. unfold py_range, range_length.
  destruct (step =? 0); [ right; eauto | left ].
  destruct (0 <? step) eqn:E1; [ apply Z.ltb_lt in E1; lia | ].
  destruct (n <? 0) eqn:E2; [ apply Z.ltb_lt in E2; lia | ]. reflexivity.
Qed.

Lemma no_words_no_chunks content chunk_size overlap :
  py_split content = [] -> chunk_document content chunk_size overlap = [].
Proof.
  intros E. unfold chunk_document, chunk_document_body, py_range, range_length.
  rewrite E. simpl.
  destruct (chunk_size - overlap =? 0); [ reflexivity | ].
  destruct (0 <? chunk_size - overlap); reflexivity.
Qed.

Lemma no_step_no_chunks content chunk_size overlap :
  chunk_size <= overlap -> chunk_document content chunk_size overlap = [].
Proof.
  intros H. unfold chunk_document, chunk_document_body.
  destruct (range_not_forward (py_len (py_split content)) (chunk_size - overlap))
    as [-> | [e ->]]; [ unfold py_len; lia | lia | reflexivity | reflexivity ].
Qed.

Lemma window_count_pos n step : 0 < step -> 0 < n -> (0 < window_count n step)%nat.
Proof. intros Hs Hn. apply (window_count_spec n step 0); lia. Qed.

(** The first [step] words of the windows, one window after the other,
    are the words. *)
Lemma concat_window_heads (words : list str) (s m : nat) :
  concat (map (fun k => take s (drop (k * s)%nat words)) (seq 0 m)) = take (m * s)%nat words.
Proof.
  induction m as [ | m IH]; [ reflexivity | ].
  rewrite seq_S, map_app, concat_app, IH. simpl. rewrite app_nil_r.
  rewrite take_take_drop. f_equal. lia.
Qed.

(** X1. A text without words, or an overlap that is not below the chunk
    size, gives no chunks; with a positive chunk size these are the only
    cases in which [chunk_document] returns the empty list. *)
Theorem chunk_document_empty_iff (content : str) (chunk_size overlap : Z) :
  0 < chunk_size ->
  chunk_document content chunk_size overlap = []
  <-> py_split content = [] \/ chunk_size <= overlap.
Proof.
  intros Hc. split.
  - intros E. destruct (py_split content) as [ | w ws] eqn:Ew; [ left; reflexivity | right ].
    destruct (Z_le_gt_dec chunk_size overlap) as [Hle | Hgt]; [ exact Hle | exfalso ].
    rewrite chunk_document_eq in E by lia. rewrite Ew in E.
    apply (f_equal (@length chunk)) in E. rewrite length_map, length_seq in E.
    pose proof (window_count_pos (py_len (w :: ws)) (chunk_size - overlap)) as Hp.
    unfold py_len in Hp at 1. simpl length in *. lia.
  - intros [E | H]; [ apply no_words_no_chunks, E | apply no_step_no_chunks, H ].
Qed.

Lemma chunk_document_empty_iff_witness :
  chunk_document "gravity and bone" 5 5 = []
  /\ chunk_document "gravity and bone" 5 2 <> [].
Proof.
  split.
  - apply (chunk_document_empty_iff "gravity and bone" 5 5); [ lia | right; lia ].
  - intros E. apply (chunk_document_empty_iff "gravity and bone" 5 2) in E; [ | lia ].
    destruct E as [E | E]; [ discriminate E | lia ].
Defined.

(** X2. With a positive chunk size and a smaller overlap there is one chunk
    per window start [0, step, 2*step, ...] below the number [n] of words
    ([step] is [chunk_size - overlap]), that is [n / step] rounded up; the
    chunk at position [k] has [min(chunk_size, n - k*step)] words, at least
    one and at most [chunk_size]. *)
Theorem chunk_document_word_counts (content : str) (chunk_size overlap : Z) :
  0 < chunk_size -> overlap < chunk_size ->
  let n := py_len (py_split content) in
  let step := chunk_size - overlap in
  py_len (chunk_document content chunk_size overlap) = (n + step - 1) / step
  /\ forall (k : nat) c,
       chunk_document content chunk_size overlap !! k = Some c ->
       word_count c = Z.min chunk_size (n - Z.of_nat k * step)
       /\ 1 <= word_count c <= chunk_size.
Proof.
  intros Hc Ho n step. rewrite chunk_document_eq by assumption. fold n step.
  assert (Hn : 0 <= n) by (unfold n, py_len; lia).
  split.
  - unfold py_len at 1. rewrite length_map, length_seq. unfold window_count.
    rewrite Z2Nat.id; [ reflexivity | apply Z.div_pos; lia ].
  - intros k c Hk. rewrite list_lookup_fmap in Hk.
    destruct (seq 0 (window_count n step) !! k) as [k' | ] eqn:Ek; [ | discriminate ].
    apply lookup_seq in Ek as [-> Hlt]. simpl in Hk. injection Hk as <-.
    apply window_count_spec in Hlt; [ | unfold step; lia | exact Hn ].
    simpl. rewrite window_length by (unfold step; lia). fold n. lia.
Qed.

Lemma chunk_document_word_counts_witness :
  py_len (chunk_document "a b c d e f g" 3 1) = 4
  /\ exists c, chunk_document "a b c d e f g" 3 1 !! 3%nat = Some c /\ word_count c = 1.
Proof.
  destruct (chunk_document_word_counts "a b c d e f g" 3 1) as [Hl Hw]; [ lia | lia | ].
  split; [ exact Hl | ].
  eexists. split; [ reflexivity | ].
  destruct (Hw 3%nat _ eq_refl) as [E _]. rewrite E. reflexivity.
Defined.

(** X3. Whatever the chunk size and the overlap, the content of every chunk
    is a sequence of words separated by single spaces: splitting it and
    joining the words again gives the content back, and [word_count] is the
    number of words the content splits into. *)
Theorem chunk_content_round_trip (content : str) (chunk_size overlap : Z) :
  Forall (fun c =>
            py_join " " (py_split (chunk_content c)) = chunk_content c
            /\ py_len (py_split (chunk_content c)) = word_count c)
         (chunk_document content chunk_size overlap).
Proof.
  unfold chunk_document, chunk_document_body.
  destruct (py_range _ _ _) as [indices | e]; simpl; [ | constructor ].
  apply (chunk_loop_normalised (py_split content) chunk_size indices (py_split_words content)).
  constructor.
Qed.

(** X4. With a positive chunk size and a smaller overlap, the chunk at
    position [k] holds the words [words[k*step : k*step + chunk_size]] of the
    text, [step] being [chunk_size - overlap]. *)
Theorem chunk_holds_its_window (content : str) (chunk_size overlap : Z) (k : nat) (c : chunk) :
  0 < chunk_size -> overlap < chunk_size ->
  chunk_document content chunk_size overlap !! k = Some c ->
  let step := chunk_size - overlap in
  py_split (chunk_content c)
  = py_slice (py_split content) (Z.of_nat k * step) (Z.of_nat k * step + chunk_size).
Proof.
  intros Hc Ho Hk step. rewrite chunk_document_eq in Hk by assumption. fold step in Hk.
  rewrite list_lookup_fmap in Hk.
  destruct (seq 0 _ !! k) as [k' | ] eqn:Ek; [ | discriminate ].
  apply lookup_seq in Ek as [-> Hlt]. simpl in Hk. injection Hk as <-.
  apply window_count_spec in Hlt; [ | unfold step; lia | unfold py_len; lia ].
  simpl. rewrite split_join by apply window_words, py_split_words.
  symmetry. apply (slice_window (py_split content) chunk_size step k Hc); [ unfold step; lia | ].
  exact Hlt.
Qed.

Lemma chunk_holds_its_window_witness :
  exists c, chunk_document "a b c d e f g" 3 1 !! 1%nat = Some c
            /\ py_split (chunk_content c) = ["c"; "d"; "e"].
Proof.
  eexists. split; [ reflexivity | ].
  apply (chunk_holds_its_window "a b c d e f g" 3 1 1%nat _); [ lia | lia | reflexivity ].
Defined.

(** X5. With [0 <= overlap < chunk_size] no word is lost: the first
    [chunk_size - overlap] words of each chunk, one chunk after the other,
    are the words of the text.  (With [overlap = 0] the chunks' words
    themselves are the words of the text.) *)
Theorem chunks_cover_the_text (content : str) (chunk_size overlap : Z) :
  0 <= overlap < chunk_size ->
  concat (map (fun c => take (Z.to_nat (chunk_size - overlap)) (py_split (chunk_content c)))
              (chunk_document content chunk_size overlap))
  = py_split content.
Proof.
  intros [Ho Hc]. rewrite chunk_document_eq by lia.
  set (words := py_split content). set (step := chunk_size - overlap).
  rewrite map_map.
  rewrite (map_ext _ (fun k => take (Z.to_nat step) (drop (k * Z.to_nat step)%nat words))).
  - rewrite concat_window_heads. apply take_ge.
    assert (Hs : 0 < step) by (unfold step; lia).
    assert (Hq : 0 <= (py_len words + step - 1) / step)
      by (apply Z.div_pos; unfold py_len; lia).
    pose proof (Z.mul_succ_div_gt (py_len words + step - 1) step Hs) as Hgt.
    unfold window_count, py_len in *. nia.
  - intros k. simpl. rewrite split_join by apply window_words, py_split_words.
    unfold window. rewrite take_take. f_equal. unfold step. lia.
Qed.

Lemma chunks_cover_the_text_witness :
  concat (map (fun c => take 2 (py_split (chunk_content c)))
              (chunk_document "a b c d e f g" 3 1))
  = ["a"; "b"; "c"; "d"; "e"; "f"; "g"].
Proof. apply (chunks_cover_the_text "a b c d e f g" 3 1). lia. Defined.

End ChunkWindows.

(* ===================================================================== *)
(** * The completion requests of the agents *)
(* ===================================================================== *)

Module AgentCalls.
Import Binary64 Py Data Effects Agents MonadFacts RetrievalCalls.

(** The requests of the four stages of one pipeline run, in stage order:
    search, analyze, synthesize, verify. *)
Definition stage_requests (query : SearchQuery) (docs : list row) (kg : list kg_item)
           (context findings response : str) : trace :=
  [LlmInvoke (SearchPrompt (sq_query query) docs);
   LlmInvoke (AnalysisPrompt context kg);
   LlmInvoke (SynthesisPrompt findings (sq_query query));
   LlmInvoke (FactCheckPrompt response docs)].

(** The runs of [execute_search], by outcome. *)
Lemma execute_search_run
        (W : World) (query : SearchQuery) (docs : list row) (kg : list kg_item) (tr : trace) :
  exists r delta,
    execute_search W query docs kg tr = (Return r, tr ++ delta)
    /\ Forall (fun ev => is_llm ev = true) delta
    /\ (length delta <= 4)%nat
    /\ (exists context findings response,
          delta `prefix_of` stage_requests query docs kg context findings response)
    /\ match r with
       | AgentSuccess _ q n1 n2 history =>
           length delta = 4%nat /\ q = sq_query query
           /\ n1 = py_len docs /\ n2 = py_len kg /\ length history = 5%nat
       | AgentError error q =>
           q = sq_query query
           /\ ((llm W = None /\ delta = [] /\ error = "Agent graph not initialized")
               \/ exists complete before p e,
                   llm W = Some complete
                   /\ tr ++ delta = before ++ [LlmInvoke p]
                   /\ complete before p = Raise e
                   /\ error = exn_str e)
       end.
Proof.
  unfold execute_search, graph, graph_invoke, search_agent, analysis_agent,
    synthesis_agent, fact_checker, last_message, first_message, llm_invoke.
  destruct (llm W) as [complete | ]; run_monad.
  - destruct (complete tr _) as [found | e] eqn:E1; simpl.
    + destruct (complete (tr ++ _) _) as [findings | e] eqn:E2; simpl.
      * rewrite lookup_singleton_eq. simpl.
        destruct (complete ((tr ++ _) ++ _) _) as [answer | e] eqn:E3; simpl.
        -- destruct (complete (((tr ++ _) ++ _) ++ _) _) as [verdict | e] eqn:E4; simpl.
           ++ eexists. eexists [_; _; _; _]. rewrite <- !app_assoc. simpl.
              split; [ reflexivity | ].
              split; [ repeat constructor | ]. split; [ simpl; lia | ].
              split; [ do 3 eexists; exists []; reflexivity | ]. auto.
           ++ eexists. eexists [_; _; _; _]. rewrite <- !app_assoc. simpl.
              split; [ reflexivity | ].
              split; [ repeat constructor | ]. split; [ simpl; lia | ].
              split; [ do 3 eexists; exists []; reflexivity | ].
              split; [ reflexivity | right ].
              exists complete. eexists (tr ++ [_; _; _]), _, e.
              rewrite <- !app_assoc. simpl.
              split; [ reflexivity | ]. split; [ reflexivity | ].
              split; [ | reflexivity ]. rewrite <- E4. f_equal.
              rewrite <- !app_assoc. reflexivity.
        -- eexists. eexists [_; _; _]. rewrite <- !app_assoc. simpl.
           split; [ reflexivity | ].
           split; [ repeat constructor | ]. split; [ simpl; lia | ].
           split; [ eexists _, _, ""; eexists; reflexivity | ].
           split; [ reflexivity | right ].
           exists complete. eexists (tr ++ [_; _]), _, e.
           rewrite <- !app_assoc. simpl.
           split; [ reflexivity | ]. split; [ reflexivity | ].
           split; [ | reflexivity ]. rewrite <- E3. f_equal.
           rewrite <- !app_assoc. reflexivity.
      * eexists. eexists [_; _]. rewrite <- !app_assoc. simpl.
        split; [ reflexivity | ].
        split; [ repeat constructor | ]. split; [ simpl; lia | ].
        split; [ eexists _, "", ""; eexists; reflexivity | ].
        split; [ reflexivity | right ].
        exists complete. eexists (tr ++ [_]), _, e.
        rewrite <- !app_assoc. simpl.
        split; [ reflexivity | ]. split; [ reflexivity | ].
        split; [ exact E2 | reflexivity ].
    + eexists. eexists [_].
      split; [ reflexivity | ].
      split; [ repeat constructor | ]. split; [ simpl; lia | ].
      split; [ exists "", "", ""; eexists; reflexivity | ].
      split; [ reflexivity | right ].
      exists complete, tr. eexists _, e.
      split; [ reflexivity | ]. split; [ reflexivity | ].
      split; [ exact E1 | reflexivity ].
  - eexists. exists []. rewrite app_nil_r.
    split; [ reflexivity | ]. split; [ constructor | ]. split; [ simpl; lia | ].
    split; [ exists "", "", ""; eexists; reflexivity | ].
    split; [ reflexivity | left; auto ].
Qed.

(** The runs of [classify_query]. *)
Lemma classify_query_run W query_text tr :
  exists sq delta,
    classify_query W query_text tr = (Return sq, tr ++ delta)
    /\ sq_query sq = query_text
    /\ ((llm W = None /\ delta = []) \/ delta = [LlmInvoke (ClassifyPrompt query_text)])
    /\ (sq = factual query_text
        \/ exists complete response text classification,
            llm W = Some complete
            /\ complete tr (ClassifyPrompt query_text) = Return response
            /\ re_search_bracketed "{"%char "}"%char response = Some text
            /\ json_loads_dict W text = Return classification
            /\ sq_query_type sq
               = default (JStr "factual") (classification !! "query_type")).
Proof.
  unfold classify_query, llm_invoke.
  destruct (llm W) as [complete | ] eqn:Hllm; run_monad.
  - destruct (complete tr _) as [response | e] eqn:E1; simpl.
    + destruct (re_search_bracketed _ _ response) as [text | ] eqn:E2; simpl.
      * destruct (json_loads_dict W text) as [classification | e] eqn:E3; simpl.
        -- do 2 eexists. split; [ reflexivity | ]. split; [ reflexivity | ].
           split; [ right; reflexivity | right ].
           exists complete, response, text, classification. auto.
        -- do 2 eexists. split; [ reflexivity | ]. split; [ reflexivity | ].
           split; [ right; reflexivity | left; reflexivity ].
      * do 2 eexists. split; [ reflexivity | ]. split; [ reflexivity | ].
        split; [ right; reflexivity | left; reflexivity ].
    + do 2 eexists. split; [ reflexivity | ]. split; [ reflexivity | ].
      split; [ right; reflexivity | left; reflexivity ].
  - eexists. exists []. rewrite app_nil_r. split; [ reflexivity | ].
    split; [ reflexivity | ]. split; [ left; auto | left; reflexivity ].
Qed.

(** The runs of [generate_follow_up_questions]. *)
Lemma generate_follow_up_questions_run W query answer tr :
  exists questions delta,
    generate_follow_up_questions W query answer tr = (Return questions, tr ++ delta)
    /\ ((llm W = None /\ delta = [])
        \/ delta = [LlmInvoke (FollowUpPrompt query (substring 0 1000 answer))])
    /\ (questions = []
        \/ exists complete response text parsed,
            llm W = Some complete
            /\ complete tr (FollowUpPrompt query (substring 0 1000 answer)) = Return response
            /\ re_search_bracketed "["%char "]"%char response = Some text
            /\ json_loads_list W text = Return parsed
            /\ questions = take 5 parsed).
Proof.
  unfold generate_follow_up_questions, llm_invoke.
  destruct (llm W) as [complete | ] eqn:Hllm; run_monad.
  - destruct (complete tr _) as [response | e] eqn:E1; simpl.
    + destruct (re_search_bracketed _ _ response) as [text | ] eqn:E2; simpl.
      * destruct (json_loads_list W text) as [parsed | e] eqn:E3; simpl.
        -- do 2 eexists. split; [ reflexivity | ].
           split; [ right; reflexivity | right ].
           exists complete, response, text, parsed.
           repeat (split; [ assumption || reflexivity | ]).
           apply (Sources.py_slice_prefix parsed 5).
        -- do 2 eexists. split; [ reflexivity | ].
           split; [ right; reflexivity | left; reflexivity ].
      * do 2 eexists. split; [ reflexivity | ].
        split; [ right; reflexivity | left; reflexivity ].
    + do 2 eexists. split; [ reflexivity | ].
      split; [ right; reflexivity | left; reflexivity ].
  - eexists. exists []. rewrite app_nil_r. split; [ reflexivity | ].
    split; [ left; auto | left; reflexivity ].
Qed.


(** X6. [execute_search] never raises.  Its completion requests are the
    requests of the stages search, analyze, synthesize, verify, in this
    order and without repetition, or the first few of them: a successful run
    made all four, and a failed run stopped at the request that raised and
    reports that exception's message (or, with no completion model, made no
    request at all). *)
Theorem execute_search_requests
        (W : World) (query : SearchQuery) (docs : list row) (kg : list kg_item) (tr : trace) :
  exists r delta,
    execute_search W query docs kg tr = (Return r, tr ++ delta)
    /\ Forall (fun ev => is_llm ev = true) delta
    /\ (length delta <= 4)%nat
    /\ (exists context findings response,
          delta `prefix_of` stage_requests query docs kg context findings response)
    /\ match r with
       | AgentSuccess _ q n1 n2 history =>
           length delta = 4%nat /\ q = sq_query query
           /\ n1 = py_len docs /\ n2 = py_len kg /\ length history = 5%nat
       | AgentError error q =>
           q = sq_query query
           /\ ((llm W = None /\ delta = [] /\ error = "Agent graph not initialized")
               \/ exists complete before p e,
                   llm W = Some complete
                   /\ tr ++ delta = before ++ [LlmInvoke p]
                   /\ complete before p = Raise e
                   /\ error = exn_str e)
       end.
Proof. apply execute_search_run. Qed.

(** X7. [classify_query] never raises, echoes the query, and makes at most
    one completion request (none without a completion model).  The result is
    the ["factual"] classification unless the completion contained a brace
    pair that parsed as JSON, in which case the query type is the parsed
    [query_type], or ["factual"] when that key is missing. *)
Theorem classify_query_falls_back_to_factual (W : World) (query_text : str) (tr : trace) :
  exists sq delta,
    classify_query W query_text tr = (Return sq, tr ++ delta)
    /\ sq_query sq = query_text
    /\ ((llm W = None /\ delta = []) \/ delta = [LlmInvoke (ClassifyPrompt query_text)])
    /\ (sq = factual query_text
        \/ exists complete response text classification,
            llm W = Some complete
            /\ complete tr (ClassifyPrompt query_text) = Return response
            /\ re_search_bracketed "{"%char "}"%char response = Some text
            /\ json_loads_dict W text = Return classification
            /\ sq_query_type sq
               = default (JStr "factual") (classification !! "query_type")).
Proof. apply classify_query_run. Qed.

(** X8. [generate_follow_up_questions] never raises and returns at most five
    questions: the first five items of the JSON list found in the completion,
    in order, or no question at all when there is no completion model, the
    request raises, no bracket pair is found or it does not parse.  It makes
    at most one completion request, and that request carries the first 1000
    characters of the answer. *)
Theorem follow_up_questions_at_most_five (W : World) (query answer : str) (tr : trace) :
  exists questions delta,
    generate_follow_up_questions W query answer tr = (Return questions, tr ++ delta)
    /\ (length questions <= 5)%nat
    /\ ((llm W = None /\ delta = [])
        \/ delta = [LlmInvoke (FollowUpPrompt query (substring 0 1000 answer))])
    /\ (questions = []
        \/ exists complete response text parsed,
            llm W = Some complete
            /\ complete tr (FollowUpPrompt query (substring 0 1000 answer)) = Return response
            /\ re_search_bracketed "["%char "]"%char response = Some text
            /\ json_loads_list W text = Return parsed
            /\ questions = take 5 parsed).
Proof.
  destruct (generate_follow_up_questions_run W query answer tr)
    as (questions & delta & Hrun & Hcalls & Hq).
  exists questions, delta. repeat (split; [ assumption | ]).
  split; [ | auto ].
  destruct Hq as [-> | (? & ? & ? & parsed & _ & _ & _ & _ & ->)]; simpl; [ lia | ].
  rewrite length_take. lia.
Qed.

End AgentCalls.

(* ===================================================================== *)
(** * What one question costs *)
(* ===================================================================== *)

Module QuestionCalls.
Import Binary64 Py Data Effects Agents Rag MonadFacts RetrievalCalls AgentCalls.
Import DocumentProcessor.

Definition is_store (ev : event) : bool :=
  match ev with SearchSimilarDocuments _ _ | SearchSimilarChunks _ _ => true | _ => false end.

Definition is_chat (ev : event) : bool :=
  match ev with AddChatMessage _ _ _ _ => true | _ => false end.

(** The session to log to, if any: [if session_id:]. *)
Definition logged_session (session_id : option str) : option str :=
  match session_id with
  | Some s => if str_truthy s then Some s else None
  | None => None
  end.

(** The runs of [generate_answer]: completion requests only, at most six. *)
Lemma generate_answer_run W query sr tr :
  exists ad delta,
    generate_answer W query sr tr = (Return ad, tr ++ delta)
    /\ Forall (fun ev => is_llm ev = true) delta
    /\ (length delta <= 6)%nat
    /\ (length (ad_sources ad) <= 10)%nat
    /\ (length (ad_follow_up_questions ad) <= 5)%nat.
Proof.
  unfold generate_answer, try_except.
  destruct (classify_query_run W query tr) as (sq & d1 & H1 & _ & C1 & _).
  rewrite bind_run, H1.
  assert (L1 : Forall (fun ev => is_llm ev = true) d1 /\ (length d1 <= 1)%nat).
  { destruct C1 as [[_ ->] | ->]; split; simpl; repeat constructor. }
  destruct L1 as [L1 N1].
  destruct (execute_search_run W sq (default [] (sr_documents sr))
                               (default [] (sr_knowledge_graph sr)) (tr ++ d1))
    as (r & d2 & H2 & L2 & N2 & _).
  rewrite bind_run, H2.
  destruct r as [answer q n1 n2 history | error q].
  - destruct (generate_follow_up_questions_run W query answer ((tr ++ d1) ++ d2))
      as (qs & d3 & H3 & C3 & Q3).
    rewrite bind_run, H3.
    assert (L3 : Forall (fun ev => is_llm ev = true) d3 /\ (length d3 <= 1)%nat).
    { destruct C3 as [[_ ->] | ->]; split; simpl; repeat constructor. }
    destruct L3 as [L3 N3].
    eexists. exists (d1 ++ d2 ++ d3). rewrite !app_assoc.
    split; [ reflexivity | ]. simpl.
    split; [ rewrite !Forall_app; auto | ].
    split; [ rewrite !length_app; lia | ].
    split; [ rewrite Sources.extract_sources_eq, length_take; lia | ].
    destruct Q3 as [-> | (? & ? & ? & parsed & _ & _ & _ & _ & ->)]; simpl; [ lia | ].
    rewrite length_take. lia.
  - eexists. exists (d1 ++ d2). rewrite !app_assoc.
    split; [ reflexivity | ]. simpl.
    split; [ rewrite !Forall_app; auto | ].
    split; [ rewrite !length_app; lia | ]. lia.
Qed.

(** What [ask_question] writes to the chat store: nothing without a session;
    otherwise the user's message and then the assistant's, unless the first
    write raises. *)
Definition chat_writes (W : World) (query : str) (session_id : option str)
           (before : trace) (answer : Answer) (writes : trace) : Prop :=
  match logged_session session_id with
  | None => writes = []
  | Some s =>
      (exists e,
          writes = [AddChatMessage s "user" query []]
          /\ db_add_chat_message W before s "user" query [] = Raise e
          /\ answer = error_answer query e)
      \/ (exists content sources,
             writes = [AddChatMessage s "user" query [];
                       AddChatMessage s "assistant" content sources]
             /\ ((content = ans_answer answer /\ sources = ans_sources answer)
                 \/ exists e,
                     db_add_chat_message W (before ++ [AddChatMessage s "user" query []])
                                         s "assistant" content sources = Raise e
                     /\ answer = error_answer query e))
  end.

(** The runs of [ask_question]: retrieval, then the agents, then the chat
    store. *)
Lemma ask_question_run W self query session_id tr :
  exists answer d1 d2 d3 d4 d5,
    ask_question W self query session_id tr
    = (Return answer, (((tr ++ d1 ++ d2 ++ d3) ++ d4) ++ d5))
    /\ vector_search_calls SearchSimilarDocuments query 10 d1
    /\ vector_search_calls SearchSimilarChunks query 20 d2
    /\ Forall (fun ev => is_graph ev = true) d3
    /\ Forall (fun ev => is_llm ev = true) d4
    /\ (length d4 <= 6)%nat
    /\ (length (ans_sources answer) <= 10)%nat
    /\ (length (ans_follow_up_questions answer) <= 5)%nat
    /\ ans_num_sources answer = py_len (ans_sources answer)
    /\ chat_writes W query session_id ((tr ++ d1 ++ d2 ++ d3) ++ d4) answer d5.
Proof.
  destruct (hybrid_search_run W self query true tr) as (sr & d1 & d2 & d3 & Hs & S1 & S2 & G3).
  destruct (generate_answer_run W query sr (tr ++ d1 ++ d2 ++ d3))
    as (ad & d4 & Hg & L4 & N4 & B1 & B2).
  unfold ask_question, try_except, ask_question_body.
  rewrite bind_run, Hs, bind_run, Hg. cbv beta iota.
  set (before := (tr ++ d1 ++ d2 ++ d3) ++ d4).
  unfold chat_writes, logged_session.
  destruct session_id as [s | ]; [ destruct (str_truthy s) | ].
  - unfold Store.add_chat_message. run_monad.
    destruct (db_add_chat_message W before s "user" query []) as [id1 | e1] eqn:E1; simpl.
    + destruct (db_add_chat_message W (before ++ _) s "assistant" _ _) as [id2 | e2] eqn:E2;
        simpl.
      * eexists. exists d1, d2, d3, d4. eexists [_; _]. rewrite <- (app_assoc before). simpl.
        split; [ reflexivity | ]. simpl. repeat (split; [ assumption || reflexivity | ]).
        right. do 2 eexists. split; [ reflexivity | left; auto ].
      * eexists. exists d1, d2, d3, d4. eexists [_; _]. rewrite <- (app_assoc before). simpl.
        split; [ reflexivity | ]. simpl.
        repeat (split; [ assumption || reflexivity || lia | ]).
        right. do 2 eexists. split; [ reflexivity | right; eauto ].
    + eexists. exists d1, d2, d3, d4. eexists [_].
      split; [ reflexivity | ]. simpl.
      repeat (split; [ assumption || reflexivity || lia | ]).
      left. eauto.
  - run_monad. eexists. exists d1, d2, d3, d4, []. rewrite app_nil_r.
    split; [ reflexivity | ]. simpl. repeat (split; [ assumption || reflexivity | ]).
    reflexivity.
  - run_monad. eexists. exists d1, d2, d3, d4, []. rewrite app_nil_r.
    split; [ reflexivity | ]. simpl. repeat (split; [ assumption || reflexivity | ]).
    reflexivity.
Qed.

(** ** Counting calls *)

Lemma filter_none (p q : event -> bool) (l : trace) :
  (forall ev, p ev = true -> q ev = false) ->
  Forall (fun ev => p ev = true) l -> List.filter q l = [].
Proof.
  intros Hpq. induction 1 as [ | ev l Hev _ IH]; [ reflexivity | ].
  simpl. now rewrite (Hpq ev Hev).
Qed.

Lemma filter_all (p : event -> bool) (l : trace) :
  Forall (fun ev => p ev = true) l -> List.filter p l = l.
Proof.
  induction 1 as [ | ev l Hev _ IH]; [ reflexivity | ].
  simpl. now rewrite Hev, IH.
Qed.

Lemma graph_is_not ev :
  is_graph ev = true ->
  is_embed ev = false /\ is_store ev = false /\ is_llm ev = false /\ is_chat ev = false.
Proof. destruct ev; simpl; intros H; try discriminate; auto. Qed.

Lemma llm_is_not ev :
  is_llm ev = true ->
  is_embed ev = false /\ is_store ev = false /\ is_graph ev = false /\ is_chat ev = false.
Proof. destruct ev; simpl; intros H; try discriminate; auto. Qed.

(** The calls of one vector search, by kind. *)
Lemma vector_search_kinds store_call query limit delta :
  (forall e l, is_store (store_call e l) = true) ->
  (forall e l, is_embed (store_call e l) = false) ->
  (forall e l, is_llm (store_call e l) = false) ->
  (forall e l, is_chat (store_call e l) = false) ->
  (forall e l, is_graph (store_call e l) = false) ->
  vector_search_calls store_call query limit delta ->
  List.filter is_embed delta = [EmbedContent embedding_model query]
  /\ (length (List.filter is_store delta) <= 1)%nat
  /\ List.filter is_llm delta = []
  /\ List.filter is_chat delta = []
  /\ List.filter is_graph delta = [].
Proof.
  intros H1 H2 H3 H4 H5 [-> | [embedding ->]]; simpl.
  - auto.
  - rewrite H1, H2, H3, H4, H5. simpl. auto.
Qed.

Lemma chat_writes_kinds W query session_id before answer writes :
  chat_writes W query session_id before answer writes ->
  Forall (fun ev => is_chat ev = true) writes /\ (length writes <= 2)%nat.
Proof.
  unfold chat_writes. destruct (logged_session session_id) as [s | ].
  - intros [(e & -> & _) | (content & sources & -> & _)]; split; simpl; repeat constructor.
  - intros ->. split; simpl; [ constructor | lia ].
Qed.

Lemma chat_is_not ev :
  is_chat ev = true ->
  is_embed ev = false /\ is_store ev = false /\ is_llm ev = false /\ is_graph ev = false.
Proof. destruct ev; simpl; intros H; try discriminate; auto. Qed.

(** X9. Whatever the services answer, one call of [ask_question] makes
    exactly two embedding requests (both for the query), at most two searches
    of the document store, at most six completion requests and at most two
    writes to the chat store. *)
Theorem ask_question_cost
        (W : World) (self : RAGSystem) (query : str) (session_id : option str) (tr : trace) :
  exists answer delta,
    ask_question W self query session_id tr = (Return answer, tr ++ delta)
    /\ List.filter is_embed delta
       = [EmbedContent embedding_model query; EmbedContent embedding_model query]
    /\ (length (List.filter is_store delta) <= 2)%nat
    /\ (length (List.filter is_llm delta) <= 6)%nat
    /\ (length (List.filter is_chat delta) <= 2)%nat.
Proof.
  destruct (ask_question_run W self query session_id tr)
    as (answer & d1 & d2 & d3 & d4 & d5 & Hrun & S1 & S2 & G3 & L4 & N4 & _ & _ & _ & C5).
  apply chat_writes_kinds in C5 as [C5 N5].
  destruct (vector_search_kinds SearchSimilarDocuments query 10 d1) as (E1 & T1 & M1 & K1 & _);
    try (intros; reflexivity); [ exact S1 | ].
  destruct (vector_search_kinds SearchSimilarChunks query 20 d2) as (E2 & T2 & M2 & K2 & _);
    try (intros; reflexivity); [ exact S2 | ].
  exists answer, ((d1 ++ d2 ++ d3) ++ d4 ++ d5).
  split; [ rewrite Hrun; f_equal; now rewrite <- !app_assoc | ].
  rewrite !List.filter_app, !length_app.
  rewrite E1, E2, M1, M2, K1, K2.
  rewrite (filter_none is_graph is_embed d3 (fun ev H => proj1 (graph_is_not ev H)) G3).
  rewrite (filter_none is_graph is_store d3
             (fun ev H => proj1 (proj2 (graph_is_not ev H))) G3).
  rewrite (filter_none is_graph is_llm d3
             (fun ev H => proj1 (proj2 (proj2 (graph_is_not ev H)))) G3).
  rewrite (filter_none is_graph is_chat d3
             (fun ev H => proj2 (proj2 (proj2 (graph_is_not ev H)))) G3).
  rewrite (filter_none is_llm is_embed d4 (fun ev H => proj1 (llm_is_not ev H)) L4).
  rewrite (filter_none is_llm is_store d4 (fun ev H => proj1 (proj2 (llm_is_not ev H))) L4).
  rewrite (filter_none is_llm is_chat d4
             (fun ev H => proj2 (proj2 (proj2 (llm_is_not ev H)))) L4).
  rewrite (filter_all is_llm d4 L4).
  rewrite (filter_none is_chat is_embed d5 (fun ev H => proj1 (chat_is_not ev H)) C5).
  rewrite (filter_none is_chat is_store d5 (fun ev H => proj1 (proj2 (chat_is_not ev H))) C5).
  rewrite (filter_none is_chat is_llm d5
             (fun ev H => proj1 (proj2 (proj2 (chat_is_not ev H)))) C5).
  rewrite (filter_all is_chat d5 C5).
  simpl. repeat split; lia.
Qed.

(** X10. Whatever the services answer, the answer of [ask_question] cites at
    most ten sources, [num_sources] is their number, and it proposes at most
    five follow-up questions. *)
Theorem answer_sizes_are_bounded
        (W : World) (self : RAGSystem) (query : str) (session_id : option str) (tr : trace) :
  exists answer tr',
    ask_question W self query session_id tr = (Return answer, tr')
    /\ ans_num_sources answer = py_len (ans_sources answer)
    /\ 0 <= ans_num_sources answer <= 10
    /\ (length (ans_follow_up_questions answer) <= 5)%nat.
Proof.
  destruct (ask_question_run W self query session_id tr)
    as (answer & d1 & d2 & d3 & d4 & d5 & Hrun & _ & _ & _ & _ & _ & B1 & B2 & Hn & _).
  do 2 eexists. split; [ exact Hrun | ].
  split; [ exact Hn | ]. rewrite Hn. unfold py_len. split; [ lia | exact B2 ].
Qed.

(** X11. [ask_question] writes to the chat store only when it is given a
    non-empty session identifier, and only after retrieval and answer
    generation are over.  It then stores the user's query (with no sources)
    and, if that write returns, the assistant's answer with its sources; if
    either write raises, the caller gets the error answer for that
    exception, and a message already written stays written. *)
Theorem ask_question_chat_log
        (W : World) (self : RAGSystem) (query : str) (session_id : option str) (tr : trace) :
  exists answer work writes,
    ask_question W self query session_id tr = (Return answer, (tr ++ work) ++ writes)
    /\ List.filter is_chat work = []
    /\ chat_writes W query session_id (tr ++ work) answer writes.
Proof.
  destruct (ask_question_run W self query session_id tr)
    as (answer & d1 & d2 & d3 & d4 & d5 & Hrun & S1 & S2 & G3 & L4 & _ & _ & _ & _ & C5).
  destruct (vector_search_kinds SearchSimilarDocuments query 10 d1) as (_ & _ & _ & K1 & _);
    try (intros; reflexivity); [ exact S1 | ].
  destruct (vector_search_kinds SearchSimilarChunks query 20 d2) as (_ & _ & _ & K2 & _);
    try (intros; reflexivity); [ exact S2 | ].
  exists answer, ((d1 ++ d2 ++ d3) ++ d4), d5.
  replace (tr ++ (d1 ++ d2 ++ d3) ++ d4) with ((tr ++ d1 ++ d2 ++ d3) ++ d4)
    by (now rewrite <- !app_assoc).
  split; [ exact Hrun | ]. split; [ | exact C5 ].
  rewrite !List.filter_app, K1, K2.
  rewrite (filter_none is_graph is_chat d3
             (fun ev H => proj2 (proj2 (proj2 (graph_is_not ev H)))) G3).
  rewrite (filter_none is_llm is_chat d4
             (fun ev H => proj2 (proj2 (proj2 (llm_is_not ev H)))) L4).
  reflexivity.
Qed.

End QuestionCalls.

(* ===================================================================== *)
(** * Facts about retrieval *)
(* ===================================================================== *)

Module RetrievalFacts.
Import Binary64 Py Data Effects Agents Rag MonadFacts RetrievalCalls QuestionCalls.
Import DocumentProcessor.

(** ** The graph queries of [search_knowledge_graph] *)

(** The identifiers [search_knowledge_graph] asks the relationships of: those
    of the matches of type ["entity"] with a truthy [id], in order. *)
Definition wanted_ids (entities : list entity) : list value :=
  omap (fun entity =>
          if String.eqb (ent_type entity) "entity" then
            let entity_id := get (ent_data entity) "id" VNone in
            if truthy entity_id then Some entity_id else None
          else None)
       entities.

(** The matches [search_graph] returns at history [tr]. *)
Definition matches (W : World) (tr : trace) (query : str) (limit : Z) : list entity :=
  match neo4j_run_search W tr query limit with
  | Return records => map (fun r : row * str => {| ent_data := fst r; ent_type := snd r |}) records
  | Raise _ => []
  end.

Lemma collect_relationships_calls W entities :
  neo4j_driver W = true ->
  forall kg_context tr,
  exists items,
    collect_relationships W entities kg_context tr
    = (Return items, tr ++ map GraphRelationships (wanted_ids entities)).
Proof.
  intros Hd. induction entities as [ | entity rest IH]; intros kg_context tr; simpl.
  - exists kg_context. now rewrite app_nil_r.
  - destruct (String.eqb (ent_type entity) "entity"); [ | apply IH ].
    destruct (truthy _) eqn:Et; [ | apply IH ].
    unfold Store.get_entity_relationships. rewrite Hd. run_monad.
    destruct (neo4j_run_relationships W tr _) as [records | e]; simpl;
      edestruct IH as (items & ->); exists items; now rewrite <- app_assoc.
Qed.

(** X12. [search_knowledge_graph] never raises.  Without a graph connection
    it returns the empty list and queries nothing.  With one, it searches the
    graph once for the query with limit 20 and then asks for the
    relationships of every match of type ["entity"] that has a truthy [id],
    once each and in the order of the matches; a relationship query that
    fails does not stop the later ones. *)
Theorem search_knowledge_graph_queries (W : World) (query : str) (tr : trace) :
  exists items delta,
    search_knowledge_graph W query tr = (Return items, tr ++ delta)
    /\ if neo4j_driver W then
         delta = GraphSearch query 20
                 :: map GraphRelationships (wanted_ids (matches W tr query 20))
       else items = [] /\ delta = [].
Proof.
  unfold search_knowledge_graph, try_except, matches.
  destruct (neo4j_driver W) eqn:Hd; simpl.
  - unfold Store.search_graph. rewrite Hd. run_monad.
    destruct (neo4j_run_search W tr query 20) as [records | e]; simpl.
    + destruct (collect_relationships_calls W
                  (map (fun r : row * str => {| ent_data := fst r; ent_type := snd r |}) records)
                  Hd [] (tr ++ [GraphSearch query 20])) as (items & ->).
      exists items. eexists. rewrite <- app_assoc. simpl. split; reflexivity.
    + exists []. eexists. split; reflexivity.
  - exists [], []. rewrite app_nil_r. auto.
Qed.

(** ** Retrieval without an embedding *)

(** The embedding provider never produces a usable embedding: every request
    raises, or carries no list, or an empty one. *)
Definition no_embedding (W : World) : Prop :=
  forall tr model content,
    match genai_embed_content W tr model content with
    | Return (Some (_ :: _)) => False
    | _ => True
    end.

Lemma generate_embeddings_none W text tr :
  no_embedding W ->
  generate_embeddings W text tr = (Return None, tr ++ [EmbedContent embedding_model text]).
Proof.
  intros Hno. unfold generate_embeddings. rewrite embedding_model_set. run_monad.
  specialize (Hno tr embedding_model text).
  destruct (genai_embed_content W tr embedding_model text) as [[[ | x l] | ] | e]; simpl;
    (reflexivity || contradiction).
Qed.

Lemma sort_ascending_constant {A} (key : A -> value) v (l : list A) :
  py_lt v v = Return false -> Forall (fun x => key x = v) l ->
  sort_ascending key l = Return l.
Proof.
  intros Hv. induction 1 as [ | x l Hx Hl IH]; [ reflexivity | ].
  simpl. rewrite IH. simpl. destruct Hl as [ | y l Hy Hl]; [ reflexivity | ].
  simpl. rewrite Hx, Hy, Hv. reflexivity.
Qed.

Lemma combine_graph_only W kg query :
  _combine_search_results W [] [] kg query = Return (map (graph_evidence W) kg).
Proof.
  unfold _combine_search_results. simpl. rewrite Sources.append_loop. simpl.
  unfold sort_reverse.
  rewrite (sort_ascending_constant ev_relevance_score (VFloat f0_5)).
  - simpl. now rewrite rev_involutive.
  - reflexivity.
  - apply Forall_rev, Forall_map, Forall_forall. intros k _. reflexivity.
Qed.

(** X13. When the embedding provider never produces a usable embedding,
    [hybrid_search] still returns normally, with no error: it made its two
    embedding requests and never searched the document store, so the
    documents and the chunks are empty, and the evidence list is the graph
    items alone, in the order the graph search returned them. *)
Theorem hybrid_search_without_embedding
        (W : World) (self : RAGSystem) (query : str) (include_kg : bool) (tr : trace) :
  no_embedding W ->
  exists kg graph_calls,
    hybrid_search W self query include_kg tr
    = (Return {| sr_documents := Some [];
                 sr_chunks := Some [];
                 sr_knowledge_graph := Some kg;
                 sr_combined_results := Some (map (graph_evidence W) kg);
                 sr_query := Some query;
                 sr_error := None |},
       tr ++ [EmbedContent embedding_model query; EmbedContent embedding_model query]
          ++ graph_calls)
    /\ Forall (fun ev => is_graph ev = true) graph_calls.
Proof.
  intros Hno. unfold hybrid_search, try_except, search_documents, search_chunks, try_except.
  rewrite !bind_run, (generate_embeddings_none W query tr Hno). cbv beta iota.
  unfold ret at 1. unfold mret, M_ret. cbv beta iota.
  rewrite !bind_run, (generate_embeddings_none W query _ Hno). cbv beta iota.
  unfold ret at 1. unfold mret, M_ret. cbv beta iota.
  assert (Hkg : exists items d3,
             (if include_kg then search_knowledge_graph W query else ret [])
               ((tr ++ [EmbedContent embedding_model query])
                  ++ [EmbedContent embedding_model query])
             = (Return items, ((tr ++ [EmbedContent embedding_model query])
                                 ++ [EmbedContent embedding_model query]) ++ d3)
             /\ Forall (fun ev => is_graph ev = true) d3).
  { destruct include_kg.
    - apply search_knowledge_graph_run.
    - exists [], []. rewrite app_nil_r. split; [ reflexivity | constructor ]. }
  destruct Hkg as (kg & d3 & H3 & G3).
  rewrite bind_run, H3, bind_run. unfold lift. rewrite combine_graph_only.
  exists kg, d3. split; [ | exact G3 ].
  unfold ret, mret, M_ret. f_equal. rewrite <- !app_assoc. reflexivity.
Qed.

Lemma hybrid_search_without_embedding_witness :
  exists kg graph_calls,
    hybrid_search Samples.all_down RAGSystem_init Samples.bone_query true []
    = (Return {| sr_documents := Some [];
                 sr_chunks := Some [];
                 sr_knowledge_graph := Some kg;
                 sr_combined_results := Some (map (graph_evidence Samples.all_down) kg);
                 sr_query := Some Samples.bone_query;
                 sr_error := None |},
       [] ++ [EmbedContent embedding_model Samples.bone_query;
              EmbedContent embedding_model Samples.bone_query] ++ graph_calls)
    /\ Forall (fun ev => is_graph ev = true) graph_calls.
Proof.
  apply (hybrid_search_without_embedding Samples.all_down RAGSystem_init
                                         Samples.bone_query true []).
  intros tr model content. simpl. exact I.
Defined.

(** ** The services retrieval talks to *)

(** X14. [hybrid_search] talks to the embedding provider, the document store
    and the graph only: it makes no completion request and writes nothing to
    the chat store.  Called with [include_kg=False] it does not query the
    graph either, and its [knowledge_graph] list is empty. *)
Theorem hybrid_search_services
        (W : World) (self : RAGSystem) (query : str) (include_kg : bool) (tr : trace) :
  exists sr delta,
    hybrid_search W self query include_kg tr = (Return sr, tr ++ delta)
    /\ List.filter is_llm delta = []
    /\ List.filter is_chat delta = []
    /\ (include_kg = false ->
        List.filter is_graph delta = [] /\ sr_knowledge_graph sr = Some []).
Proof.
  unfold hybrid_search, try_except.
  destruct (search_documents_run W self query 10 tr) as (docs & d1 & H1 & S1).
  rewrite bind_run, H1.
  destruct (search_chunks_run W self query 20 (tr ++ d1)) as (chunks & d2 & H2 & S2).
  rewrite bind_run, H2.
  destruct (vector_search_kinds SearchSimilarDocuments query 10 d1) as (_ & _ & M1 & K1 & R1);
    try (intros; reflexivity); [ exact S1 | ].
  destruct (vector_search_kinds SearchSimilarChunks query 20 d2) as (_ & _ & M2 & K2 & R2);
    try (intros; reflexivity); [ exact S2 | ].
  destruct include_kg.
  - destruct (search_knowledge_graph_run W query ((tr ++ d1) ++ d2)) as (kg & d3 & H3 & G3).
    rewrite bind_run, H3, bind_run. unfold lift.
    assert (Hquiet : List.filter is_llm (d1 ++ d2 ++ d3) = []
                     /\ List.filter is_chat (d1 ++ d2 ++ d3) = []).
    { rewrite !List.filter_app, M1, M2, K1, K2.
      rewrite (filter_none is_graph is_llm d3
                 (fun ev H => proj1 (proj2 (proj2 (graph_is_not ev H)))) G3).
      rewrite (filter_none is_graph is_chat d3
                 (fun ev H => proj2 (proj2 (proj2 (graph_is_not ev H)))) G3).
      auto. }
    destruct Hquiet as [Q1 Q2].
    destruct (_combine_search_results W docs chunks kg query) as [combined | e];
      eexists; exists (d1 ++ d2 ++ d3); rewrite !app_assoc;
      (split; [ reflexivity | ]); rewrite <- ?app_assoc;
      (split; [ exact Q1 | split; [ exact Q2 | discriminate ] ]).
  - rewrite bind_run. unfold ret at 1. unfold mret, M_ret. cbv beta iota.
    rewrite bind_run. unfold lift.
    assert (Hquiet : List.filter is_llm (d1 ++ d2) = []
                     /\ List.filter is_chat (d1 ++ d2) = []
                     /\ List.filter is_graph (d1 ++ d2) = []).
    { rewrite !List.filter_app, M1, M2, K1, K2, R1, R2. auto. }
    destruct Hquiet as (Q1 & Q2 & Q3).
    destruct (_combine_search_results W docs chunks [] query) as [combined | e];
      eexists; exists (d1 ++ d2); rewrite !app_assoc;
      (split; [ reflexivity | ]); rewrite <- ?app_assoc;
      (split; [ exact Q1 | split; [ exact Q2 | intros _; split; [ exact Q3 | reflexivity ] ] ]).
Qed.

Lemma hybrid_search_services_witness :
  exists sr delta,
    hybrid_search Samples.healthy RAGSystem_init Samples.bone_query false []
    = (Return sr, [] ++ delta)
    /\ List.filter is_graph delta = [] /\ sr_knowledge_graph sr = Some [].
Proof.
  destruct (hybrid_search_services Samples.healthy RAGSystem_init Samples.bone_query false [])
    as (sr & delta & Hrun & _ & _ & Hkg).
  exists sr, delta. split; [ exact Hrun | ]. apply Hkg. reflexivity.
Defined.

(** ** What a vector search returns *)


Lemma filter_raising_raises {A} (p : A -> outcome bool) (l : list A) x e :
  x ∈ l -> p x = Raise e -> exists e', filter_raising p l = Raise e'.
Proof.
  induction l as [ | y l IH]; simpl; intros Hx Hp.
  - inversion Hx.
  - apply elem_of_cons in Hx as [<- | Hx].
    + rewrite Hp. simpl. eauto.
    + destruct (p y) as [b | e1]; simpl; [ | eauto ].
      destruct (IH Hx Hp) as (e' & ->). simpl. eauto.
Qed.





(** The document store answers with one good row and one whose similarity
    is not a number. *)
Definition malformed_store : World :=
  {| genai_embed_content := genai_embed_content Samples.healthy;
     db_search_similar_documents := fun _ _ _ => Return [Samples.bone_doc; Samples.malformed_doc];
     db_search_similar_chunks := db_search_similar_chunks Samples.healthy;
     db_add_chat_message := db_add_chat_message Samples.healthy;
     neo4j_driver := neo4j_driver Samples.healthy;
     neo4j_run_search := neo4j_run_search Samples.healthy;
     neo4j_run_relationships := neo4j_run_relationships Samples.healthy;
     llm := llm Samples.healthy;
     json_loads_dict := json_loads_dict Samples.healthy;
     json_loads_list := json_loads_list Samples.healthy;
     float_repr := float_repr Samples.healthy |}.

(** X16. One row whose similarity cannot be compared with the threshold (a
    [None] or a string, say) hides the whole answer of the store: the
    comparison raises inside the list comprehension, and [search_documents]
    returns the empty list, the rows that would have passed included. *)
Theorem one_bad_row_hides_all
        (W : World) (self : RAGSystem) (query : str) (limit : Z) (tr : trace)
        (x : float) (embedding : list float) (rows : list row) (r : row) (e : exn) :
  genai_embed_content W tr embedding_model query = Return (Some (x :: embedding)) ->
  db_search_similar_documents W (tr ++ [EmbedContent embedding_model query])
                              (x :: embedding) limit = Return rows ->
  r ∈ rows ->
  above_threshold self r = Raise e ->
  search_documents W self query limit tr
  = (Return [], tr ++ [EmbedContent embedding_model query;
                       SearchSimilarDocuments (x :: embedding) limit]).
Proof.
  intros Hg Hd Hr He.
  unfold search_documents, Store.search_similar_documents, generate_embeddings.
  rewrite embedding_model_set. run_monad. rewrite Hg. simpl. rewrite Hd. simpl.
  destruct (filter_raising_raises (above_threshold self) rows r e Hr He) as (e' & ->).
  simpl. now rewrite <- app_assoc.
Qed.

Lemma one_bad_row_hides_all_witness :
  search_documents malformed_store RAGSystem_init Samples.bone_query 10 []
  = (Return [], [] ++ [EmbedContent embedding_model Samples.bone_query;
                       SearchSimilarDocuments [f0_1; f0_3] 10]).
Proof.
  apply (one_bad_row_hides_all malformed_store RAGSystem_init Samples.bone_query 10 []
           f0_1 [f0_3] [Samples.bone_doc; Samples.malformed_doc] Samples.malformed_doc
           (not_supported_between ">=" VNone (VFloat f0_7))).
  - reflexivity.
  - reflexivity.
  - apply elem_of_cons. right. apply elem_of_cons. left. reflexivity.
  - reflexivity.
Defined.

End RetrievalFacts.

(* ===================================================================== *)
(** * Titles and summaries *)
(* ===================================================================== *)

Module TitleFacts.
Import Binary64 Py Data Effects Text DocumentText Words.

(** What [first_title] returns: the default, or a stripped line of the
    right length. *)
Lemma first_title_cases lines :
  (first_title lines = "Untitled Document"
   \/ exists line, In line lines /\ first_title lines = py_strip line)
  /\ 10 < str_len (first_title lines) < 200.
Proof.
  induction lines as [ | line rest [IH1 IH2]]; simpl.
  - split; [ left; reflexivity | unfold str_len; simpl; lia ].
  - destruct (10 <? str_len (py_strip line)) eqn:E1; simpl.
    + destruct (str_len (py_strip line) <? 200) eqn:E2.
      * apply Z.ltb_lt in E1, E2. split; [ right; exists line; auto | lia ].
      * split; [ | exact IH2 ].
        destruct IH1 as [IH1 | (l & Hl & IH1)]; [ left; exact IH1 | right; eauto ].
    + split; [ | exact IH2 ].
      destruct IH1 as [IH1 | (l & Hl & IH1)]; [ left; exact IH1 | right; eauto ].
Qed.

(** X17. Whatever the text, the title [_extract_title_from_text] returns is
    longer than 10 and shorter than 200 characters, has no whitespace at
    either end and no line break inside: it is ["Untitled Document"] or one
    line of the text, stripped. *)
Theorem title_is_one_stripped_line (text : str) :
  let title := _extract_title_from_text text in
  10 < str_len title < 200
  /\ py_strip title = title
  /\ ~ In "010"%char (chars title)
  /\ (title = "Untitled Document"
      \/ exists line, In line (py_split_on "010"%char text) /\ title = py_strip line).
Proof.
  unfold _extract_title_from_text. cbv zeta.
  destruct (first_title_cases (py_split_on "010"%char text)) as [Hcases Hlen].
  split; [ exact Hlen | ].
  destruct Hcases as [E | (line & Hline & E)]; rewrite E.
  - split; [ reflexivity | ]. split; [ | left; reflexivity ].
    vm_compute. intuition discriminate.
  - split; [ apply py_strip_idempotent | ]. split; [ | right; eauto ].
    intros H. apply py_strip_in in H.
    pose proof (py_split_on_pieces "010"%char text) as Hp.
    rewrite List.Forall_forall in Hp. exact (Hp line Hline H).
Qed.

(** The summary before truncation: the first three pieces between full
    stops, joined by a full stop and a space. *)
Definition first_sentences (content : str) : str :=
  py_join ". " (py_slice (py_split_on "."%char content) 0 3).

Lemma length_of_list l : String.length (string_of_list_ascii l) = length l.
Proof. induction l as [ | c l IH]; simpl; [ reflexivity | now rewrite IH ]. Qed.

Lemma length_chars s : length (chars s) = String.length s.
Proof. induction s as [ | c s IH]; simpl; [ reflexivity | now rewrite IH ]. Qed.

Lemma length_append s t : String.length (s +:+ t) = (String.length s + String.length t)%nat.
Proof. induction s as [ | c s IH]; [ reflexivity | ]. simpl. now rewrite <- IH. Qed.

Lemma str_prefix_length s n :
  0 <= n <= str_len s -> str_len (str_prefix s n) = n.
Proof.
  unfold str_len, str_prefix. intros Hn.
  rewrite length_of_list.
  replace n with (Z.of_nat (Z.to_nat n)) at 1 by lia.
  rewrite Sources.py_slice_prefix, length_take, length_chars. lia.
Qed.

(** X18. [_fallback_summarize] returns the first three sentences unchanged
    when they have at most [max_length] characters.  Otherwise, for a
    [max_length] that is not negative, it returns their first [max_length]
    characters followed by three dots: [max_length + 3] characters, three
    more than the limit. *)
Theorem fallback_summary_length (content : str) (max_length : Z) :
  0 <= max_length ->
  let summary := first_sentences content in
  let result := _fallback_summarize content max_length in
  (str_len summary <= max_length -> result = summary)
  /\ (max_length < str_len summary ->
      result = str_prefix summary max_length +:+ "..."
      /\ str_len result = max_length + 3)
  /\ str_len result <= max_length + 3.
Proof.
  intros Hm. cbv zeta. unfold _fallback_summarize. fold (first_sentences content).
  destruct (max_length <? str_len (first_sentences content)) eqn:E.
  - apply Z.ltb_lt in E.
    assert (Hl : str_len (str_prefix (first_sentences content) max_length +:+ "...")
                 = max_length + 3).
    { pose proof (str_prefix_length (first_sentences content) max_length) as Hp.
      unfold str_len in *. rewrite length_append. simpl String.length at 2. lia. }
    split; [ lia | ]. split; [ auto | lia ].
  - apply Z.ltb_ge in E. split; [ reflexivity | ]. split; [ lia | lia ].
Qed.

Lemma fallback_summary_length_witness :
  _fallback_summarize "Bone loss. Muscle atrophy. Fluid shift. Radiation." 20
  = "Bone loss.  Muscle a..."
  /\ str_len (_fallback_summarize "Bone loss. Muscle atrophy. Fluid shift. Radiation." 20) = 23.
Proof.
  destruct (fallback_summary_length "Bone loss. Muscle atrophy. Fluid shift. Radiation." 20)
    as (_ & H & _); [ lia | ].
  destruct H as [H1 H2]; [ vm_compute; reflexivity | ].
  split; [ rewrite H1; vm_compute; reflexivity | exact H2 ].
Defined.

End TitleFacts.

(* ===================================================================== *)
(** * Embedding requests *)
(* ===================================================================== *)

Module EmbeddingFacts.
Import Binary64 Py Data Effects Text DocumentText MonadFacts RetrievalCalls.
Import DocumentProcessor.

Lemma usable_not_empty embedding : usable embedding <> Some [].
Proof. destruct embedding as [[ | x l] | ]; simpl; discriminate. Qed.

(** X19. [generate_embeddings] on one text never raises and makes exactly
    one request, for that text and the model ["models/embedding-001"].  It
    returns the provider's list when that is a non-empty list, and [None]
    when the provider raised, returned no list, or returned an empty one:
    never an empty embedding. *)
Theorem generate_embeddings_one_text (W : World) (text : str) (tr : trace) :
  exists r,
    generate_embeddings W text tr
    = (Return r, tr ++ [EmbedContent "models/embedding-001" text])
    /\ r <> Some []
    /\ r = match genai_embed_content W tr "models/embedding-001" text with
           | Return embedding => usable embedding
           | Raise _ => None
           end.
Proof.
  unfold generate_embeddings. rewrite embedding_model_set. run_monad.
  fold embedding_model.
  destruct (genai_embed_content W tr embedding_model text) as [[[ | x l] | ] | e]; simpl;
    eexists; (split; [ reflexivity | split; [ discriminate | reflexivity ] ]).
Qed.

(** The requests for the first [k] texts. *)
Definition requests (texts : list str) : trace := map (EmbedContent embedding_model) texts.

(** The runs of the loop: every request answered, or the first [k] answered
    and the next one raising. *)
Lemma embed_each_run W texts :
  forall embeddings tr,
    (exists r,
        embed_each W texts embeddings tr = (Return (embeddings ++ r), tr ++ requests texts)
        /\ length r = length texts
        /\ forall (i : nat) text,
            texts !! i = Some text ->
            exists answer,
              genai_embed_content W (tr ++ requests (take i texts)) embedding_model text
              = Return answer
              /\ r !! i = Some (usable answer))
    \/ (exists e (k : nat) text,
           embed_each W texts embeddings tr = (Raise e, tr ++ requests (take (S k) texts))
           /\ texts !! k = Some text
           /\ genai_embed_content W (tr ++ requests (take k texts)) embedding_model text
              = Raise e).
Proof.
  induction texts as [ | text rest IH]; intros embeddings tr.
  - left. exists []. simpl. rewrite !app_nil_r. split; [ reflexivity | ].
    split; [ reflexivity | ]. intros i t H. inversion H.
  - assert (Hstep : embed_each W (text :: rest) embeddings tr
                     = match genai_embed_content W tr embedding_model text with
                       | Return answer =>
                           embed_each W rest (embeddings ++ [usable answer])
                                      (tr ++ [EmbedContent embedding_model text])
                       | Raise e => (Raise e, tr ++ [EmbedContent embedding_model text])
                       end).
    { simpl. rewrite bind_run. unfold call.
      destruct (genai_embed_content W tr embedding_model text); reflexivity. }
    rewrite Hstep. clear Hstep.
    destruct (genai_embed_content W tr embedding_model text) as [answer | e] eqn:E.
    + destruct (IH (embeddings ++ [usable answer]) (tr ++ [EmbedContent embedding_model text]))
        as [(r & Hrun & Hlen & Hall) | (e & k & t & Hrun & Hk & He)].
      * left. exists (usable answer :: r). rewrite Hrun. simpl.
        rewrite <- !app_assoc. simpl. split; [ reflexivity | ].
        split; [ now rewrite Hlen | ].
        intros [ | i] t Ht; simpl in Ht.
        -- injection Ht as <-. exists answer. simpl. rewrite app_nil_r. auto.
        -- destruct (Hall i t Ht) as (a & Ha & Hr). exists a. simpl.
           rewrite <- app_assoc in Ha. simpl in Ha. auto.
      * right. exists e, (S k), t. rewrite Hrun. simpl.
        rewrite <- !app_assoc. simpl. split; [ reflexivity | ].
        split; [ exact Hk | ]. rewrite <- app_assoc in He. exact He.
    + right. exists e, 0%nat, text. simpl. rewrite app_nil_r.
      split; [ reflexivity | split; [ reflexivity | exact E ] ].
Qed.

(** X20. [generate_embeddings] on a list of texts never raises and asks for
    the texts one at a time, in order.  When every request is answered and
    there is at least one text, the result has one entry per text, in the
    order of the texts: the provider's list when it is non-empty, [None]
    otherwise.  When a request raises, no later request is made and the
    result is [None]: the embeddings already obtained are dropped.  For the
    empty list the result is [None] and no request is made. *)
Theorem generate_embeddings_batch_aligned (W : World) (texts : list str) (tr : trace) :
  exists r delta,
    generate_embeddings_batch W texts tr = (Return r, tr ++ delta)
    /\ match r with
       | Some embeddings =>
           texts <> [] /\ delta = requests texts
           /\ length embeddings = length texts
           /\ forall (i : nat) text,
               texts !! i = Some text ->
               exists answer,
                 genai_embed_content W (tr ++ requests (take i texts)) embedding_model text
                 = Return answer
                 /\ embeddings !! i = Some (usable answer)
       | None =>
           (texts = [] /\ delta = [])
           \/ exists e (k : nat) text,
               delta = requests (take (S k) texts)
               /\ texts !! k = Some text
               /\ genai_embed_content W (tr ++ requests (take k texts)) embedding_model text
                  = Raise e
       end.
Proof.
  unfold generate_embeddings_batch. rewrite embedding_model_set.
  unfold try_except. rewrite bind_run.
  destruct (embed_each_run W texts [] tr)
    as [(r & Hrun & Hlen & Hall) | (e & k & t & Hrun & Hk & He)]; rewrite Hrun.
  - simpl app. destruct r as [ | a r].
    + exists None, (requests texts). split; [ reflexivity | left ].
      destruct texts; [ auto | discriminate ].
    + exists (Some (a :: r)), (requests texts). split; [ reflexivity | ].
      split; [ destruct texts; [ discriminate | discriminate ] | ]. auto.
  - exists None. eexists. split; [ reflexivity | right ]. eauto 6.
Qed.

End EmbeddingFacts.

(* ===================================================================== *)
(** * Embeddings in the chunk table *)
(* ===================================================================== *)

Module DatabaseFacts.
Import Binary64 Py Data Effects Text Database.

(** The validation returns [None] or the bracketed string it was given. *)
Lemma validate_embedding_cases embedding :
  validate_embedding embedding = EmbNone
  \/ exists s,
      embedding = EmbStr s
      /\ validate_embedding embedding = EmbStr s
      /\ startswith "["%char s = true
      /\ endswith "]"%char s = true.
Proof.
  destruct embedding as [ | l | d | s | ]; simpl; auto.
  - destruct (bool_decide (l = [])); auto.
  - destruct (bool_decide (d = ∅)); auto.
  - destruct (startswith "["%char s) eqn:E1; simpl; [ | auto ].
    destruct (endswith "]"%char s) eqn:E2; simpl; [ | auto ].
    right. exists s. auto.
Qed.

(** X21. [insert_document_chunk] adds exactly one row when the server
    accepts the insert and none when it raises.  The row is the one it was
    given except for the embedding, which is stored only when it is a string
    that starts with an opening and ends with a closing bracket; any other
    embedding (a list of floats in particular) is stored as [None]. *)
Theorem insert_document_chunk_stores_valid_embedding
        (db : Server) (chunk_data : ChunkData) (rows : table) :
  match insert_document_chunk db chunk_data rows with
  | (Return _, rows') =>
      exists row,
        rows' = rows ++ [row]
        /\ row = with_embedding chunk_data (cd_embedding row)
        /\ (cd_embedding row = EmbNone
            \/ exists s,
                cd_embedding chunk_data = EmbStr s
                /\ cd_embedding row = EmbStr s
                /\ startswith "["%char s = true
                /\ endswith "]"%char s = true)
  | (Raise _, rows') => rows' = rows
  end.
Proof.
  unfold insert_document_chunk.
  destruct (execute_insert_chunk db rows _) as [chunk_id | e]; [ | reflexivity ].
  eexists. split; [ reflexivity | ]. split; [ reflexivity | ]. simpl.
  destruct (validate_embedding_cases (cd_embedding chunk_data)) as [-> | (s & E & -> & H)];
    [ left; reflexivity | right; exists s; auto ].
Qed.

End DatabaseFacts.

(* ===================================================================== *)
(** * What the upload page stores *)
(* ===================================================================== *)

Module UploadFacts.
Import Binary64 Py Data Effects Text Database Upload.
Import DocumentProcessor RetrievalCalls.

Section Stored.
Context (W : World) (db : Server) (document_id : str).

(** The rows stored for the first chunks of [chunks], numbered from [i]:
    one row per chunk, in order, with an embedding that [allowed] admits for
    the chunk and that went through the validation. *)
Fixpoint rows_for (allowed : chunk -> embedding_field -> Prop) (i : Z)
         (chunks : list chunk) (rows : table) : Prop :=
  match rows, chunks with
  | [], _ => True
  | row :: rows', chunk :: rest =>
      (exists embedding,
          allowed chunk embedding
          /\ row = chunk_row document_id i chunk (validate_embedding embedding))
      /\ rows_for allowed (i + 1) rest rows'
  | _ :: _, [] => False
  end.

(** [embed] leaves the table alone and returns an embedding that [allowed]
    admits. *)
Definition embeds (embed : chunk -> U embedding_field)
           (allowed : chunk -> embedding_field -> Prop) : Prop :=
  forall chunk s,
    document_chunks (snd (embed chunk s)) = document_chunks s
    /\ forall embedding, fst (embed chunk s) = Return embedding -> allowed chunk embedding.

Lemma store_chunks_rows embed allowed :
  embeds embed allowed ->
  forall chunks i s,
  exists rows,
    document_chunks (snd (store_chunks db document_id embed i chunks s))
    = document_chunks s ++ rows
    /\ rows_for allowed i chunks rows
    /\ (fst (store_chunks db document_id embed i chunks s) = Return tt ->
        length rows = length chunks).
Proof.
  intros Hembed. induction chunks as [ | chunk rest IH]; intros i s.
  - exists []. simpl. rewrite app_nil_r. auto.
  - simpl store_chunks. unfold mbind, U_bind.
    destruct (Hembed chunk s) as [Hframe Hallowed].
    destruct (embed chunk s) as [[embedding | e] s1]; simpl in Hframe.
    + specialize (Hallowed embedding eq_refl).
      unfold insert_chunk, insert_document_chunk.
      destruct (execute_insert_chunk db (document_chunks s1) _) as [chunk_id | e]; simpl.
      * match goal with
        | |- context [store_chunks _ _ _ _ _ ?s2] => destruct (IH (i + 1) s2) as (rows & Hr & Hf & Hl)
        end.
        simpl in Hr. eexists (_ :: rows).
        split; [ rewrite Hr, <- app_assoc, <- Hframe; reflexivity | ]. split.
        -- simpl. split; [ exists embedding; split; [ exact Hallowed | reflexivity ] | exact Hf ].
        -- intros H. simpl. now rewrite (Hl H).
      * exists []. rewrite app_nil_r. split; [ exact Hframe | ]. split; [ exact I | discriminate ].
    + exists []. simpl. rewrite app_nil_r. split; [ exact Hframe | ].
      split; [ exact I | discriminate ].
Qed.

(** What [rows_for] says about the rows, field by field. *)
Lemma rows_for_fields allowed chunks :
  forall rows i,
    rows_for allowed i chunks rows ->
    map cd_metadata rows = take (length rows) chunks
    /\ map cd_content rows = map chunk_content (take (length rows) chunks)
    /\ map cd_chunk_index rows = map (fun k : nat => i + Z.of_nat k) (seq 0 (length rows))
    /\ Forall (fun row => exists embedding,
                   allowed (cd_metadata row) embedding
                   /\ cd_embedding row = validate_embedding embedding) rows.
Proof.
  induction chunks as [ | chunk rest IH]; intros [ | row rows] i H; simpl in H;
    try contradiction; try (simpl; repeat split; constructor).
  destruct H as [(embedding & Ha & ->) Hrest].
  destruct (IH rows (i + 1) Hrest) as (H1 & H2 & H3 & H4).
  simpl. rewrite H1, H2, H3. split; [ reflexivity | ]. split; [ reflexivity | ]. split.
  - f_equal; [ lia | ]. rewrite <- seq_shift, map_map. apply map_ext. intros k. lia.
  - constructor; [ exists embedding; auto | exact H4 ].
Qed.

End Stored.

(** The embeddings the two loops hand to [insert_document_chunk]. *)
Definition literal_or_none (W : World) (chunk : chunk) (embedding : embedding_field) : Prop :=
  embedding = EmbNone \/ exists x l, embedding = EmbStr (vector_literal W (x :: l)).

Definition list_or_none (chunk : chunk) (embedding : embedding_field) : Prop :=
  embedding = EmbNone \/ exists l, embedding = EmbList l.

Lemma single_embeds W create_embeddings :
  embeds (single_chunk_embedding W create_embeddings) (literal_or_none W).
Proof.
  intros chunk s. unfold single_chunk_embedding, literal_or_none.
  destruct create_embeddings; [ | simpl; split; [ reflexivity | intros ? [= <-]; auto ] ].
  unfold mbind, U_bind, core.
  destruct (generate_embeddings_run W (chunk_content chunk) (calls s)) as (r & ->).
  destruct r as [[ | x l] | ]; simpl; (split; [ reflexivity | intros ? [= <-]; eauto ]).
Qed.

Lemma bulk_embeds W create_embeddings :
  embeds (bulk_chunk_embedding W create_embeddings) list_or_none.
Proof.
  intros chunk s. unfold bulk_chunk_embedding, list_or_none.
  destruct create_embeddings; [ | simpl; split; [ reflexivity | intros ? [= <-]; eauto ] ].
  unfold mbind, U_bind, core.
  destruct (generate_embeddings_run W (chunk_content chunk) (calls s)) as (r & ->).
  destruct r as [l | ]; simpl; (split; [ reflexivity | intros ? [= <-]; eauto ]).
Qed.

Lemma validate_list_or_none chunk embedding :
  list_or_none chunk embedding -> validate_embedding embedding = EmbNone.
Proof.
  intros [-> | [l ->]]; [ reflexivity | ].
  unfold validate_embedding, empty_list_or_dict. destruct (bool_decide (l = [])); reflexivity.
Qed.

Lemma endswith_append s c : endswith c (s +:+ String c "") = true.
Proof.
  unfold endswith, string_rev.
  assert (E : list_ascii_of_string (s +:+ String c "") = list_ascii_of_string s ++ [c]).
  { induction s as [ | a s IH]; [ reflexivity | ].
    change (String a s +:+ String c "") with (String a (s +:+ String c "")).
    simpl. now rewrite IH. }
  rewrite E, rev_app_distr. simpl. apply Ascii.eqb_refl.
Qed.

(** The validation keeps a vector literal as it is. *)
Lemma validate_vector_literal W embedding :
  validate_embedding (EmbStr (vector_literal W embedding))
  = EmbStr (vector_literal W embedding).
Proof.
  unfold validate_embedding, vector_literal. simpl empty_list_or_dict. cbv iota.
  assert (E : "[" +:+ py_join "," (map (float_repr W) embedding) +:+ "]"
              = ("[" +:+ py_join "," (map (float_repr W) embedding)) +:+ "]").
  { reflexivity. }
  rewrite E at 2. rewrite endswith_append. reflexivity.
Qed.

(** The rows a loop added to the table. *)
Definition added (loop : U unit) (s : state) (rows : table) : Prop :=
  document_chunks (snd (loop s)) = document_chunks s ++ rows.

(** The loop stored one row per chunk, in the order of the chunks, up to
    the first failure; all of them when it returned. *)
Definition one_row_per_chunk (loop : U unit) (s : state) (chunks : list chunk)
           (rows : table) : Prop :=
  map cd_metadata rows = take (length rows) chunks
  /\ map cd_content rows = map chunk_content (take (length rows) chunks)
  /\ (fst (loop s) = Return tt -> length rows = length chunks).

Lemma store_chunks_one_row_per_chunk db document_id embed allowed chunks s :
  embeds embed allowed ->
  exists rows,
    added (store_chunks db document_id embed 0 chunks) s rows
    /\ one_row_per_chunk (store_chunks db document_id embed 0 chunks) s chunks rows
    /\ map cd_chunk_index rows = map Z.of_nat (seq 0 (length rows))
    /\ Forall (fun row => exists embedding,
                   allowed (cd_metadata row) embedding
                   /\ cd_embedding row = validate_embedding embedding) rows.
Proof.
  intros Hembed.
  destruct (store_chunks_rows db document_id embed allowed Hembed chunks 0 s)
    as (rows & Hadded & Hrows & Hlen).
  destruct (rows_for_fields document_id allowed chunks rows 0 Hrows) as (H1 & H2 & H3 & H4).
  exists rows. unfold added, one_row_per_chunk. auto 10.
Qed.

(** X22. The loops of [process_bulk_documents] and [process_existing_files]
    hand the embedding to [insert_document_chunk] as the list
    [generate_embeddings] returned (or as the empty list), and the validation
    of [insert_document_chunk] replaces every list by [None]: whatever the
    embedding provider and the database answer, every chunk row these loops
    store has no embedding. *)
Theorem bulk_upload_stores_no_chunk_embedding
        (W : World) (db : Server) (document_id : str) (create_embeddings : bool)
        (chunks : list chunk) (s : state) :
  exists rows,
    added (store_chunks_bulk W db document_id create_embeddings chunks) s rows
    /\ one_row_per_chunk (store_chunks_bulk W db document_id create_embeddings chunks)
                         s chunks rows
    /\ Forall (fun row => cd_embedding row = EmbNone) rows.
Proof.
  destruct (store_chunks_one_row_per_chunk db document_id
              (bulk_chunk_embedding W create_embeddings) list_or_none chunks s
              (bulk_embeds W create_embeddings))
    as (rows & Hadded & Hone & _ & Hemb).
  exists rows. split; [ exact Hadded | ]. split; [ exact Hone | ].
  eapply Forall_impl; [ exact Hemb | ].
  intros row (embedding & Ha & ->). apply (validate_list_or_none _ _ Ha).
Qed.

(** The embedding provider answers every request with a list that is not
    empty. *)
Definition always_embeds (W : World) : Prop :=
  forall tr model content,
  exists x l, genai_embed_content W tr model content = Return (Some (x :: l)).

Definition literal (W : World) (chunk : chunk) (embedding : embedding_field) : Prop :=
  exists x l, embedding = EmbStr (vector_literal W (x :: l)).

Lemma single_embeds_literal W :
  always_embeds W -> embeds (single_chunk_embedding W true) (literal W).
Proof.
  intros Halways chunk s. unfold single_chunk_embedding, literal.
  unfold mbind, U_bind, core, generate_embeddings.
  rewrite embedding_model_set. unfold try_except, mbind, M_bind, call.
  destruct (Halways (calls s) embedding_model (chunk_content chunk)) as (x & l & ->).
  simpl. split; [ reflexivity | intros ? [= <-]; eauto ].
Qed.

(** X23. The loop of [process_single_document] hands the embedding to
    [insert_document_chunk] as a vector literal, which the validation keeps:
    every chunk row it stores has either no embedding or the literal of a
    non-empty embedding, and when embeddings are requested and the provider
    answers every request with a non-empty list, every stored row has one. *)
Theorem single_upload_stores_vector_literals
        (W : World) (db : Server) (document_id : str) (create_embeddings : bool)
        (chunks : list chunk) (s : state) :
  exists rows,
    added (store_chunks_single W db document_id create_embeddings chunks) s rows
    /\ one_row_per_chunk (store_chunks_single W db document_id create_embeddings chunks)
                         s chunks rows
    /\ Forall (fun row =>
                 cd_embedding row = EmbNone
                 \/ exists x l, cd_embedding row = EmbStr (vector_literal W (x :: l))) rows
    /\ (create_embeddings = true -> always_embeds W ->
        Forall (fun row => exists x l, cd_embedding row = EmbStr (vector_literal W (x :: l)))
               rows).
Proof.
  destruct (store_chunks_one_row_per_chunk db document_id
              (single_chunk_embedding W create_embeddings) (literal_or_none W) chunks s
              (single_embeds W create_embeddings))
    as (rows & Hadded & Hone & _ & Hemb).
  exists rows. split; [ exact Hadded | ]. split; [ exact Hone | ]. split.
  - eapply Forall_impl; [ exact Hemb | ].
    intros row (embedding & [-> | (x & l & ->)] & ->); [ left; reflexivity | right ].
    exists x, l. apply validate_vector_literal.
  - intros -> Halways.
    destruct (store_chunks_one_row_per_chunk db document_id
                (single_chunk_embedding W true) (literal W) chunks s
                (single_embeds_literal W Halways))
      as (rows' & Hadded' & _ & _ & Hemb').
    unfold added, store_chunks_single in *. rewrite Hadded in Hadded'.
    apply app_inv_head in Hadded'. subst rows'.
    eapply Forall_impl; [ exact Hemb' | ].
    intros row (embedding & (x & l & ->) & ->). exists x, l. apply validate_vector_literal.
Qed.

(** A server that stores every row. *)
Definition accepting : Server := {| execute_insert_chunk := fun rows _ => Return "id" |}.

Lemma single_upload_stores_vector_literals_witness :
  exists rows,
    added (store_chunks_single Samples.healthy accepting "d1" true
                               (chunk_document "bone loss in mice" 2 0))
          {| calls := []; document_chunks := [] |} rows
    /\ length rows = 2%nat
    /\ Forall (fun row => exists x l,
                   cd_embedding row = EmbStr (vector_literal Samples.healthy (x :: l))) rows.
Proof.
  destruct (single_upload_stores_vector_literals
              Samples.healthy accepting "d1" true (chunk_document "bone loss in mice" 2 0)
              {| calls := []; document_chunks := [] |})
    as (rows & Hadded & (_ & _ & Hlen) & _ & Hall).
  exists rows. split; [ exact Hadded | ]. split.
  - rewrite Hlen; reflexivity.
  - apply Hall; [ reflexivity | ]. intros tr model content. exists f0_1, [f0_3]. reflexivity.
Defined.

Lemma default_chunks_positions content :
  map chunk_index (chunk_document content 1000 200)
  = map Z.of_nat (seq 0 (length (chunk_document content 1000 200))).
Proof.
  rewrite ChunkWindows.chunk_document_eq by lia.
  rewrite length_map, map_map, length_seq. reflexivity.
Qed.

Lemma positions_of_rows (chunks : list chunk) (rows : table) :
  map chunk_index chunks = map Z.of_nat (seq 0 (length chunks)) ->
  map cd_metadata rows = take (length rows) chunks ->
  map cd_chunk_index rows = map Z.of_nat (seq 0 (length rows)) ->
  Forall (fun row => cd_chunk_index row = chunk_index (cd_metadata row)) rows.
Proof.
  intros Hc Hm Hi.
  assert (Hlen : (length rows <= length chunks)%nat).
  { apply (f_equal (@length chunk)) in Hm. rewrite length_map, length_take in Hm. lia. }
  assert (E : map cd_chunk_index rows = map chunk_index (map cd_metadata rows)).
  { rewrite Hm, Hi. rewrite <- (firstn_map chunk_index), Hc.
    rewrite firstn_map. f_equal.
    replace (length chunks) with (length rows + (length chunks - length rows))%nat by lia.
    rewrite seq_app. change firstn with (@take nat). now rewrite take_app_length'
      by (now rewrite length_seq). }
  rewrite map_map in E. clear - E.
  induction rows as [ | row rows IH]; [ constructor | ].
  simpl in E. injection E as E1 E2. constructor; [ exact E1 | apply IH, E2 ].
Qed.

(** X24. The upload page numbers the rows it stores with the loop counter,
    not with the chunk's own [chunk_index]; for the chunks of
    [chunk_document] (called, as the page does, with the default chunk size
    and overlap) the two agree, in both kinds of loop and wherever the loop
    stops. *)
Theorem stored_chunk_index_is_chunk_position
        (W : World) (db : Server) (document_id : str) (create_embeddings : bool)
        (content : str) (s : state) :
  let chunks := chunk_document content 1000 200 in
  (exists rows,
      added (store_chunks_single W db document_id create_embeddings chunks) s rows
      /\ Forall (fun row => cd_chunk_index row = chunk_index (cd_metadata row)) rows)
  /\ (exists rows,
      added (store_chunks_bulk W db document_id create_embeddings chunks) s rows
      /\ Forall (fun row => cd_chunk_index row = chunk_index (cd_metadata row)) rows).
Proof.
  intros chunks. split.
  - destruct (store_chunks_one_row_per_chunk db document_id
                (single_chunk_embedding W create_embeddings) (literal_or_none W) chunks s
                (single_embeds W create_embeddings))
      as (rows & Hadded & (Hm & _) & Hi & _).
    exists rows. split; [ exact Hadded | ].
    apply (positions_of_rows chunks rows (default_chunks_positions content) Hm Hi).
  - destruct (store_chunks_one_row_per_chunk db document_id
                (bulk_chunk_embedding W create_embeddings) list_or_none chunks s
                (bulk_embeds W create_embeddings))
      as (rows & Hadded & (Hm & _) & Hi & _).
    exists rows. split; [ exact Hadded | ].
    apply (positions_of_rows chunks rows (default_chunks_positions content) Hm Hi).
Qed.

End UploadFacts.

(* ===================================================================== *)
(** * The confidence of an answer *)
(* ===================================================================== *)

Module AnswerConfidence.
Import Binary64 Py Data Effects Agents Rag MonadFacts Binary64Facts Binary64Round Confidence.
Import RetrievalCalls AgentCalls RetrievedConfidence.

(** A float with two decimals between [0.0] and [1.0]: the float nearest to
    [n / 100] for an integer [0 <= n <= 100]. *)
Definition hundredth (v : value) : Prop :=
  exists c n, v = VFloat c /\ 0 <= n <= 100 /\ c = ratio n 100
              /\ leb zero c = true /\ leb c one = true.

Lemma zero_hundredth : hundredth (VFloat zero).
Proof. exists zero, 0. repeat split; try reflexivity; lia. Qed.

Lemma calculate_confidence_hundredth sr xs :
  map similarity_of (default [] (sr_documents sr) ++ default [] (sr_chunks sr))
  = map VFloat xs ->
  Forall (fun x => ge0 x = true) xs ->
  py_len xs < 2 ^ 53 ->
  hundredth (_calculate_confidence sr).
Proof.
  intros Hscores Hge Hlen. unfold _calculate_confidence.
  rewrite calculate_confidence_body_scoring, Hscores.
  destruct xs as [ | x xs]; [ apply zero_hundredth | ].
  rewrite (scoring_floats (x :: xs)) by (discriminate || exact Hlen).
  destruct (confidence_formula_two_decimals (x :: xs) ltac:(discriminate) Hlen Hge)
    as (n & Hn & Hc).
  pose proof (ratio_hundredth_in_unit n Hn) as Hu.
  unfold in_unit_interval in Hu. apply andb_prop in Hu as [Hu0 Hu1].
  exists (confidence_formula (x :: xs)), n. rewrite Hc. auto.
Qed.

(** The confidence [generate_answer] reports is the one it computed from
    the retrieval result, or [0.0] when the pipeline failed. *)
Lemma generate_answer_confidence_source W query sr tr :
  exists ad tr',
    generate_answer W query sr tr = (Return ad, tr')
    /\ (ad_confidence ad = VFloat zero \/ ad_confidence ad = _calculate_confidence sr).
Proof.
  unfold generate_answer, try_except.
  destruct (classify_query_run W query tr) as (sq & d1 & H1 & _).
  rewrite bind_run, H1.
  destruct (execute_search_run W sq (default [] (sr_documents sr))
                               (default [] (sr_knowledge_graph sr)) (tr ++ d1))
    as (r & d2 & H2 & _).
  rewrite bind_run, H2.
  destruct r as [answer q n1 n2 history | error q].
  - destruct (generate_follow_up_questions_run W query answer ((tr ++ d1) ++ d2))
      as (qs & d3 & H3 & _).
    rewrite bind_run, H3. do 2 eexists. split; [ reflexivity | right; reflexivity ].
  - do 2 eexists. split; [ reflexivity | left; reflexivity ].
Qed.

(** X25. When the document store returns rows whose similarity is a float,
    and no more rows than asked for, and the threshold is a float with a
    clear sign bit (as the default [0.7] is), the confidence of every answer
    of [ask_question] is a float with two decimals between [0.0] and [1.0],
    whatever the other services do: the value computed from the retrieved
    scores when the pipeline completes, and [0.0] when a stage or a write to
    the chat store fails. *)
Theorem ask_question_confidence_is_a_hundredth
        (W : World) (self : RAGSystem) (query : str) (session_id : option str) (tr : trace) :
  document_store_well_formed W ->
  signpos (similarity_threshold self) = true ->
  exists answer tr',
    ask_question W self query session_id tr = (Return answer, tr')
    /\ hundredth (ans_confidence answer).
Proof.
  intros Hstore Ht.
  destruct (hybrid_search_scores W self query true tr Hstore Ht)
    as (sr & tr1 & xs & Hs & Hscores & Hge & Hlen).
  assert (Hconf : hundredth (_calculate_confidence sr))
    by (apply (calculate_confidence_hundredth sr xs Hscores Hge); lia).
  destruct (generate_answer_confidence_source W query sr tr1) as (ad & tr2 & Hg & Hc).
  assert (Had : hundredth (ad_confidence ad)).
  { destruct Hc as [-> | ->]; [ apply zero_hundredth | exact Hconf ]. }
  unfold ask_question, try_except, ask_question_body.
  rewrite bind_run, Hs, bind_run, Hg. cbv beta iota.
  destruct session_id as [s | ]; [ destruct (str_truthy s) | ].
  - unfold Store.add_chat_message. run_monad.
    destruct (db_add_chat_message W tr2 s "user" query []) as [id1 | e1]; simpl.
    + destruct (db_add_chat_message W (tr2 ++ _) s "assistant" _ _) as [id2 | e2]; simpl;
        do 2 eexists; (split; [ reflexivity | ]); simpl;
        [ exact Had | apply zero_hundredth ].
    + do 2 eexists. split; [ reflexivity | ]. simpl. apply zero_hundredth.
  - run_monad. do 2 eexists. split; [ reflexivity | exact Had ].
  - run_monad. do 2 eexists. split; [ reflexivity | exact Had ].
Qed.

(** A store that honours the limit (and rejects a negative one). *)
Definition limited_store : World :=
  {| genai_embed_content := genai_embed_content Samples.healthy;
     db_search_similar_documents :=
       fun _ _ limit =>
         if limit <? 0 then Raise Samples.unavailable
         else Return (take (Z.to_nat limit) [Samples.bone_doc; Samples.weak_doc]);
     db_search_similar_chunks :=
       fun _ _ limit =>
         if limit <? 0 then Raise Samples.unavailable
         else Return (take (Z.to_nat limit) [Samples.bone_chunk]);
     db_add_chat_message := db_add_chat_message Samples.healthy;
     neo4j_driver := neo4j_driver Samples.healthy;
     neo4j_run_search := neo4j_run_search Samples.healthy;
     neo4j_run_relationships := neo4j_run_relationships Samples.healthy;
     llm := llm Samples.healthy;
     json_loads_dict := json_loads_dict Samples.healthy;
     json_loads_list := json_loads_list Samples.healthy;
     float_repr := float_repr Samples.healthy |}.

Lemma limited_store_well_formed : document_store_well_formed limited_store.
Proof.
  split; intros tr emb limit rows H; simpl in H;
    (destruct (limit <? 0) eqn:E; [ discriminate | ]);
    apply Z.ltb_ge in E; injection H as <-; (split; [ | unfold py_len; rewrite length_take; simpl; lia ]);
    apply Forall_take; repeat constructor; eexists; reflexivity.
Qed.

Lemma ask_question_confidence_is_a_hundredth_witness :
  exists answer tr',
    ask_question limited_store RAGSystem_init Samples.bone_query None []
    = (Return answer, tr')
    /\ hundredth (ans_confidence answer).
Proof.
  apply (ask_question_confidence_is_a_hundredth limited_store RAGSystem_init
                                                Samples.bone_query None []).
  - apply limited_store_well_formed.
  - reflexivity.
Defined.

End AnswerConfidence.
